(** * add_paper.py: the paper submission pipeline

    A shallow embedding of [src/add_paper.py] (credential fetch, object
    upload, server notification, payload assembly, paper creation, local
    persistence) together with the parts of the Python runtime the file
    relies on: [str] methods, the [json] module and the objects exchanged
    with the browser page.

    Conventions.
    - A Python [str] is a list of code points ([N]).
    - A Python [int] is a [Z].
    - A Python [float] is carried by an exact decimal [m * 10^e]; binary
      rounding and overflow are not modelled.
    - Calls that leave the process (the browser page, the object store, the
      language model, the file system, the UUID generator) are answered by a
      [World]; every such call is recorded in a trace of events. *)

From Stdlib Require Import List ZArith NArith Lia Bool String Ascii Decimal DecimalN DecimalPos DecimalFacts.
Import ListNotations.

Set Implicit Arguments.
Local Open Scope N_scope.

(** ** Python strings *)

Definition char := N.
Definition str := list char.

(** A literal of the embedding: the code points of an ASCII text. *)
Fixpoint lit (s : string) : str :=
  match s with
  | EmptyString => []
  | String a r => N_of_ascii a :: lit r
  end.

Definition DQUOTE : char := 34.
Definition BACKSLASH : char := 92.
Definition COMMA : char := 44.
Definition COLON : char := 58.
Definition SLASH : char := 47.
Definition LBRACE : char := 123.
Definition RBRACE : char := 125.
Definition LBRACKET : char := 91.
Definition RBRACKET : char := 93.
Definition SPACE : char := 32.
Definition NEWLINE : char := 10.
Definition MINUS : char := 45.
Definition PLUS : char := 43.
Definition DOT : char := 46.
Definition ZERO : char := 48.

(** [quoted s] is [s] between two double quotes. *)
Definition quoted (s : str) : str := DQUOTE :: s ++ [DQUOTE].

Fixpoint str_eqb (a b : str) : bool :=
  match a, b with
  | [], [] => true
  | x :: a', y :: b' => (x =? y) && str_eqb a' b'
  | _, _ => false
  end.

(** [str.isspace] for one code point (CPython's [Py_UNICODE_ISSPACE]). *)
Definition py_isspace (c : char) : bool :=
  ((9 <=? c) && (c <=? 13)) || ((28 <=? c) && (c <=? 32)) ||
  (c =? 133) || (c =? 160) || (c =? 5760) ||
  ((8192 <=? c) && (c <=? 8202)) || (c =? 8232) || (c =? 8233) ||
  (c =? 8239) || (c =? 8287) || (c =? 12288).

Definition is_char (x : char) (c : char) : bool := c =? x.

(** [s.rstrip(...)]: drop the longest suffix whose characters satisfy [p]. *)
Fixpoint rstrip_by (p : char -> bool) (s : str) : str :=
  match s with
  | [] => []
  | c :: r =>
      match rstrip_by p r with
      | [] => if p c then [] else [c]
      | r' => c :: r'
      end
  end.

(** [s.lstrip(...)]. *)
Fixpoint lstrip_by (p : char -> bool) (s : str) : str :=
  match s with
  | [] => []
  | c :: r => if p c then lstrip_by p r else s
  end.

Definition strip_by (p : char -> bool) (s : str) : str :=
  rstrip_by p (lstrip_by p s).

(** [s.rstrip()], [s.rstrip(',')], [s.strip()] and [s.strip(q)] for a
    one-character [q]. *)
Definition rstrip (s : str) : str := rstrip_by py_isspace s.
Definition rstrip_chars (x : char) (s : str) : str := rstrip_by (is_char x) s.
Definition strip (s : str) : str := strip_by py_isspace s.
Definition strip_chars (x : char) (s : str) : str := strip_by (is_char x) s.

(** [s.split(sep, 1)] for a one-character separator: one part when [sep]
    does not occur, otherwise the text before and after its first
    occurrence. *)
Fixpoint split_once (sep : char) (s : str) : list str :=
  match s with
  | [] => [[]]
  | c :: r =>
      if c =? sep then [[]; r]
      else match split_once sep r with
           | h :: t => (c :: h) :: t
           | [] => [[c]]
           end
  end.

(** [posixpath.basename]: the text after the last slash. *)
Fixpoint posix_basename (p : str) : str :=
  match p with
  | [] => []
  | c :: r =>
      if existsb (is_char SLASH) r then posix_basename r
      else if c =? SLASH then r else p
  end.

(** ** Python objects exchanged as JSON *)

(** A float: not-a-number, an infinity, or the decimal [(-1)^neg * m * 10^e]. *)
Inductive pyfloat : Type :=
| FNan
| FInf (neg : bool)
| FDec (neg : bool) (m : N) (e : Z).

#[warnings="-register-all"]
Inductive pyobj : Type :=
| PyNone
| PyBool (b : bool)
| PyInt (z : Z)
| PyFloat (f : pyfloat)
| PyStr (s : str)
| PyList (l : list pyobj)
| PyDict (d : list (str * pyobj)).

(** A [dict] keeps its keys in insertion order. *)
Definition dict := list (str * pyobj).

Fixpoint dict_get (k : str) (d : dict) : option pyobj :=
  match d with
  | [] => None
  | (k', v) :: r => if str_eqb k k' then Some v else dict_get k r
  end.

(** [d[k] = v]: an existing key keeps its place and takes the new value, a
    new key goes last. *)
Fixpoint dict_set (k : str) (v : pyobj) (d : dict) : dict :=
  match d with
  | [] => [(k, v)]
  | (k', v') :: r =>
      if str_eqb k k' then (k', v) :: r else (k', v') :: dict_set k v r
  end.

(** [dict(pairs)]. *)
Definition dict_of_pairs (pairs : list (str * pyobj)) : dict :=
  fold_left (fun d kv => dict_set (fst kv) (snd kv) d) pairs [].

(** [d.get(k)] *)
Definition dict_get_default (k : str) (d : dict) : pyobj :=
  match dict_get k d with
  | Some v => v
  | None => PyNone
  end.

Definition dict_has (k : str) (d : dict) : bool :=
  match dict_get k d with
  | Some _ => true
  | None => false
  end.

(** Truth value of an object ([bool(x)]). *)
Definition truthy (v : pyobj) : bool :=
  match v with
  | PyNone => false
  | PyBool b => b
  | PyInt z => negb (z =? 0)%Z
  | PyFloat (FDec _ m _) => negb (m =? 0)
  | PyFloat _ => true
  | PyStr s => match s with [] => false | _ => true end
  | PyList l => match l with [] => false | _ => true end
  | PyDict d => match d with [] => false | _ => true end
  end.

(** ** The [json] module: decoding ([json.loads]) *)

(** The four characters [json.decoder.WHITESPACE] skips. *)
Definition is_json_ws (c : char) : bool :=
  (c =? 32) || (c =? 9) || (c =? 10) || (c =? 13).

Fixpoint skip_ws (s : str) : str :=
  match s with
  | [] => []
  | c :: r => if is_json_ws c then skip_ws r else s
  end.

Definition is_digit (c : char) : bool := (48 <=? c) && (c <=? 57).

Fixpoint span_digits (s : str) : str * str :=
  match s with
  | [] => ([], [])
  | c :: r =>
      if is_digit c then let (ds, r') := span_digits r in (c :: ds, r')
      else ([], s)
  end.

(** [strip_prefix p s]: what follows [p] when [s] starts with [p]. *)
Fixpoint strip_prefix (p s : str) : option str :=
  match p, s with
  | [], _ => Some s
  | x :: p', y :: s' => if x =? y then strip_prefix p' s' else None
  | _ :: _, [] => None
  end.

(** Decimal digits and the numbers they write. *)
Definition digit_cons (c : char) (u : uint) : uint :=
  match c - 48 with
  | 0 => D0 u
  | 1 => D1 u
  | 2 => D2 u
  | 3 => D3 u
  | 4 => D4 u
  | 5 => D5 u
  | 6 => D6 u
  | 7 => D7 u
  | 8 => D8 u
  | _ => D9 u
  end.

Fixpoint uint_of_digits (ds : str) : uint :=
  match ds with
  | [] => Nil
  | c :: r => digit_cons c (uint_of_digits r)
  end.

Fixpoint digits_of_uint (u : uint) : str :=
  match u with
  | Nil => []
  | D0 r => 48 :: digits_of_uint r
  | D1 r => 49 :: digits_of_uint r
  | D2 r => 50 :: digits_of_uint r
  | D3 r => 51 :: digits_of_uint r
  | D4 r => 52 :: digits_of_uint r
  | D5 r => 53 :: digits_of_uint r
  | D6 r => 54 :: digits_of_uint r
  | D7 r => 55 :: digits_of_uint r
  | D8 r => 56 :: digits_of_uint r
  | D9 r => 57 :: digits_of_uint r
  end.

Definition N_of_digits (ds : str) : N := N.of_uint (uint_of_digits ds).
Definition digits_of_N (n : N) : str := digits_of_uint (N.to_uint n).

Definition signed (neg : bool) (n : N) : Z :=
  if neg then (- Z.of_N n)%Z else Z.of_N n.

(** [float(text)] for the text [-? ip . fr e ex] the scanner has matched:
    the decimal [ip.fr * 10^ex] with the trailing zeros of its digits moved
    into the exponent. *)
Definition float_of_literal (neg : bool) (ip fr : str) (ex : Z) : pyfloat :=
  let ds := ip ++ fr in
  let ds' := rstrip_by (is_char ZERO) ds in
  let m := N_of_digits ds' in
  if m =? 0 then FDec neg 0 0
  else FDec neg m
         (ex - Z.of_nat (List.length fr)
          + Z.of_nat (List.length ds - List.length ds'))%Z.

(** [NUMBER_RE], matched at the start of [s]: an optional minus sign and
    an integer part (a lone zero, or a non-zero digit and more digits), then
    optionally a dot and one or more digits, then optionally [e] or [E], an
    optional sign and one or more digits. *)
Definition scan_int_part (s : str) : option (str * str) :=
  match s with
  | [] => None
  | c :: r =>
      if c =? ZERO then Some ([ZERO], r)
      else if is_digit c then let (ds, r') := span_digits r in Some (c :: ds, r')
      else None
  end.

Definition scan_frac (s : str) : str * str :=
  match s with
  | [] => ([], s)
  | c :: r =>
      if c =? DOT then
        match span_digits r with
        | ([], _) => ([], s)
        | (ds, r') => (ds, r')
        end
      else ([], s)
  end.

Definition scan_sign (s : str) : bool * str :=
  match s with
  | [] => (false, s)
  | c :: r =>
      if c =? MINUS then (true, r)
      else if c =? PLUS then (false, r)
      else (false, s)
  end.

Definition scan_exp (s : str) : option Z * str :=
  match s with
  | [] => (None, s)
  | c :: r =>
      if (c =? 101) || (c =? 69) then
        let (neg, r1) := scan_sign r in
        match span_digits r1 with
        | ([], _) => (None, s)
        | (ds, r2) => (Some (signed neg (N_of_digits ds)), r2)
        end
      else (None, s)
  end.

Definition match_number (s : str) : option (pyobj * str) :=
  let (neg, s1) :=
    match s with
    | c :: r => if c =? MINUS then (true, r) else (false, s)
    | [] => (false, s)
    end in
  match scan_int_part s1 with
  | None => None
  | Some (ip, r1) =>
      let (fr, r2) := scan_frac r1 in
      let (ex, r3) := scan_exp r2 in
      match fr, ex with
      | [], None => Some (PyInt (signed neg (N_of_digits ip)), r3)
      | _, Some e => Some (PyFloat (float_of_literal neg ip fr e), r3)
      | _, None => Some (PyFloat (float_of_literal neg ip fr 0), r3)
      end
  end.

(** Hexadecimal digits of a [\uXXXX] escape. *)
Definition hexval (c : char) : option N :=
  if is_digit c then Some (c - 48)
  else if (97 <=? c) && (c <=? 102) then Some (c - 87)
  else if (65 <=? c) && (c <=? 70) then Some (c - 55)
  else None.

Definition decode_hex4 (a b c d : char) : option N :=
  match hexval a, hexval b, hexval c, hexval d with
  | Some x, Some y, Some z, Some w => Some (((x * 16 + y) * 16 + z) * 16 + w)
  | _, _, _, _ => None
  end.

(** The table [json.decoder.BACKSLASH]. *)
Definition unescape (c : char) : option char :=
  if c =? 34 then Some 34
  else if c =? 92 then Some 92
  else if c =? 47 then Some 47
  else if c =? 98 then Some 8
  else if c =? 102 then Some 12
  else if c =? 110 then Some 10
  else if c =? 114 then Some 13
  else if c =? 116 then Some 9
  else None.

Definition push_char (c : char) (o : option (str * str)) : option (str * str) :=
  match o with
  | Some (k, rest) => Some (c :: k, rest)
  | None => None
  end.

Definition is_high_surrogate (u : N) : bool := (55296 <=? u) && (u <=? 56319).
Definition is_low_surrogate (u : N) : bool := (56320 <=? u) && (u <=? 57343).

(** [_decode_uXXXX]: four hexadecimal digits. *)
Definition take_hex4 (s : str) : option (N * str) :=
  match s with
  | a :: b :: c :: d :: r =>
      match decode_hex4 a b c d with
      | Some u => Some (u, r)
      | None => None
      end
  | _ => None
  end.

(** Whether [s] starts with a backslash and a [u]. *)
Definition starts_with_u_escape (s : str) : bool :=
  match s with
  | b :: u :: _ => (b =? BACKSLASH) && (u =? 117)
  | _ => false
  end.

(** The escape sequence whose text after the backslash is [s]: the
    character it denotes and the text after it.  A high surrogate followed
    by the escape of a low surrogate makes one character. *)
Definition decode_escape (s : str) : option (char * str) :=
  match s with
  | [] => None
  | e :: r1 =>
      if e =? 117 then
        match take_hex4 r1 with
        | None => None
        | Some (uni, r2) =>
            if is_high_surrogate uni && starts_with_u_escape r2 then
              match take_hex4 (skipn 2 r2) with
              | None => None
              | Some (uni2, r4) =>
                  if is_low_surrogate uni2 then
                    Some (65536 + N.lor (N.shiftl (uni - 55296) 10) (uni2 - 56320), r4)
                  else Some (uni, r2)
              end
            else Some (uni, r2)
        end
      else
        match unescape e with
        | Some ch => Some (ch, r1)
        | None => None
        end
  end.

(** The loop of [scanstring] (strict): [s] is the text after the opening
    quote; the result is the decoded string and the text after the closing
    quote.  Every round consumes a character, so [fuel] need not exceed the
    length of [s]. *)
Fixpoint scanstring_loop (fuel : nat) (s : str) : option (str * str) :=
  match fuel with
  | O => None
  | S n =>
      match s with
      | [] => None
      | c :: r =>
          if c =? DQUOTE then Some ([], r)
          else if c =? BACKSLASH then
            match decode_escape r with
            | None => None
            | Some (ch, r') => push_char ch (scanstring_loop n r')
            end
          else if c <? 32 then None
          else push_char c (scanstring_loop n r)
      end
  end.

Definition scanstring (s : str) : option (str * str) :=
  scanstring_loop (List.length s) s.

(** The part of [scan_once] that reads a constant or a number, in the order
    of its tests. *)
Definition scan_literal (s : str) : option (pyobj * str) :=
  match strip_prefix (lit "null") s with
  | Some rest => Some (PyNone, rest)
  | None =>
  match strip_prefix (lit "true") s with
  | Some rest => Some (PyBool true, rest)
  | None =>
  match strip_prefix (lit "false") s with
  | Some rest => Some (PyBool false, rest)
  | None =>
  match match_number s with
  | Some res => Some res
  | None =>
  match strip_prefix (lit "NaN") s with
  | Some rest => Some (PyFloat FNan, rest)
  | None =>
  match strip_prefix (lit "Infinity") s with
  | Some rest => Some (PyFloat (FInf false), rest)
  | None =>
  match strip_prefix (lit "-Infinity") s with
  | Some rest => Some (PyFloat (FInf true), rest)
  | None => None
  end end end end end end end.

(** [scan_once], [JSONObject] and [JSONArray] of [json.scanner] and
    [json.decoder].  [fuel] bounds the number of nested calls; [json_loads]
    supplies more than any text can use. *)
Fixpoint scan_once (fuel : nat) (s : str) : option (pyobj * str) :=
  match fuel with
  | O => None
  | S n =>
      match s with
      | [] => None
      | c :: r =>
          if c =? DQUOTE then
            match scanstring r with
            | Some (k, rest) => Some (PyStr k, rest)
            | None => None
            end
          else if c =? LBRACE then
            match skip_ws r with
            | c1 :: r1 =>
                if c1 =? RBRACE then Some (PyDict [], r1)
                else if c1 =? DQUOTE then
                  match JSONObject_loop n r1 with
                  | Some (pairs, rest) => Some (PyDict (dict_of_pairs pairs), rest)
                  | None => None
                  end
                else None
            | [] => None
            end
          else if c =? LBRACKET then
            match skip_ws r with
            | c1 :: r1 =>
                if c1 =? RBRACKET then Some (PyList [], r1)
                else
                  match JSONArray_loop n (c1 :: r1) with
                  | Some (values, rest) => Some (PyList values, rest)
                  | None => None
                  end
            | [] => None
            end
          else scan_literal s
      end
  end
with JSONObject_loop (fuel : nat) (s : str) : option (list (str * pyobj) * str) :=
  match fuel with
  | O => None
  | S n =>
      match scanstring s with
      | None => None
      | Some (key, r1) =>
          match skip_ws r1 with
          | c :: r2 =>
              if c =? COLON then
                match scan_once n (skip_ws r2) with
                | None => None
                | Some (value, r3) =>
                    match skip_ws r3 with
                    | c' :: r4 =>
                        if c' =? RBRACE then Some ([(key, value)], r4)
                        else if c' =? COMMA then
                          match skip_ws r4 with
                          | q :: r5 =>
                              if q =? DQUOTE then
                                match JSONObject_loop n r5 with
                                | Some (pairs, rest) => Some ((key, value) :: pairs, rest)
                                | None => None
                                end
                              else None
                          | [] => None
                          end
                        else None
                    | [] => None
                    end
                end
              else None
          | [] => None
          end
      end
  end
with JSONArray_loop (fuel : nat) (s : str) : option (list pyobj * str) :=
  match fuel with
  | O => None
  | S n =>
      match scan_once n s with
      | None => None
      | Some (value, r1) =>
          match skip_ws r1 with
          | c :: r2 =>
              if c =? RBRACKET then Some ([value], r2)
              else if c =? COMMA then
                match JSONArray_loop n (skip_ws r2) with
                | Some (values, rest) => Some (value :: values, rest)
                | None => None
                end
              else None
          | [] => None
          end
      end
  end.

(** [s.startswith] of the byte order mark. *)
Definition starts_with_bom (s : str) : bool :=
  match s with
  | c :: _ => c =? 65279
  | [] => false
  end.

(** [json.loads(s)] for a [str]: [None] stands for [JSONDecodeError]. *)
Definition json_loads (s : str) : option pyobj :=
  if starts_with_bom s then None
  else
    match scan_once (S (List.length s)) (skip_ws s) with
    | Some (v, rest) =>
        match skip_ws rest with
        | [] => Some v
        | _ :: _ => None
        end
    | None => None
    end.

(** ** The [json] module: encoding ([json.dumps]) *)

Definition hexdigit (n : N) : char := if n <? 10 then 48 + n else 87 + n.

(** [ESCAPE_DCT] of [json.encoder], as used with [ensure_ascii=False]. *)
Definition escape_char (c : char) : str :=
  if c =? 34 then [92; 34]
  else if c =? 92 then [92; 92]
  else if c =? 8 then [92; 98]
  else if c =? 12 then [92; 102]
  else if c =? 10 then [92; 110]
  else if c =? 13 then [92; 114]
  else if c =? 9 then [92; 116]
  else if c <? 32 then [92; 117; 48; 48; hexdigit (c / 16); hexdigit (c mod 16)]
  else [c].

Definition encode_basestring (s : str) : str :=
  DQUOTE :: flat_map escape_char s ++ [DQUOTE].

(** [int.__repr__]. *)
Definition int_repr (z : Z) : str :=
  if (z <? 0)%Z then MINUS :: digits_of_N (Z.abs_N z) else digits_of_N (Z.abs_N z).

(** The exponent of [float.__repr__]: at least two digits. *)
Definition exp_digits (n : N) : str :=
  match digits_of_N n with
  | [d] => [ZERO; d]
  | ds => ds
  end.

(** The text of a number: sign, integer digits, fraction digits (none
    when [fr] is empty) and exponent (its sign and digits, if any). *)
Definition number_text (neg : bool) (ip fr : str) (ex : option (bool * str))
  : str :=
  (if neg then [MINUS] else [])
  ++ ip
  ++ match fr with [] => [] | _ :: _ => DOT :: fr end
  ++ match ex with
     | None => []
     | Some (eneg, ed) => 101 :: (if eneg then MINUS else PLUS) :: ed
     end.

(** [float.__repr__] of a finite float: positional notation when the decimal
    point falls within the digits or close to them, scientific notation
    otherwise. *)
Definition float_repr_dec (neg : bool) (m : N) (e : Z) : str :=
  let ds0 := digits_of_N m in
  let ds := rstrip_by (is_char ZERO) ds0 in
  match ds with
  | [] => number_text neg [ZERO] [ZERO] None
  | d :: tl =>
      let nd := Z.of_nat (List.length ds) in
      let decpt := (nd + e + Z.of_nat (List.length ds0 - List.length ds))%Z in
      if (-4 <? decpt)%Z && (decpt <=? 16)%Z then
        if (decpt <=? 0)%Z then
          number_text neg [ZERO] (repeat ZERO (Z.to_nat (- decpt)) ++ ds) None
        else if (nd <=? decpt)%Z then
          number_text neg (ds ++ repeat ZERO (Z.to_nat (decpt - nd))) [ZERO] None
        else
          number_text neg (firstn (Z.to_nat decpt) ds)
            (skipn (Z.to_nat decpt) ds) None
      else
        number_text neg [d] tl
          (Some ((decpt - 1 <? 0)%Z, exp_digits (Z.abs_N (decpt - 1))))
  end.

(** [floatstr] of [json.encoder] (with [allow_nan]). *)
Definition floatstr (f : pyfloat) : str :=
  match f with
  | FNan => lit "NaN"
  | FInf false => lit "Infinity"
  | FInf true => lit "-Infinity"
  | FDec neg m e => float_repr_dec neg m e
  end.

Section Encoder.

(** [indent] is the [indent] argument of [json.dumps]: [None], or a number
    of spaces per level. *)
Variable indent : option nat.

Definition newline_indent (level : nat) : str :=
  match indent with
  | Some k => NEWLINE :: repeat SPACE (k * level)
  | None => []
  end.

Definition item_separator (level : nat) : str :=
  match indent with
  | Some _ => COMMA :: newline_indent level
  | None => [COMMA; SPACE]
  end.

Definition key_separator : str := [COLON; SPACE].

(** [_iterencode] with its two loops [_iterencode_list] and
    [_iterencode_dict]; [level] is [_current_indent_level]. *)
Fixpoint iterencode (level : nat) (o : pyobj) : str :=
  match o with
  | PyNone => lit "null"
  | PyBool true => lit "true"
  | PyBool false => lit "false"
  | PyInt z => int_repr z
  | PyFloat f => floatstr f
  | PyStr s => encode_basestring s
  | PyList [] => lit "[]"
  | PyList (x :: xs) =>
      LBRACKET :: newline_indent (S level) ++ iterencode (S level) x
      ++ flat_map (fun y => item_separator (S level) ++ iterencode (S level) y) xs
      ++ newline_indent level ++ [RBRACKET]
  | PyDict [] => lit "{}"
  | PyDict (kv :: kvs) =>
      LBRACE :: newline_indent (S level)
      ++ encode_basestring (fst kv) ++ key_separator ++ iterencode (S level) (snd kv)
      ++ flat_map (fun kv' => item_separator (S level) ++ encode_basestring (fst kv')
                              ++ key_separator ++ iterencode (S level) (snd kv')) kvs
      ++ newline_indent level ++ [RBRACE]
  end.

End Encoder.

(** [json.dumps(o, indent=indent, ensure_ascii=False)]. *)
Definition json_dumps (indent : option nat) (o : pyobj) : str :=
  iterencode indent 0 o.

(** ** Effects: exceptions, events and the outside world *)

Inductive exn : Type :=
| KeyError (k : str)
| TypeError
| AttributeError
| JSONDecodeError
| ExternalError (code : N).

Inductive outcome (A : Type) : Type :=
| Return (a : A)
| Raise (e : exn).

Arguments Return {A} a.
Arguments Raise {A} e.

(** The three scripts handed to [page.evaluate], with their arguments. *)
Inductive request : Type :=
| CredentialRequest (filename : str)
| NotifyRequest (filename fileUrl : str)
| SaveRequest (body : str).

Definition API_BASE_URL : str := lit "https://tps-tiku-api.staff.xdf.cn".
Definition NOTIFY_API_PATH : str := lit "/attachment/batch/upload/files".

(** Where a request is posted. *)
Definition request_url (r : request) : str :=
  match r with
  | CredentialRequest _ => API_BASE_URL ++ lit "/attachment/get/credential"
  | NotifyRequest _ _ => API_BASE_URL ++ NOTIFY_API_PATH
  | SaveRequest _ => lit "https://tps-tiku-api.staff.xdf.cn/paper/new/save"
  end.

(** The body a request posts: the two attachment scripts serialise an object
    in the page, the paper script sends the text it was given. *)
Definition request_body (r : request) : pyobj :=
  match r with
  | CredentialRequest filename =>
      PyDict [(lit "fileName", PyStr filename);
              (lit "contentType", PyStr (lit "application/pdf"));
              (lit "storageType", PyStr (lit "cos"));
              (lit "securityLevel", PyInt 1)]
  | NotifyRequest filename fileUrl =>
      PyDict [(lit "uploadAttachments",
               PyList [PyDict [(lit "fileName", PyStr filename);
                               (lit "fileType", PyStr (lit "pdf"));
                               (lit "fileUrl", PyStr fileUrl);
                               (lit "resourceType", PyStr (lit "zbtiku_pc"))]]);
              (lit "fileUploadType", PyInt 5);
              (lit "fileContentType", PyInt 1);
              (lit "paperId", PyStr [])]
  | SaveRequest body => PyStr body
  end.

(** The dict [upload_to_cos] returns. *)
Record file_info : Type := { url : str; key : str }.

(** What [print] is called with, by call site. *)
Inductive message : Type :=
| MsgStage1
| MsgCredentialsOk
| MsgCredentialsRefused (response : pyobj)
| MsgCredentialsError (e : exn)
| MsgStage2
| MsgObjectKey (object_key : str)
| MsgUploadOk (final_url : str)
| MsgUploadError (e : exn)
| MsgStage3
| MsgNotifyOk
| MsgNotifyError (e : exn)
| MsgFileMissing (file_path : str)
| MsgGotData
| MsgNoData (response_json : str)
| MsgJsonError
| MsgPayloadContent (payload : str)
| MsgSending (payload_json : str)
| MsgApiResponse (response_json : str)
| MsgPaperId (paper_id : pyobj)
| MsgSavedToml (dir file : str)
| MsgRequestFailed
| MsgErrorDetail (result : pyobj).

Inductive event : Type :=
| EvPrint (m : message)
| EvAskLlm (prompt : str)
| EvEvaluate (r : request)
| EvUploadFile (Bucket : pyobj) (LocalFilePath Key : str)
| EvSetPageId (paper_id : pyobj)
| EvMkdir (dir : str)
| EvOpenWb (dir file : str)
| EvTomlDump (dir file : str) (data : pyobj).

Definition trace := list event.

(** Everything the pipeline asks of its surroundings. *)
Record World : Type := {
  (** [os.path.exists] and [os.path.basename] *)
  os_path_exists : str -> bool;
  os_path_basename : str -> str;
  (** the text of the identifier [uuid.uuid4()] draws *)
  uuid_uuid4 : str;
  (** [str(x)] for an object that is not a [str] *)
  format_object : pyobj -> str;
  (** [page.evaluate(script, argument)]: the value the page hands back, or
      the exception Playwright raises *)
  page_evaluate : request -> outcome pyobj;
  (** [CosConfig(Region, SecretId, SecretKey, Token)] followed by
      [CosS3Client(config)]: the exception raised, if any *)
  cos_client : pyobj -> pyobj -> pyobj -> pyobj -> option exn;
  (** [client.upload_file(Bucket, LocalFilePath, Key)]: the exception
      raised, if any *)
  cos_upload_file : pyobj -> str -> str -> option exn;
  (** [ask_llm_for_playload(prompt)] *)
  ask_llm_for_playload : str -> outcome str;
  (** [Path(dir).mkdir(parents=True, exist_ok=True)]: the exception raised,
      if any *)
  path_mkdir : str -> option exn;
  (** [open(Path(dir) / file, 'wb')]: the exception raised, if any (a
      name with a slash or a NUL, a name that is too long, a directory
      that cannot be written) *)
  open_wb : str -> str -> option exn;
  (** writing the text of the record to the open file and closing it: the
      exception raised, if any *)
  file_write : str -> str -> pyobj -> option exn
}.

(** A computation: the events it caused, and how it ended. *)
Definition M (A : Type) : Type := trace * outcome A.

Definition ret {A} (a : A) : M A := ([], Return a).

Definition bind {A B} (m : M A) (k : A -> M B) : M B :=
  match m with
  | (t, Return a) => let (t', o) := k a in (t ++ t', o)
  | (t, Raise e) => (t, Raise e)
  end.

Definition raise {A} (e : exn) : M A := ([], Raise e).

Definition emit (ev : event) : M unit := ([ev], Return tt).

(** [try: body / except Exception as e: handler e]. *)
Definition try_except {A} (body : M A) (handler : exn -> M A) : M A :=
  match body with
  | (t, Raise e) => let (t', o) := handler e in (t ++ t', o)
  | (t, Return a) => (t, Return a)
  end.

Definition of_outcome {A} (o : outcome A) : M A := ([], o).

Definition of_status (o : option exn) : M unit :=
  match o with
  | None => ret tt
  | Some e => raise e
  end.

Declare Scope py_scope.
Delimit Scope py_scope with py.
Notation "x <- m ;; k" := (bind m (fun x => k))
  (at level 61, m at next level, right associativity) : py_scope.
Notation "m ;; k" := (bind m (fun _ => k))
  (at level 61, right associativity) : py_scope.
Local Open Scope py_scope.

Definition print (m : message) : M unit := emit (EvPrint m).

(** [o[k]] for a string [k]. *)
Definition py_getitem (o : pyobj) (k : str) : M pyobj :=
  match o with
  | PyDict d =>
      match dict_get k d with
      | Some v => ret v
      | None => raise (KeyError k)
      end
  | _ => raise TypeError
  end.

(** [o[k] = v] for a string [k]. *)
Definition py_setitem (o : pyobj) (k : str) (v : pyobj) : M pyobj :=
  match o with
  | PyDict d => ret (PyDict (dict_set k v d))
  | _ => raise TypeError
  end.

(** [o.get(k)]: only a dict has the method. *)
Definition py_get (o : pyobj) (k : str) : M pyobj :=
  match o with
  | PyDict d => ret (dict_get_default k d)
  | _ => raise AttributeError
  end.

(** The object key and the public address of [upload_to_cos]. *)
Definition object_key_of (key_prefix uuid filename : str) : str :=
  key_prefix ++ [SLASH] ++ uuid ++ [SLASH] ++ filename.

Definition final_url_of (cdn_domain object_key : str) : str :=
  lit "https://" ++ cdn_domain ++ [SLASH] ++ object_key.

(** The text [uuid.UUID.__str__] prints: 8-4-4-4-12 lower-case hexadecimal
    digits. *)
Definition is_lower_hex (c : char) : bool :=
  is_digit c || ((97 <=? c) && (c <=? 102)).

Definition UUID_SHAPE : list bool :=
  repeat true 8 ++ false :: repeat true 4 ++ false :: repeat true 4
  ++ false :: repeat true 4 ++ false :: repeat true 12.

Fixpoint has_shape (shape : list bool) (s : str) : bool :=
  match shape, s with
  | [], [] => true
  | hex :: shape', c :: r =>
      (if hex then is_lower_hex c else c =? MINUS) && has_shape shape' r
  | _, _ => false
  end.

Definition is_uuid_text (s : str) : bool := has_shape UUID_SHAPE s.

(** The literal prefix of the string [upload_pdf] returns. *)
Definition ATTACHMENTS_PREFIX : str := quoted (lit "attachments") ++ lit ": ".

(** Modelled from the spec: the class [question_page] of [operations.model]
    is not part of the sources; its fields are those of PaperMetadata and
    QuestionStem in section 3 of the specification. *)
Record QuestionStem : Type := { origin : str; stem : str }.

(** Modelled from the spec: PaperMetadata; [page_id] starts as [PyNone] and
    receives whatever the paper-creation endpoint returns. *)
Record question_page : Type := {
  name : str;
  subject : str;
  province : str;
  grade : str;
  year : str;
  page_id : pyobj;
  stemlist : list QuestionStem
}.

Definition set_page_id (qp : question_page) (v : pyobj) : question_page :=
  {| name := name qp; subject := subject qp; province := province qp;
     grade := grade qp; year := year qp; page_id := v;
     stemlist := stemlist qp |}.

(** [tomli_w.dump] accepts booleans, numbers, strings, lists and dicts of
    those; [None] anywhere makes it raise [TypeError]. *)
Fixpoint toml_serializable (o : pyobj) : bool :=
  match o with
  | PyNone => false
  | PyList l => forallb toml_serializable l
  | PyDict d =>
      (fix all (l : list (str * pyobj)) : bool :=
         match l with
         | [] => true
         | (_, v) :: l' => toml_serializable v && all l'
         end) d
  | _ => true
  end.

(** The snapshot written to the TOML file (lines 246-254). *)
Definition page_data_dict (qp : question_page) : pyobj :=
  PyDict [(lit "name", PyStr (name qp));
          (lit "province", PyStr (province qp));
          (lit "grade", PyStr (grade qp));
          (lit "year", PyStr (year qp));
          (lit "subject", PyStr (subject qp));
          (lit "page_id", if truthy (page_id qp) then page_id qp else PyNone);
          (lit "stemlist",
           PyList (map (fun q => PyDict [(lit "origin", PyStr (origin q));
                                         (lit "stem", PyStr (stem q))])
                       (stemlist qp)))].

(** The two f-strings of lines 187 and 188. *)
Definition llm_prompt (qp : question_page) : str :=
  lit "$Question_name: " ++ name qp ++ lit " + Subject: " ++ subject qp
  ++ lit " + Province: " ++ province qp.

Definition pdf_path (qp : question_page) : str :=
  lit "PDF/" ++ name qp ++ lit ".pdf".

Definition OUTPUT_DIR : str := lit "./output_toml".

(** Line 192: [payload.rstrip().rstrip(',')]. *)
Definition trim_fragment (payload : str) : str :=
  rstrip_chars COMMA (rstrip payload).

(** Line 195: ['{' + payload + '}']. *)
Definition wrap_braces (payload : str) : str := LBRACE :: payload ++ [RBRACE].

(** Lines 194-199: parse the wrapped fragment; on [JSONDecodeError] print
    the error and the fragment, and re-raise. *)
Definition parse_fragment (payload : str) : M pyobj :=
  match json_loads (wrap_braces payload) with
  | Some payload_dict => ret payload_dict
  | None =>
      print MsgJsonError ;;
      print (MsgPayloadContent payload) ;;
      raise JSONDecodeError
  end.

(** Lines 202-208: put the attachment fragment under its key. *)
Definition merge_attachment (payload_dict : pyobj) (parcial_payload : option str)
  : M pyobj :=
  match parcial_payload with
  | None => ret payload_dict
  | Some [] => ret payload_dict
  | Some (c :: p) =>
      match split_once COLON (c :: p) with
      | [k; v] =>
          let key := strip_chars DQUOTE (strip k) in
          match json_loads v with
          | Some value => py_setitem payload_dict key value
          | None => raise JSONDecodeError
          end
      | _ => ret payload_dict
      end
  end.

(** Lines 190-210: the payload sent to the paper-creation endpoint. *)
Definition assemble_payload (payload : str) (parcial_payload : option str) : M str :=
  payload_dict <- parse_fragment (trim_fragment payload) ;;
  payload_dict <- merge_attachment payload_dict parcial_payload ;;
  ret (json_dumps None payload_dict).

Section Pipeline.

Variable W : World.

Definition evaluate (r : request) : M pyobj :=
  emit (EvEvaluate r) ;; of_outcome (page_evaluate W r).

(** [format(x)] inside an f-string. *)
Definition py_format (o : pyobj) : str :=
  match o with
  | PyStr s => s
  | _ => format_object W o
  end.

(** Lines 28-76. *)
Definition get_upload_credentials (filename : str) : M pyobj :=
  print MsgStage1 ;;
  try_except
    (response_data <- evaluate (CredentialRequest filename) ;;
     success <- (if truthy response_data
                 then py_get response_data (lit "success")
                 else ret response_data) ;;
     if truthy success then
       print MsgCredentialsOk ;;
       py_get response_data (lit "data")
     else
       print (MsgCredentialsRefused response_data) ;;
       ret PyNone)
    (fun e => print (MsgCredentialsError e) ;; ret PyNone).

(** Lines 78-102. *)
Definition upload_to_cos (credentials_data : pyobj) (file_path : str)
  : M (option file_info) :=
  print MsgStage2 ;;
  creds <- py_getitem credentials_data (lit "credentials") ;;
  region <- py_getitem credentials_data (lit "region") ;;
  secret_id <- py_getitem creds (lit "tmpSecretId") ;;
  secret_key <- py_getitem creds (lit "tmpSecretKey") ;;
  token <- py_getitem creds (lit "sessionToken") ;;
  of_status (cos_client W region secret_id secret_key token) ;;
  bucket <- py_getitem credentials_data (lit "bucket") ;;
  key_prefix <- py_getitem credentials_data (lit "keyPrefix") ;;
  let filename := os_path_basename W file_path in
  let object_key := object_key_of (py_format key_prefix) (uuid_uuid4 W) filename in
  print (MsgObjectKey object_key) ;;
  try_except
    (emit (EvUploadFile bucket file_path object_key) ;;
     of_status (cos_upload_file W bucket file_path object_key) ;;
     cdn_domain <- py_getitem credentials_data (lit "cdnDomain") ;;
     let final_url := final_url_of (py_format cdn_domain) object_key in
     print (MsgUploadOk final_url) ;;
     ret (Some {| url := final_url; key := object_key |}))
    (fun e => print (MsgUploadError e) ;; ret None).

(** Lines 104-154. *)
Definition notify_application_server (filename : str) (info : file_info)
  : M pyobj :=
  print MsgStage3 ;;
  try_except
    (response_data <- evaluate (NotifyRequest filename (url info)) ;;
     print MsgNotifyOk ;;
     ret response_data)
    (fun e => print (MsgNotifyError e) ;; ret PyNone).

(** Lines 157-183. *)
Definition upload_pdf (file_path : str) : M (option str) :=
  if negb (os_path_exists W file_path) then
    print (MsgFileMissing file_path) ;; ret None
  else
    let filename := os_path_basename W file_path in
    credentials <- get_upload_credentials filename ;;
    if negb (truthy credentials) then ret None
    else
      info <- upload_to_cos credentials file_path ;;
      match info with
      | None => ret None
      | Some info =>
          final_result <- notify_application_server filename info ;;
          if negb (truthy final_result) then ret None
          else
            match final_result with
            | PyDict d =>
                match (if truthy (dict_get_default (lit "success") d)
                       then dict_get (lit "data") d else None) with
                | Some data_array =>
                    print MsgGotData ;;
                    ret (Some (ATTACHMENTS_PREFIX
                               ++ json_dumps (Some 2%nat) data_array))
                | None =>
                    print (MsgNoData (json_dumps (Some 2%nat) final_result)) ;;
                    ret None
                end
            | _ => raise AttributeError
            end
      end.

(** Lines 238-259: the branch taken when the response reports success.
    Creating the directory, opening the file and writing to it can each
    raise; [tomli_w.dump] raises [TypeError] on a value it cannot write.
    The event [EvTomlDump] records a dump that ran to its end. *)
Definition persist_paper (qp : question_page) (result : pyobj) : M pyobj :=
  paper_id <- py_get result (lit "data") ;;
  print (MsgPaperId paper_id) ;;
  emit (EvSetPageId paper_id) ;;
  let qp' := set_page_id qp paper_id in
  emit (EvMkdir OUTPUT_DIR) ;;
  of_status (path_mkdir W OUTPUT_DIR) ;;
  let file := name qp' ++ lit ".toml" in
  let data := page_data_dict qp' in
  emit (EvOpenWb OUTPUT_DIR file) ;;
  of_status (open_wb W OUTPUT_DIR file) ;;
  (if toml_serializable data then
     of_status (file_write W OUTPUT_DIR file data) ;;
     emit (EvTomlDump OUTPUT_DIR file data)
   else raise TypeError) ;;
  print (MsgSavedToml OUTPUT_DIR file) ;;
  ret paper_id.

(** Lines 235-264: what follows the answer of the paper-creation endpoint. *)
Definition report_result (qp : question_page) (result : pyobj) : M pyobj :=
  print (MsgApiResponse (json_dumps (Some 2%nat) result)) ;;
  success <- (if truthy result then py_get result (lit "success") else ret result) ;;
  if truthy success then persist_paper qp result
  else
    print MsgRequestFailed ;;
    (if truthy result then print (MsgErrorDetail result) else ret tt) ;;
    ret PyNone.

(** Lines 185-264. *)
Definition save_new_paper (qp : question_page) : M pyobj :=
  payload <- (emit (EvAskLlm (llm_prompt qp)) ;;
              of_outcome (ask_llm_for_playload W (llm_prompt qp))) ;;
  parcial_payload <- upload_pdf (pdf_path qp) ;;
  payload_json <- assemble_payload payload parcial_payload ;;
  print (MsgSending payload_json) ;;
  result <- evaluate (SaveRequest payload_json) ;;
  report_result qp result.

End Pipeline.

(** ** The script entry (lines 267-283) *)

(** What [main] asks of its surroundings besides the pipeline's [World]:
    [connect_to_browser_and_page] (the exception it raises, if any; the
    page it hands over is the one the [World] answers for),
    [download_page] and [browser.close]. *)
Record Session : Type := {
  connect_to_browser_and_page : option exn;
  download_page : outcome question_page;
  browser_close : option exn
}.

(** The steps of the script, those of the pipeline among them. *)
Inductive step : Type :=
| StepConnect
| StepDownloadPage
| StepPipeline (ev : event)
| StepBrowserClose
| StepPrintResult (result : pyobj).

(** Lines 268-280: the coroutine [main]. *)
Definition main (W : World) (S : Session) : list step * outcome pyobj :=
  match connect_to_browser_and_page S with
  | Some e => ([StepConnect], Raise e)
  | None =>
      match download_page S with
      | Raise e => ([StepConnect; StepDownloadPage], Raise e)
      | Return page_data =>
          match save_new_paper W page_data with
          | (t, Raise e) =>
              (StepConnect :: StepDownloadPage :: map StepPipeline t, Raise e)
          | (t, Return paper_id) =>
              (StepConnect :: StepDownloadPage :: map StepPipeline t
               ++ [StepBrowserClose],
               match browser_close S with
               | Some e => Raise e
               | None => Return paper_id
               end)
          end
      end
  end.

(** Lines 282-283: [asyncio.run(main())] and the final print. *)
Definition script (W : World) (S : Session) : list step * outcome unit :=
  match main W S with
  | (t, Return result) => (t ++ [StepPrintResult result], Return tt)
  | (t, Raise e) => (t, Raise e)
  end.

(** ** Vocabulary of the properties *)

(** Calls a trace may contain. *)
Definition is_upload_call (ev : event) : bool :=
  match ev with
  | EvUploadFile _ _ _ => true
  | _ => false
  end.

Definition is_notify_call (ev : event) : bool :=
  match ev with
  | EvEvaluate (NotifyRequest _ _) => true
  | _ => false
  end.

Definition is_save_call (ev : event) : bool :=
  match ev with
  | EvEvaluate (SaveRequest _) => true
  | _ => false
  end.

Definition is_record_write (ev : event) : bool :=
  match ev with
  | EvTomlDump _ _ _ => true
  | _ => false
  end.

(** [never p t]: no event of [t] satisfies [p]. *)
Definition never (p : event -> bool) (t : trace) : Prop :=
  forallb (fun ev => negb (p ev)) t = true.

(** The result of a computation that returned. *)
Definition returned {A} (m : M A) (a : A) : Prop := snd m = Return a.

Definition raised {A} (m : M A) : Prop := exists e, snd m = Raise e.

(** The fields [upload_to_cos] reads from the credential structure. *)
Record credential : Type := {
  c_region : pyobj;
  c_bucket : pyobj;
  c_keyPrefix : pyobj;
  c_cdnDomain : pyobj;
  c_tmpSecretId : pyobj;
  c_tmpSecretKey : pyobj;
  c_sessionToken : pyobj
}.

(** [credential_structure c k]: the object [c] is a mapping that holds the
    fields of [k], the three secrets under its [credentials] entry. *)
Definition credential_structure (c : pyobj) (k : credential) : Prop :=
  exists top inner,
    c = PyDict top /\
    dict_get (lit "credentials") top = Some (PyDict inner) /\
    dict_get (lit "region") top = Some (c_region k) /\
    dict_get (lit "bucket") top = Some (c_bucket k) /\
    dict_get (lit "keyPrefix") top = Some (c_keyPrefix k) /\
    dict_get (lit "cdnDomain") top = Some (c_cdnDomain k) /\
    dict_get (lit "tmpSecretId") inner = Some (c_tmpSecretId k) /\
    dict_get (lit "tmpSecretKey") inner = Some (c_tmpSecretKey k) /\
    dict_get (lit "sessionToken") inner = Some (c_sessionToken k).

(** [padded s1 s2]: the text [s2] is [s1] with JSON whitespace put in
    front of its last character, a closing brace. *)
Inductive padded : str -> str -> Prop :=
| padded_end (w : str) :
    forallb is_json_ws w = true -> padded [RBRACE] (w ++ [RBRACE])
| padded_cons (c : char) (s1 s2 : str) :
    padded s1 s2 -> padded (c :: s1) (c :: s2).

(** What two scans of padded texts leave behind: padded texts again, or
    nothing on both sides. *)
Definition padded_rest (r1 r2 : str) : Prop :=
  padded r1 r2 \/ (r1 = [] /\ r2 = []).

(** Two scans that agree: both fail, or both give the same value and leave
    related texts. *)
Definition agree {A} (R : str -> str -> Prop) (o1 o2 : option (A * str)) : Prop :=
  match o1, o2 with
  | Some (a, q1), Some (b, q2) => a = b /\ R q1 q2
  | None, None => True
  | _, _ => False
  end.

(** A bound on the fuel [scan_once] uses on the text of an object. *)
Fixpoint weight (o : pyobj) : nat :=
  match o with
  | PyList l => S (fold_right (fun x acc => S (weight x + acc)) O l)
  | PyDict d => S (fold_right (fun kv acc => S (weight (snd kv) + acc)) O d)
  | _ => 1%nat
  end.

(** [number_stop rest]: a number that is followed by [rest] ends there. *)
Definition number_stop (rest : str) : bool :=
  match rest with
  | [] => true
  | c :: _ =>
      negb (is_digit c) && negb (c =? DOT) && negb ((c =? 101) || (c =? 69))
  end.

(** Integer digits as [NUMBER_RE] takes them: digits, the first of which is
    zero only when it is alone. *)
Definition int_part_ok (ip : str) : Prop :=
  match ip with
  | [] => False
  | c :: r => is_digit c = true /\ forallb is_digit r = true /\ (c = ZERO -> r = [])
  end.

(** [decodes indent o]: the text [json.dumps] writes for [o], at any
    nesting level and followed by any text that ends a number, is read back
    by [scan_once] as one value, given fuel for the weight of [o]. *)
Definition decodes (indent : option nat) (o : pyobj) : Prop :=
  forall level rest n,
    number_stop rest = true -> (weight o <= n)%nat ->
    exists v, scan_once n (iterencode indent level o ++ rest) = Some (v, rest).

(** A character that is neither JSON whitespace nor a closing brace. *)
Definition not_blank (c : char) : bool :=
  negb (is_json_ws c || (c =? RBRACE)).

(** An exponent as [NUMBER_RE] takes it: at least one digit. *)
Definition exp_ok (ex : option (bool * str)) : Prop :=
  match ex with
  | None => True
  | Some (_, ed) => ed <> [] /\ forallb is_digit ed = true
  end.

(** The value [match_number] reads from a number text. *)
Definition number_value (neg : bool) (ip fr : str) (ex : option (bool * str))
  : pyobj :=
  match fr, ex with
  | [], None => PyInt (signed neg (N_of_digits ip))
  | _, Some (eneg, ed) =>
      PyFloat (float_of_literal neg ip fr (signed eneg (N_of_digits ed)))
  | _, None => PyFloat (float_of_literal neg ip fr 0)
  end.

(** How the text of a value starts. *)
Definition value_start (c : char) : bool :=
  negb (is_json_ws c) && negb (c =? RBRACKET) && negb (c =? RBRACE)
  && negb (c =? COMMA) && negb (c =? COLON) && negb (c =? 65279).

(** The calls of a trace: its events other than [print]. *)
Definition is_print (ev : event) : bool :=
  match ev with
  | EvPrint _ => true
  | _ => false
  end.

Definition calls (t : trace) : trace := filter (fun ev => negb (is_print ev)) t.

Definition is_attachment_call (ev : event) : bool :=
  match ev with
  | EvEvaluate (CredentialRequest _) => true
  | EvEvaluate (NotifyRequest _ _) => true
  | EvUploadFile _ _ _ => true
  | _ => false
  end.

(** The steps of the persistence branch (lines 240-256). *)
Definition is_persistence_call (ev : event) : bool :=
  match ev with
  | EvSetPageId _ | EvMkdir _ | EvOpenWb _ _ | EvTomlDump _ _ _ => true
  | _ => false
  end.

(** Objects that JSON carries exactly: [None], booleans, integers,
    strings, lists of such objects and mappings of such objects whose keys
    are distinct (as the keys of a Python [dict] are). *)
Fixpoint distinct_keys (d : list (str * pyobj)) : bool :=
  match d with
  | [] => true
  | (k, _) :: r => negb (dict_has k r) && distinct_keys r
  end.

Fixpoint plain (o : pyobj) : bool :=
  match o with
  | PyFloat _ => false
  | PyList l => forallb plain l
  | PyDict d =>
      distinct_keys d
      && (fix all (l : list (str * pyobj)) : bool :=
            match l with
            | [] => true
            | (_, v) :: l' => plain v && all l'
            end) d
  | _ => true
  end.

(** [reads_back indent o]: [scan_once] reads the text [json.dumps] writes
    for [o] back as [o]. *)
Definition reads_back (indent : option nat) (o : pyobj) : Prop :=
  forall level rest n,
    number_stop rest = true -> (weight o <= n)%nat ->
    scan_once n (iterencode indent level o ++ rest) = Some (o, rest).

(** ** Concrete runs *)

Module Scenario.

(** The paper of the end-to-end scenario. *)
Definition paper : question_page :=
  {| name := lit "Test2024"; subject := lit "Math"; province := lit "Beijing";
     grade := lit "9"; year := lit "2024"; page_id := PyNone;
     stemlist := [ {| origin := lit "Q1"; stem := lit "2+2=?" |} ] |}.

Definition credential_data : pyobj :=
  PyDict [(lit "region", PyStr (lit "ap-x"));
          (lit "bucket", PyStr (lit "b1"));
          (lit "keyPrefix", PyStr (lit "p"));
          (lit "cdnDomain", PyStr (lit "cdn.example.com"));
          (lit "credentials",
           PyDict [(lit "tmpSecretId", PyStr (lit "id"));
                   (lit "tmpSecretKey", PyStr (lit "key"));
                   (lit "sessionToken", PyStr (lit "tok"))])].

Definition credentials_granted : pyobj :=
  PyDict [(lit "success", PyBool true); (lit "data", credential_data)].

Definition credentials_refused : pyobj :=
  PyDict [(lit "success", PyBool false)].

Definition notify_response : pyobj :=
  PyDict [(lit "success", PyBool true);
          (lit "data", PyList [PyDict [(lit "id", PyInt 7)]])].

Definition paper_created (paper_id : pyobj) : pyobj :=
  PyDict [(lit "success", PyBool true); (lit "data", paper_id)].

(** The fragment the language model answers with: [title] set to [T],
    followed by a dangling comma. *)
Definition fragment : str :=
  quoted (lit "title") ++ lit ": " ++ quoted (lit "T") ++ lit ", ".

(** A world where the file exists, the object store accepts the upload when
    [upload_error] is [None], the three endpoints answer as given, and the
    record file can be created and written. *)
Definition world_with (llm_answer : str)
  (credential_response save_response : pyobj)
  (upload_error : option exn) : World :=
  {| os_path_exists := fun _ => true;
     os_path_basename := posix_basename;
     uuid_uuid4 := lit "123e4567-e89b-42d3-a456-426614174000";
     format_object := fun _ => lit "<object>";
     page_evaluate := fun r =>
       match r with
       | CredentialRequest _ => Return credential_response
       | NotifyRequest _ _ => Return notify_response
       | SaveRequest _ => Return save_response
       end;
     cos_client := fun _ _ _ _ => None;
     cos_upload_file := fun _ _ _ => upload_error;
     ask_llm_for_playload := fun _ => Return llm_answer;
     path_mkdir := fun _ => None;
     open_wb := fun _ _ => None;
     file_write := fun _ _ _ => None |}.

Definition world := world_with fragment.

Definition PID : pyobj := PyStr (lit "PID-123").

(** Every stage succeeds and the paper receives the identifier [PID-123]. *)
Definition world_ok : World :=
  world credentials_granted (paper_created PID) None.

(** The credential endpoint refuses; the paper-creation endpoint accepts. *)
Definition world_refused : World :=
  world credentials_refused (paper_created PID) None.

(** Every stage succeeds and the paper receives the identifier [0]. *)
Definition world_zero : World :=
  world credentials_granted (paper_created (PyInt 0)) None.

(** The object store rejects the upload. *)
Definition world_upload_fails : World :=
  world credentials_granted (paper_created PID) (Some (ExternalError 1)).

(** A fragment with a comma, a space and another comma after its body. *)
Definition fragment_two_commas : str :=
  quoted (lit "title") ++ lit ": " ++ quoted (lit "T") ++ lit ", ,".

Definition world_malformed : World :=
  world_with fragment_two_commas credentials_granted (paper_created PID) None.

Definition credential_fields : credential :=
  {| c_region := PyStr (lit "ap-x"); c_bucket := PyStr (lit "b1");
     c_keyPrefix := PyStr (lit "p"); c_cdnDomain := PyStr (lit "cdn.example.com");
     c_tmpSecretId := PyStr (lit "id"); c_tmpSecretKey := PyStr (lit "key");
     c_sessionToken := PyStr (lit "tok") |}.

End Scenario.

(** ** Concrete runs at the edges *)

Module Edge.

(** A credential structure without its [cdnDomain] entry. *)
Definition credential_top_without_cdn : dict :=
  [(lit "region", PyStr (lit "ap-x"));
   (lit "bucket", PyStr (lit "b1"));
   (lit "keyPrefix", PyStr (lit "p"));
   (lit "credentials",
    PyDict [(lit "tmpSecretId", PyStr (lit "id"));
            (lit "tmpSecretKey", PyStr (lit "key"));
            (lit "sessionToken", PyStr (lit "tok"))])].

Definition credential_inner : dict :=
  [(lit "tmpSecretId", PyStr (lit "id"));
   (lit "tmpSecretKey", PyStr (lit "key"));
   (lit "sessionToken", PyStr (lit "tok"))].

(** A world like [Scenario.world_ok] whose notification endpoint answers
    [notify_answer] and whose paper-creation endpoint answers as
    [save_answer] says. *)
Definition world_answering (notify_answer : outcome pyobj)
  (save_answer : outcome pyobj) : World :=
  {| os_path_exists := fun _ => true;
     os_path_basename := posix_basename;
     uuid_uuid4 := lit "123e4567-e89b-42d3-a456-426614174000";
     format_object := fun _ => lit "<object>";
     page_evaluate := fun r =>
       match r with
       | CredentialRequest _ => Return Scenario.credentials_granted
       | NotifyRequest _ _ => notify_answer
       | SaveRequest _ => save_answer
       end;
     cos_client := fun _ _ _ _ => None;
     cos_upload_file := fun _ _ _ => None;
     ask_llm_for_playload := fun _ => Return Scenario.fragment;
     path_mkdir := fun _ => None;
     open_wb := fun _ _ => None;
     file_write := fun _ _ _ => None |}.

(** The notification endpoint answers with a list. *)
Definition world_notify_list : World :=
  world_answering (Return (PyList [PyInt 1]))
    (Return (Scenario.paper_created Scenario.PID)).

(** The notification endpoint reports success and sends no [data]. *)
Definition world_notify_without_data : World :=
  world_answering (Return (PyDict [(lit "success", PyBool true)]))
    (Return (Scenario.paper_created Scenario.PID)).

(** A credential structure without its [bucket] entry. *)
Definition credential_without_bucket : pyobj :=
  PyDict [(lit "region", PyStr (lit "ap-x"));
          (lit "keyPrefix", PyStr (lit "p"));
          (lit "cdnDomain", PyStr (lit "cdn.example.com"));
          (lit "credentials", PyDict credential_inner)].

(** The credential endpoint grants a structure without [bucket]. *)
Definition world_without_bucket : World :=
  Scenario.world
    (PyDict [(lit "success", PyBool true); (lit "data", credential_without_bucket)])
    (Scenario.paper_created Scenario.PID) None.

(** The body posted to the paper-creation endpoint in the scenario. *)
Definition posted_body : str :=
  json_dumps None
    (PyDict [(lit "title", PyStr (lit "T"));
             (lit "attachments", PyList [PyDict [(lit "id", PyInt 7)]])]).

(** The paper-creation request raises in the page. *)
Definition world_save_raises : World :=
  world_answering (Return Scenario.notify_response) (Raise (ExternalError 7)).

(** The paper-creation endpoint refuses the paper. *)
Definition world_paper_refused : World :=
  world_answering (Return Scenario.notify_response)
    (Return (PyDict [(lit "success", PyBool false)])).

(** Every endpoint answers as in [Scenario.world_ok], and the record file
    cannot be opened. *)
Definition world_record_unwritable : World :=
  {| os_path_exists := fun _ => true;
     os_path_basename := posix_basename;
     uuid_uuid4 := lit "123e4567-e89b-42d3-a456-426614174000";
     format_object := fun _ => lit "<object>";
     page_evaluate := page_evaluate Scenario.world_ok;
     cos_client := fun _ _ _ _ => None;
     cos_upload_file := fun _ _ _ => None;
     ask_llm_for_playload := fun _ => Return Scenario.fragment;
     path_mkdir := fun _ => None;
     open_wb := fun _ _ => Some (ExternalError 13);
     file_write := fun _ _ _ => None |}.

End Edge.

(** * Properties *)

(** ** Characters, strings and dicts *)

Lemma str_eqb_refl (a : str) : str_eqb a a = true.
Proof.
  induction a as [|x a IH]; simpl; [reflexivity|].
  now rewrite N.eqb_refl, IH.
Qed.

Lemma str_eqb_eq (a b : str) : str_eqb a b = true <-> a = b.
Proof.
  split.
  - revert b; induction a as [|x a IH]; intros [|y b]; simpl; try easy.
    intros H; apply andb_true_iff in H as [Hx Hr].
    apply N.eqb_eq in Hx; subst; f_equal; auto.
  - intros ->; apply str_eqb_refl.
Qed.

Lemma str_eqb_neq (a b : str) : a <> b -> str_eqb a b = false.
Proof.
  intros H; destruct (str_eqb a b) eqn:E; [|reflexivity].
  apply str_eqb_eq in E; contradiction.
Qed.

Lemma dict_get_set_same (k : str) (v : pyobj) (d : dict) :
  dict_get k (dict_set k v d) = Some v.
Proof.
  induction d as [|[k' v'] d IH]; simpl.
  - now rewrite str_eqb_refl.
  - destruct (str_eqb k k') eqn:E; simpl; rewrite E; auto.
Qed.

Lemma dict_get_set_other (k k' : str) (v : pyobj) (d : dict) :
  k' <> k -> dict_get k' (dict_set k v d) = dict_get k' d.
Proof.
  intros Hne; induction d as [|[k0 v0] d IH]; simpl.
  - now rewrite (str_eqb_neq Hne).
  - destruct (str_eqb k k0) eqn:E; simpl.
    + apply str_eqb_eq in E; subst k0. now rewrite (str_eqb_neq Hne).
    + now rewrite IH.
Qed.

(** Overwriting a key that is present keeps every key where it was. *)
Lemma dict_set_keys_present (k : str) (v : pyobj) (d : dict) :
  dict_get k d <> None -> map fst (dict_set k v d) = map fst d.
Proof.
  induction d as [|[k0 v0] d IH]; simpl; [congruence|].
  destruct (str_eqb k k0) eqn:E; simpl; [reflexivity|].
  intros H; f_equal; auto.
Qed.

Lemma dict_set_keys_absent (k : str) (v : pyobj) (d : dict) :
  dict_get k d = None -> map fst (dict_set k v d) = map fst d ++ [k].
Proof.
  induction d as [|[k0 v0] d IH]; simpl; [reflexivity|].
  destruct (str_eqb k k0) eqn:E; simpl; [discriminate|].
  intros H; f_equal; auto.
Qed.

(** ** Traces *)

Lemma never_nil (p : event -> bool) : never p [].
Proof. reflexivity. Qed.

Lemma never_app (p : event -> bool) (a b : trace) :
  never p (a ++ b) <-> never p a /\ never p b.
Proof. unfold never; rewrite forallb_app; apply andb_true_iff. Qed.

Lemma never_In (p : event -> bool) (t : trace) (ev : event) :
  never p t -> In ev t -> p ev = false.
Proof.
  unfold never; rewrite forallb_forall; intros H Hin.
  apply H in Hin; now apply negb_true_iff.
Qed.

Lemma never_ret {A} (p : event -> bool) (a : A) : never p (fst (ret a)).
Proof. reflexivity. Qed.

Lemma never_raise {A} (p : event -> bool) (e : exn) :
  never p (fst (raise (A:=A) e)).
Proof. reflexivity. Qed.

Lemma never_emit (p : event -> bool) (ev : event) :
  p ev = false -> never p (fst (emit ev)).
Proof. unfold never; simpl; intros ->; reflexivity. Qed.

Lemma never_of_outcome {A} (p : event -> bool) (o : outcome A) :
  never p (fst (of_outcome o)).
Proof. reflexivity. Qed.

Lemma never_of_status (p : event -> bool) (o : option exn) :
  never p (fst (of_status o)).
Proof. destruct o; reflexivity. Qed.

Lemma never_bind {A B} (p : event -> bool) (m : M A) (k : A -> M B) :
  never p (fst m) ->
  (forall t a, m = (t, Return a) -> never p (fst (k a))) ->
  never p (fst (bind m k)).
Proof.
  destruct m as [t [a|e]]; simpl; intros Hm Hk; [|exact Hm].
  specialize (Hk t a eq_refl). destruct (k a) as [t' o]; simpl in *.
  apply never_app; auto.
Qed.

Lemma never_try {A} (p : event -> bool) (m : M A) (h : exn -> M A) :
  never p (fst m) ->
  (forall e, never p (fst (h e))) ->
  never p (fst (try_except m h)).
Proof.
  destruct m as [t [a|e]]; simpl; intros Hm Hh; [exact Hm|].
  specialize (Hh e). destruct (h e) as [t' o]; simpl in *.
  apply never_app; auto.
Qed.

Lemma never_py_get (p : event -> bool) (o : pyobj) (k : str) :
  never p (fst (py_get o k)).
Proof. destruct o; reflexivity. Qed.

Lemma never_py_getitem (p : event -> bool) (o : pyobj) (k : str) :
  never p (fst (py_getitem o k)).
Proof. destruct o; try reflexivity; simpl; destruct (dict_get k d); reflexivity. Qed.

Lemma never_py_setitem (p : event -> bool) (o : pyobj) (k : str) (v : pyobj) :
  never p (fst (py_setitem o k v)).
Proof. destruct o; reflexivity. Qed.

(** Goals [never p (fst m)] for a computation [m] built from the
    combinators. *)
Ltac never_step :=
  first
    [ apply never_ret
    | apply never_raise
    | apply never_of_outcome
    | apply never_of_status
    | apply never_py_get
    | apply never_py_getitem
    | apply never_py_setitem
    | apply never_emit; reflexivity
    | apply never_bind; [|intros ? ? ?]
    | apply never_try; [|intros ?]
    | match goal with
      | |- never _ (fst (if ?c then _ else _)) => destruct c
      | |- never _ (fst (match ?x with _ => _ end)) => destruct x
      end ].

Ltac never_tac := unfold print, evaluate; repeat never_step.

(** How a sequence ends. *)
Lemma bind_returned {A B} (m : M A) (k : A -> M B) (t : trace) (a : A) :
  m = (t, Return a) -> bind m k = (t ++ fst (k a), snd (k a)).
Proof. intros ->; simpl; now destruct (k a). Qed.

Lemma bind_raised {A B} (m : M A) (k : A -> M B) (t : trace) (e : exn) :
  m = (t, Raise e) -> bind m k = (t, Raise e).
Proof. intros ->; reflexivity. Qed.

Lemma surjective_M {A} (m : M A) : m = (fst m, snd m).
Proof. now destruct m. Qed.

(** ** Stages that never issue a given call *)

Lemma credentials_never (W : World) (filename : str) (p : event -> bool) :
  (forall f, p (EvEvaluate (CredentialRequest f)) = false) ->
  (forall m, p (EvPrint m) = false) ->
  never p (fst (get_upload_credentials W filename)).
Proof.
  intros Hc Hp. unfold get_upload_credentials, print, evaluate.
  repeat first [ apply never_emit; solve [apply Hc | apply Hp] | never_step ].
Qed.

Lemma get_upload_credentials_returns (W : World) (filename : str) :
  exists c, snd (get_upload_credentials W filename) = Return c.
Proof.
  unfold get_upload_credentials, print, evaluate, emit, of_outcome, bind,
    try_except, ret.
  simpl.
  destruct (page_evaluate W (CredentialRequest filename)) as [r|e]; simpl;
    [|eexists; reflexivity].
  destruct (truthy r) eqn:Hr; simpl.
  - destruct r; simpl; try (eexists; reflexivity).
    destruct (truthy (dict_get_default _ d)); simpl;
      eexists; reflexivity.
  - rewrite Hr; simpl. eexists; reflexivity.
Qed.

(** ** Runs of [save_new_paper] *)

Arguments json_loads : simpl never.
Arguments json_dumps : simpl never.
Arguments trim_fragment : simpl never.
Arguments wrap_braces : simpl never.
Arguments llm_prompt : simpl never.
Arguments pdf_path : simpl never.
Arguments page_data_dict : simpl never.
Arguments report_result : simpl never.

Lemma save_new_paper_llm_raises (W : World) (qp : question_page) (e : exn) :
  ask_llm_for_playload W (llm_prompt qp) = Raise e ->
  save_new_paper W qp = ([EvAskLlm (llm_prompt qp)], Raise e).
Proof.
  intros H. unfold save_new_paper, emit, of_outcome, bind. now rewrite H.
Qed.

Lemma save_new_paper_upload_raises (W : World) (qp : question_page)
  (frag : str) (tu : trace) (e : exn) :
  ask_llm_for_playload W (llm_prompt qp) = Return frag ->
  upload_pdf W (pdf_path qp) = (tu, Raise e) ->
  save_new_paper W qp = (EvAskLlm (llm_prompt qp) :: tu, Raise e).
Proof.
  intros H1 H2. unfold save_new_paper, emit, of_outcome, bind.
  now rewrite H1, H2.
Qed.

Lemma save_new_paper_assemble_raises (W : World) (qp : question_page)
  (frag : str) (tu ta : trace) (pp : option str) (e : exn) :
  ask_llm_for_playload W (llm_prompt qp) = Return frag ->
  upload_pdf W (pdf_path qp) = (tu, Return pp) ->
  assemble_payload frag pp = (ta, Raise e) ->
  save_new_paper W qp = (EvAskLlm (llm_prompt qp) :: tu ++ ta, Raise e).
Proof.
  intros H1 H2 H3. unfold save_new_paper, emit, of_outcome, bind.
  now rewrite H1, H2, H3.
Qed.

(** What a run that reaches the paper-creation request looks like. *)
Lemma save_new_paper_submits (W : World) (qp : question_page)
  (frag : str) (tu ta : trace) (pp : option str) (body : str) :
  ask_llm_for_playload W (llm_prompt qp) = Return frag ->
  upload_pdf W (pdf_path qp) = (tu, Return pp) ->
  assemble_payload frag pp = (ta, Return body) ->
  save_new_paper W qp =
    (EvAskLlm (llm_prompt qp) :: tu ++ ta
       ++ EvPrint (MsgSending body) :: EvEvaluate (SaveRequest body)
       :: match page_evaluate W (SaveRequest body) with
          | Return result => fst (report_result W qp result)
          | Raise _ => []
          end,
     match page_evaluate W (SaveRequest body) with
     | Return result => snd (report_result W qp result)
     | Raise e => Raise e
     end).
Proof.
  intros H1 H2 H3.
  unfold save_new_paper, evaluate, print, emit, of_outcome, bind.
  rewrite H1, H2, H3.
  destruct (page_evaluate W (SaveRequest body)) as [result|e].
  - destruct (report_result W qp result) as [tr o]; reflexivity.
  - reflexivity.
Qed.

(** The attachment stages never post to the paper-creation endpoint and
    never write the record. *)
Lemma upload_to_cos_never (W : World) (c : pyobj) (path : str)
  (p : event -> bool) :
  (forall b f k, p (EvUploadFile b f k) = false) ->
  (forall m, p (EvPrint m) = false) ->
  never p (fst (upload_to_cos W c path)).
Proof.
  intros Hu Hp. unfold upload_to_cos, print.
  repeat first [ apply never_emit; solve [apply Hu | apply Hp] | never_step ].
Qed.

Lemma notify_never (W : World) (f : str) (info : file_info)
  (p : event -> bool) :
  (forall a b, p (EvEvaluate (NotifyRequest a b)) = false) ->
  (forall m, p (EvPrint m) = false) ->
  never p (fst (notify_application_server W f info)).
Proof.
  intros Hn Hp. unfold notify_application_server, print, evaluate.
  repeat first [ apply never_emit; solve [apply Hn | apply Hp] | never_step ].
Qed.

Lemma upload_pdf_never (W : World) (path : str) (p : event -> bool) :
  (forall f, p (EvEvaluate (CredentialRequest f)) = false) ->
  (forall a b, p (EvEvaluate (NotifyRequest a b)) = false) ->
  (forall b f k, p (EvUploadFile b f k) = false) ->
  (forall m, p (EvPrint m) = false) ->
  never p (fst (upload_pdf W path)).
Proof.
  intros Hc Hn Hu Hp. unfold upload_pdf, print.
  repeat first
    [ apply never_emit; solve [apply Hp]
    | apply credentials_never; assumption
    | apply upload_to_cos_never; assumption
    | apply notify_never; assumption
    | never_step ].
Qed.

Lemma assemble_payload_never (frag : str) (pp : option str)
  (p : event -> bool) :
  (forall m, p (EvPrint m) = false) ->
  never p (fst (assemble_payload frag pp)).
Proof.
  intros Hp. unfold assemble_payload, parse_fragment, merge_attachment, print.
  repeat first [ apply never_emit; solve [apply Hp] | never_step ].
Qed.

(** [report_result] writes the record only for a mapping whose [success]
    is true. *)
Lemma report_result_writes (W : World) (qp : question_page) (result : pyobj)
  (dir file : str) (data : pyobj) :
  In (EvTomlDump dir file data) (fst (report_result W qp result)) ->
  exists d, result = PyDict d /\ truthy (dict_get_default (lit "success") d) = true.
Proof.
  intros Hin.
  unfold report_result, persist_paper, print, emit, bind, py_get, ret, raise in Hin.
  destruct result as [| b | z | f | s | l | d]; cbn in Hin;
    repeat match type of Hin with
      | context [if ?c then _ else _] => destruct c eqn:?; cbn in Hin
      end;
    try (repeat (destruct Hin as [Hin|Hin]; [discriminate Hin|]); contradiction).
  all: exists d; split; [reflexivity|first [assumption|congruence]].
Qed.

(** ** Whitespace before the closing brace *)

Lemma json_ws_cases (c : char) :
  is_json_ws c = true -> c = 32 \/ c = 9 \/ c = 10 \/ c = 13.
Proof.
  unfold is_json_ws. rewrite !orb_true_iff, !N.eqb_eq. tauto.
Qed.

Lemma padded_nil_l (s : str) : ~ padded [] s.
Proof. intros H; inversion H. Qed.

Lemma padded_length (s1 s2 : str) :
  padded s1 s2 -> (List.length s1 <= List.length s2)%nat.
Proof.
  induction 1 as [w Hw|c s1 s2 H IH]; simpl.
  - rewrite length_app. simpl. lia.
  - lia.
Qed.

Lemma padded_uncons (c : char) (r1 s2 : str) :
  padded (c :: r1) s2 ->
  (exists r2, s2 = c :: r2 /\ padded r1 r2)
  \/ (c = RBRACE /\ r1 = []
      /\ exists w, forallb is_json_ws w = true /\ s2 = w ++ [RBRACE]).
Proof.
  intros H; inversion H; subst.
  - right. repeat split. eauto.
  - left. eauto.
Qed.

Lemma padded_uncons_nb (c : char) (r1 s2 : str) :
  c <> RBRACE -> padded (c :: r1) s2 ->
  exists r2, s2 = c :: r2 /\ padded r1 r2.
Proof.
  intros Hc H. apply padded_uncons in H as [H|(-> & _)]; [exact H|congruence].
Qed.

(** The head of a text made of blanks and a closing brace. *)
Lemma blank_tail_head (w : str) :
  forallb is_json_ws w = true ->
  exists c r, w ++ [RBRACE] = c :: r /\ (is_json_ws c = true \/ c = RBRACE).
Proof.
  destruct w as [|c w]; simpl; intros H.
  - exists RBRACE, []. auto.
  - apply andb_true_iff in H as [Hc _]. exists c, (w ++ [RBRACE]). auto.
Qed.

Lemma skip_ws_blank_tail (w s : str) :
  forallb is_json_ws w = true -> skip_ws (w ++ s) = skip_ws s.
Proof.
  induction w as [|c w IH]; simpl; [reflexivity|].
  intros H. apply andb_true_iff in H as [Hc Hw]. rewrite Hc. auto.
Qed.

Lemma skip_ws_padded (s1 s2 : str) :
  padded s1 s2 ->
  (skip_ws s1 = [RBRACE] /\ skip_ws s2 = [RBRACE])
  \/ (exists c q1 q2,
        skip_ws s1 = c :: q1 /\ skip_ws s2 = c :: q2 /\ padded q1 q2).
Proof.
  induction 1 as [w Hw|c s1 s2 H IH].
  - left. split; [reflexivity|]. now rewrite skip_ws_blank_tail.
  - simpl. destruct (is_json_ws c); [exact IH|].
    right. exists c, s1, s2. auto.
Qed.

Lemma span_digits_padded (s1 s2 : str) :
  padded s1 s2 ->
  exists ds q1 q2,
    span_digits s1 = (ds, q1) /\ span_digits s2 = (ds, q2) /\ padded q1 q2.
Proof.
  induction 1 as [w Hw|c s1 s2 H IH].
  - exists [], [RBRACE], (w ++ [RBRACE]). split; [reflexivity|].
    split; [|now constructor].
    destruct (blank_tail_head w Hw) as (c & r & -> & Hc). simpl.
    destruct Hc as [Hc| ->]; [|reflexivity].
    apply json_ws_cases in Hc as [->|[->|[->| ->]]]; reflexivity.
  - destruct IH as (ds & q1 & q2 & E1 & E2 & Hq). simpl.
    destruct (is_digit c).
    + rewrite E1, E2. exists (c :: ds), q1, q2. auto.
    + exists [], (c :: s1), (c :: s2). repeat split. now constructor.
Qed.

(** The two ways two padded texts start: the first is the lone brace and
    the second starts with a blank or is the brace too, or both start with
    the same character. *)
Lemma padded_cases (s1 s2 : str) :
  padded s1 s2 ->
  (s1 = [RBRACE]
   /\ exists c r, s2 = c :: r
        /\ (c = 32 \/ c = 9 \/ c = 10 \/ c = 13 \/ c = RBRACE)
        /\ padded [RBRACE] (c :: r))
  \/ (exists c r1 r2, s1 = c :: r1 /\ s2 = c :: r2 /\ padded r1 r2).
Proof.
  intros H. pose proof H as H'. inversion H as [w Hw|c t1 t2 Ht]; subst.
  - left. split; [reflexivity|].
    destruct (blank_tail_head w Hw) as (c & r & E & Hc).
    rewrite E in H'. exists c, r. split; [exact E|]. split; [|exact H'].
    destruct Hc as [Hc|Hc]; [apply json_ws_cases in Hc|]; tauto.
  - right. exists c, t1, t2. auto.
Qed.

Ltac padded_head H c r1 r2 Hr :=
  let Hc := fresh "Hc" in
  let H' := fresh "Hend" in
  destruct (padded_cases H) as
    [(-> & c & r2 & -> & Hc & H') | (c & r1 & r2 & -> & -> & Hr)];
  [ destruct Hc as [->|[->|[->|[->| ->]]]] | ].

Lemma scan_int_part_padded (s1 s2 : str) :
  padded s1 s2 -> agree padded (scan_int_part s1) (scan_int_part s2).
Proof.
  intros H. padded_head H c r1 r2 Hr; try exact I.
  unfold scan_int_part. destruct (c =? ZERO); [simpl; auto|].
  destruct (is_digit c); [|exact I].
  destruct (span_digits_padded Hr) as (ds & q1 & q2 & -> & -> & Hq).
  simpl. auto.
Qed.

Lemma scan_frac_padded (s1 s2 : str) :
  padded s1 s2 ->
  fst (scan_frac s1) = fst (scan_frac s2)
  /\ padded (snd (scan_frac s1)) (snd (scan_frac s2)).
Proof.
  intros H. padded_head H c r1 r2 Hr; try (split; [reflexivity|assumption]).
  unfold scan_frac. destruct (c =? DOT); [|split; [reflexivity|exact H]].
  destruct (span_digits_padded Hr) as (ds & q1 & q2 & -> & -> & Hq).
  destruct ds; simpl; auto.
Qed.

Lemma scan_sign_padded (s1 s2 : str) :
  padded s1 s2 ->
  fst (scan_sign s1) = fst (scan_sign s2)
  /\ padded (snd (scan_sign s1)) (snd (scan_sign s2)).
Proof.
  intros H. padded_head H c r1 r2 Hr; try (split; [reflexivity|assumption]).
  unfold scan_sign. destruct (c =? MINUS); [simpl; auto|].
  destruct (c =? PLUS); simpl; auto.
Qed.

Lemma scan_exp_padded (s1 s2 : str) :
  padded s1 s2 ->
  fst (scan_exp s1) = fst (scan_exp s2)
  /\ padded (snd (scan_exp s1)) (snd (scan_exp s2)).
Proof.
  intros H. padded_head H c r1 r2 Hr; try (split; [reflexivity|assumption]).
  unfold scan_exp. destruct ((c =? 101) || (c =? 69));
    [|split; [reflexivity|exact H]].
  destruct (scan_sign_padded Hr) as [Hs Hq].
  destruct (scan_sign r1) as [neg t1], (scan_sign r2) as [neg' t2].
  simpl in Hs, Hq. subst neg'.
  destruct (span_digits_padded Hq) as (ds & q1 & q2 & -> & -> & Hq').
  destruct ds; simpl; auto.
Qed.

Lemma match_number_padded (s1 s2 : str) :
  padded s1 s2 -> agree padded (match_number s1) (match_number s2).
Proof.
  intros H. unfold match_number.
  assert (Hsign :
    exists neg t1 t2,
      match s1 with
      | c :: r => if c =? MINUS then (true, r) else (false, s1)
      | [] => (false, s1)
      end = (neg, t1)
      /\ match s2 with
         | c :: r => if c =? MINUS then (true, r) else (false, s2)
         | [] => (false, s2)
         end = (neg, t2)
      /\ padded t1 t2).
  { padded_head H c r1 r2 Hr;
      try (exists false; do 2 eexists; repeat split; assumption).
    destruct (c =? MINUS); do 3 eexists; repeat split; eassumption. }
  destruct Hsign as (neg & t1 & t2 & -> & -> & Ht).
  pose proof (scan_int_part_padded Ht) as Hi.
  destruct (scan_int_part t1) as [[ip r1]|], (scan_int_part t2) as [[ip' r1']|];
    simpl in Hi; try contradiction; [|exact I].
  destruct Hi as [<- Hr1].
  destruct (scan_frac_padded Hr1) as [Hf Hr2].
  destruct (scan_frac r1) as [fr r2], (scan_frac r1') as [fr' r2'].
  simpl in Hf, Hr2. subst fr'.
  destruct (scan_exp_padded Hr2) as [He Hr3].
  destruct (scan_exp r2) as [ex r3], (scan_exp r2') as [ex' r3'].
  simpl in He, Hr3. subst ex'.
  destruct fr, ex; simpl; auto.
Qed.

Lemma not_blank_neq (x : char) :
  not_blank x = true ->
  (x =? 32) = false /\ (x =? 9) = false /\ (x =? 10) = false
  /\ (x =? 13) = false /\ (x =? RBRACE) = false.
Proof.
  unfold not_blank, is_json_ws. rewrite negb_true_iff, !orb_false_iff. tauto.
Qed.

Lemma strip_prefix_padded (p s1 s2 : str) :
  forallb not_blank p = true ->
  padded s1 s2 ->
  match strip_prefix p s1, strip_prefix p s2 with
  | Some q1, Some q2 => padded q1 q2
  | None, None => True
  | _, _ => False
  end.
Proof.
  revert s1 s2. induction p as [|x p IH]; intros s1 s2 Hp H; [exact H|].
  simpl in Hp. apply andb_true_iff in Hp as [Hx Hp].
  destruct (not_blank_neq _ Hx) as (E1 & E2 & E3 & E4 & E5).
  padded_head H c r1 r2 Hr; simpl; rewrite ?E1, ?E2, ?E3, ?E4, ?E5;
    try exact I.
  destruct (x =? c); [apply IH; assumption|exact I].
Qed.

Arguments scan_literal : simpl never.

Lemma scan_literal_padded (s1 s2 : str) :
  padded s1 s2 -> agree padded (scan_literal s1) (scan_literal s2).
Proof.
  intros H. unfold scan_literal.
  pose proof (fun p Hp => @strip_prefix_padded p s1 s2 Hp H) as Hlit.
  pose proof (Hlit (lit "null") eq_refl) as H1.
  destruct (strip_prefix (lit "null") s1), (strip_prefix (lit "null") s2);
    try contradiction; [split; [reflexivity|assumption]|clear H1].
  pose proof (Hlit (lit "true") eq_refl) as H1.
  destruct (strip_prefix (lit "true") s1), (strip_prefix (lit "true") s2);
    try contradiction; [split; [reflexivity|assumption]|clear H1].
  pose proof (Hlit (lit "false") eq_refl) as H1.
  destruct (strip_prefix (lit "false") s1), (strip_prefix (lit "false") s2);
    try contradiction; [split; [reflexivity|assumption]|clear H1].
  pose proof (match_number_padded H) as H1.
  destruct (match_number s1) as [[v1 q1]|], (match_number s2) as [[v2 q2]|];
    simpl in H1; try contradiction; [exact H1|clear H1].
  pose proof (Hlit (lit "NaN") eq_refl) as H1.
  destruct (strip_prefix (lit "NaN") s1), (strip_prefix (lit "NaN") s2);
    try contradiction; [split; [reflexivity|assumption]|clear H1].
  pose proof (Hlit (lit "Infinity") eq_refl) as H1.
  destruct (strip_prefix (lit "Infinity") s1), (strip_prefix (lit "Infinity") s2);
    try contradiction; [split; [reflexivity|assumption]|clear H1].
  pose proof (Hlit (lit "-Infinity") eq_refl) as H1.
  destruct (strip_prefix (lit "-Infinity") s1), (strip_prefix (lit "-Infinity") s2);
    try contradiction; [split; [reflexivity|assumption]|exact I].
Qed.

Lemma scan_literal_brace (q : str) : scan_literal (RBRACE :: q) = None.
Proof. reflexivity. Qed.

(** *** Strings *)

Lemma hexval_brace : hexval RBRACE = None.
Proof. reflexivity. Qed.

Lemma decode_hex4_brace (a b c d : char) (u : N) :
  decode_hex4 a b c d = Some u ->
  a <> RBRACE /\ b <> RBRACE /\ c <> RBRACE /\ d <> RBRACE.
Proof.
  unfold decode_hex4. intros H.
  repeat split; intros ->; rewrite hexval_brace in H;
    repeat match type of H with
      | context [match hexval ?x with _ => _ end] => destruct (hexval x)
      end; discriminate.
Qed.

Lemma take_hex4_padded (s1 s2 : str) (u : N) (q1 : str) :
  padded s1 s2 -> take_hex4 s1 = Some (u, q1) ->
  exists q2, take_hex4 s2 = Some (u, q2) /\ padded q1 q2.
Proof.
  intros H E. destruct s1 as [|a [|b [|c [|d r]]]]; try discriminate.
  simpl in E. destruct (decode_hex4 a b c d) as [u'|] eqn:Ed; [|discriminate].
  injection E as -> ->.
  destruct (decode_hex4_brace _ _ _ _ Ed) as (Ha & Hb & Hc & Hd).
  apply (padded_uncons_nb Ha) in H as (t1 & -> & H).
  apply (padded_uncons_nb Hb) in H as (t2 & -> & H).
  apply (padded_uncons_nb Hc) in H as (t3 & -> & H).
  apply (padded_uncons_nb Hd) in H as (t4 & -> & H).
  exists t4. simpl. rewrite Ed. auto.
Qed.

Lemma starts_with_u_escape_padded (s1 s2 : str) :
  padded s1 s2 -> starts_with_u_escape s1 = starts_with_u_escape s2.
Proof.
  intros H. padded_head H c r1 r2 Hr; simpl; try (destruct r2; reflexivity).
  padded_head Hr u t1 t2 Ht; simpl; try reflexivity;
    now rewrite andb_false_r.
Qed.

Lemma starts_with_u_escape_true (s : str) :
  starts_with_u_escape s = true ->
  exists r, s = BACKSLASH :: 117 :: r.
Proof.
  destruct s as [|b [|u r]]; simpl; try discriminate.
  intros H. apply andb_true_iff in H as [Hb Hu].
  apply N.eqb_eq in Hb, Hu. subst. eauto.
Qed.

Lemma unescape_brace (e ch : char) : unescape e = Some ch -> e <> RBRACE.
Proof. intros H ->. discriminate H. Qed.

Lemma decode_escape_eq (e : char) (r1 : str) :
  decode_escape (e :: r1) =
  if e =? 117 then
    match take_hex4 r1 with
    | None => None
    | Some (uni, r2) =>
        if is_high_surrogate uni && starts_with_u_escape r2 then
          match take_hex4 (skipn 2 r2) with
          | None => None
          | Some (uni2, r4) =>
              if is_low_surrogate uni2 then
                Some (65536 + N.lor (N.shiftl (uni - 55296) 10) (uni2 - 56320), r4)
              else Some (uni, r2)
          end
        else Some (uni, r2)
    end
  else
    match unescape e with
    | Some ch => Some (ch, r1)
    | None => None
    end.
Proof. reflexivity. Qed.

Lemma decode_escape_padded (s1 s2 : str) (ch : char) (q1 : str) :
  padded s1 s2 -> decode_escape s1 = Some (ch, q1) ->
  exists q2, decode_escape s2 = Some (ch, q2) /\ padded q1 q2.
Proof.
  intros H E. destruct s1 as [|e r1]; [discriminate|].
  rewrite decode_escape_eq in E. destruct (e =? 117) eqn:Ee.
  - apply N.eqb_eq in Ee. subst e.
    apply padded_uncons_nb in H as (t1 & -> & H); [|discriminate].
    rewrite decode_escape_eq. change (117 =? 117) with true. cbv iota.
    destruct (take_hex4 r1) as [[uni r2]|] eqn:E1; [|discriminate].
    destruct (take_hex4_padded H E1) as (t2 & -> & H2).
    rewrite <- (starts_with_u_escape_padded H2).
    destruct (is_high_surrogate uni && starts_with_u_escape r2) eqn:Eh.
    + apply andb_true_iff in Eh as [_ Hu].
      destruct (starts_with_u_escape_true _ Hu) as (r3 & ->).
      apply padded_uncons_nb in H2 as (t3 & -> & H2); [|discriminate].
      apply padded_uncons_nb in H2 as (t4 & -> & H3); [|discriminate].
      change (skipn 2 (BACKSLASH :: 117 :: r3)) with r3 in E.
      change (skipn 2 (BACKSLASH :: 117 :: t4)) with t4.
      destruct (take_hex4 r3) as [[uni2 r4]|] eqn:E2; [|discriminate].
      destruct (take_hex4_padded H3 E2) as (t5 & -> & H4).
      destruct (is_low_surrogate uni2); injection E as <- <-.
      * eauto.
      * eexists. split; [reflexivity|]. now do 2 constructor.
    + injection E as <- <-. eauto.
  - destruct (unescape e) as [ch'|] eqn:Eu; [|discriminate].
    injection E as <- <-.
    apply (padded_uncons_nb (@unescape_brace _ _ Eu)) in H as (t1 & -> & H).
    exists t1. rewrite decode_escape_eq, Ee, Eu. auto.
Qed.

Lemma scanstring_loop_padded (n : nat) :
  forall (s1 s2 k q1 : str),
    padded s1 s2 -> scanstring_loop n s1 = Some (k, q1) ->
    exists q2, scanstring_loop n s2 = Some (k, q2) /\ padded q1 q2.
Proof.
  induction n as [|n IH]; intros s1 s2 k q1 H E; [discriminate|].
  destruct s1 as [|c r]; [discriminate|].
  apply padded_uncons in H as [(r2 & -> & H)|(-> & -> & _)].
  2:{ simpl in E. destruct n; discriminate. }
  simpl in E |- *.
  destruct (c =? DQUOTE).
  { injection E as <- <-. eauto. }
  destruct (c =? BACKSLASH).
  { destruct (decode_escape r) as [[ch r']|] eqn:Ed; [|discriminate].
    destruct (decode_escape_padded H Ed) as (t & -> & Ht).
    destruct (scanstring_loop n r') as [[k' q']|] eqn:En; [|discriminate].
    injection E as <- <-.
    destruct (IH _ _ _ _ Ht En) as (q2 & -> & Hq). simpl. eauto. }
  destruct (c <? 32); [discriminate|].
  destruct (scanstring_loop n r) as [[k' q']|] eqn:En; [|discriminate].
  injection E as <- <-.
  destruct (IH _ _ _ _ H En) as (q2 & -> & Hq). simpl. eauto.
Qed.

Lemma scanstring_loop_mono (n m : nat) (s : str) (res : str * str) :
  scanstring_loop n s = Some res -> (n <= m)%nat ->
  scanstring_loop m s = Some res.
Proof.
  revert m s res. induction n as [|n IH]; intros m s res E Hle; [discriminate|].
  destruct m as [|m]; [lia|]. destruct s as [|c r]; [discriminate|].
  simpl in E |- *.
  destruct (c =? DQUOTE); [exact E|].
  destruct (c =? BACKSLASH).
  { destruct (decode_escape r) as [[ch r']|]; [|discriminate].
    destruct (scanstring_loop n r') as [x|] eqn:En; [|discriminate].
    rewrite (IH m r' x En); [exact E|lia]. }
  destruct (c <? 32); [discriminate|].
  destruct (scanstring_loop n r) as [x|] eqn:En; [|discriminate].
  rewrite (IH m r x En); [exact E|lia].
Qed.

Lemma scanstring_padded (s1 s2 k q1 : str) :
  padded s1 s2 -> scanstring s1 = Some (k, q1) ->
  exists q2, scanstring s2 = Some (k, q2) /\ padded q1 q2.
Proof.
  unfold scanstring. intros H E.
  destruct (scanstring_loop_padded _ H E) as (q2 & E2 & Hq).
  exists q2. split; [|exact Hq].
  apply (scanstring_loop_mono _ E2). now apply padded_length.
Qed.

(** *** Values *)

Lemma scan_once_eq (n : nat) (c : char) (r : str) :
  scan_once (S n) (c :: r) =
  if c =? DQUOTE then
    match scanstring r with
    | Some (k, rest) => Some (PyStr k, rest)
    | None => None
    end
  else if c =? LBRACE then
    match skip_ws r with
    | c1 :: r1 =>
        if c1 =? RBRACE then Some (PyDict [], r1)
        else if c1 =? DQUOTE then
          match JSONObject_loop n r1 with
          | Some (pairs, rest) => Some (PyDict (dict_of_pairs pairs), rest)
          | None => None
          end
        else None
    | [] => None
    end
  else if c =? LBRACKET then
    match skip_ws r with
    | c1 :: r1 =>
        if c1 =? RBRACKET then Some (PyList [], r1)
        else
          match JSONArray_loop n (c1 :: r1) with
          | Some (values, rest) => Some (PyList values, rest)
          | None => None
          end
    | [] => None
    end
  else scan_literal (c :: r).
Proof. reflexivity. Qed.

Lemma JSONObject_loop_eq (n : nat) (s : str) :
  JSONObject_loop (S n) s =
  match scanstring s with
  | None => None
  | Some (key, r1) =>
      match skip_ws r1 with
      | c :: r2 =>
          if c =? COLON then
            match scan_once n (skip_ws r2) with
            | None => None
            | Some (value, r3) =>
                match skip_ws r3 with
                | c' :: r4 =>
                    if c' =? RBRACE then Some ([(key, value)], r4)
                    else if c' =? COMMA then
                      match skip_ws r4 with
                      | q :: r5 =>
                          if q =? DQUOTE then
                            match JSONObject_loop n r5 with
                            | Some (pairs, rest) => Some ((key, value) :: pairs, rest)
                            | None => None
                            end
                          else None
                      | [] => None
                      end
                    else None
                | [] => None
                end
            end
          else None
      | [] => None
      end
  end.
Proof. reflexivity. Qed.

Lemma JSONArray_loop_eq (n : nat) (s : str) :
  JSONArray_loop (S n) s =
  match scan_once n s with
  | None => None
  | Some (value, r1) =>
      match skip_ws r1 with
      | c :: r2 =>
          if c =? RBRACKET then Some ([value], r2)
          else if c =? COMMA then
            match JSONArray_loop n (skip_ws r2) with
            | Some (values, rest) => Some (value :: values, rest)
            | None => None
            end
          else None
      | [] => None
      end
  end.
Proof. reflexivity. Qed.

Lemma scan_once_nil (n : nat) : scan_once n [] = None.
Proof. destruct n; reflexivity. Qed.

Lemma scan_once_brace (n : nat) (q : str) : scan_once n (RBRACE :: q) = None.
Proof. destruct n; reflexivity. Qed.

Lemma JSONArray_loop_brace (n : nat) (q : str) :
  JSONArray_loop n (RBRACE :: q) = None.
Proof.
  destruct n; [reflexivity|]. now rewrite JSONArray_loop_eq, scan_once_brace.
Qed.

Lemma padded_skip_ws (s1 s2 : str) :
  padded s1 s2 -> padded (skip_ws s1) (skip_ws s2).
Proof.
  intros H. destruct (skip_ws_padded H) as [[-> ->]|(c & q1 & q2 & -> & -> & Hq)].
  - exact (padded_end [] eq_refl).
  - now constructor.
Qed.

Lemma skip_ws_head (r1 r2 : str) (c : char) (q1 : str) :
  padded_rest r1 r2 -> skip_ws r1 = c :: q1 ->
  exists q2, skip_ws r2 = c :: q2
             /\ (padded q1 q2 \/ (c = RBRACE /\ q1 = [] /\ q2 = [])).
Proof.
  intros [H|[-> ->]] E; [|discriminate].
  destruct (skip_ws_padded H) as [[E1 ->]|(c' & t1 & t2 & E1 & -> & Hq)];
    rewrite E1 in E; injection E as <- <-; eexists; split; eauto.
Qed.

Ltac use_head Hcase :=
  destruct Hcase as [Hcase|(? & ? & ?)];
  [|subst; try discriminate; try (right; split; reflexivity)].

Lemma scan_padded_all (n : nat) :
  (forall s1 s2 v q1,
      padded s1 s2 -> scan_once n s1 = Some (v, q1) ->
      exists q2, scan_once n s2 = Some (v, q2) /\ padded_rest q1 q2)
  /\ (forall s1 s2 v q1,
      padded s1 s2 -> JSONObject_loop n s1 = Some (v, q1) ->
      exists q2, JSONObject_loop n s2 = Some (v, q2) /\ padded_rest q1 q2)
  /\ (forall s1 s2 v q1,
      padded s1 s2 -> JSONArray_loop n s1 = Some (v, q1) ->
      exists q2, JSONArray_loop n s2 = Some (v, q2) /\ padded_rest q1 q2).
Proof.
  induction n as [|n (IHv & IHo & IHa)]; [repeat split; discriminate|].
  split; [|split]; intros s1 s2 v q1 H E.
  - (* scan_once *)
    destruct s1 as [|c r]; [discriminate|].
    apply padded_uncons in H as [(r2 & -> & H)|(-> & -> & _)];
      [|discriminate].
    rewrite scan_once_eq in E |- *.
    destruct (c =? DQUOTE).
    { destruct (scanstring r) as [[k rest]|] eqn:Es; [|discriminate].
      injection E as <- <-.
      destruct (scanstring_padded H Es) as (q2 & -> & Hq).
      eexists. split; [reflexivity|now left]. }
    destruct (c =? LBRACE).
    { destruct (skip_ws r) as [|c1 r1] eqn:Ew; [discriminate|].
      destruct (skip_ws_head (or_introl H) Ew) as (t & -> & Hcase).
      destruct (c1 =? RBRACE) eqn:Eb.
      { injection E as <- <-. eexists. split; [reflexivity|].
        destruct Hcase as [Hq|(_ & -> & ->)]; [now left|now right]. }
      destruct (c1 =? DQUOTE); [|discriminate].
      destruct Hcase as [Hq|(-> & _)]; [|discriminate].
      destruct (JSONObject_loop n r1) as [[pairs rest]|] eqn:El; [|discriminate].
      injection E as <- <-.
      destruct (IHo _ _ _ _ Hq El) as (q2 & -> & Hq2). eauto. }
    destruct (c =? LBRACKET).
    { destruct (skip_ws r) as [|c1 r1] eqn:Ew; [discriminate|].
      destruct (skip_ws_head (or_introl H) Ew) as (t & -> & Hcase).
      destruct (c1 =? RBRACKET) eqn:Eb.
      { injection E as <- <-. eexists. split; [reflexivity|].
        destruct Hcase as [Hq|(-> & _)]; [now left|discriminate]. }
      destruct Hcase as [Hq|(-> & -> & ->)].
      2:{ rewrite JSONArray_loop_brace in E. discriminate. }
      destruct (JSONArray_loop n (c1 :: r1)) as [[values rest]|] eqn:El;
        [|discriminate].
      injection E as <- <-.
      destruct (IHa _ _ _ _ (padded_cons c1 Hq) El) as (q2 & -> & Hq2). eauto. }
    pose proof (scan_literal_padded (padded_cons c H)) as Hl.
    rewrite E in Hl.
    destruct (scan_literal (c :: r2)) as [[v2 q2]|]; simpl in Hl;
      [|contradiction].
    destruct Hl as [<- Hq]. eexists. split; [reflexivity|now left].
  - (* JSONObject_loop *)
    rewrite JSONObject_loop_eq in E |- *.
    destruct (scanstring s1) as [[key r1]|] eqn:Es; [|discriminate].
    destruct (scanstring_padded H Es) as (t1 & -> & H1).
    destruct (skip_ws r1) as [|c r2] eqn:Ew; [discriminate|].
    destruct (skip_ws_head (or_introl H1) Ew) as (t2 & -> & Hcase).
    destruct (c =? COLON) eqn:Ec; [|discriminate].
    destruct Hcase as [H2|(-> & _)]; [|discriminate].
    destruct (scan_once n (skip_ws r2)) as [[value r3]|] eqn:Ev; [|discriminate].
    destruct (IHv _ _ _ _ (padded_skip_ws H2) Ev) as (t3 & -> & H3).
    destruct (skip_ws r3) as [|c' r4] eqn:Ew3; [discriminate|].
    destruct (skip_ws_head H3 Ew3) as (t4 & -> & Hcase).
    destruct (c' =? RBRACE) eqn:Eb.
    { injection E as <- <-. eexists. split; [reflexivity|].
      destruct Hcase as [Hq|(_ & -> & ->)]; [now left|now right]. }
    destruct (c' =? COMMA); [|discriminate].
    destruct Hcase as [H4|(-> & _)]; [|discriminate].
    destruct (skip_ws r4) as [|q r5] eqn:Ew4; [discriminate|].
    destruct (skip_ws_head (or_introl H4) Ew4) as (t5 & -> & Hcase).
    destruct (q =? DQUOTE) eqn:Eq; [|discriminate].
    destruct Hcase as [H5|(-> & _)]; [|discriminate].
    destruct (JSONObject_loop n r5) as [[pairs rest]|] eqn:El; [|discriminate].
    injection E as <- <-.
    destruct (IHo _ _ _ _ H5 El) as (q2 & -> & Hq2). eauto.
  - (* JSONArray_loop *)
    rewrite JSONArray_loop_eq in E |- *.
    destruct (scan_once n s1) as [[value r1]|] eqn:Ev; [|discriminate].
    destruct (IHv _ _ _ _ H Ev) as (t1 & -> & H1).
    destruct (skip_ws r1) as [|c r2] eqn:Ew; [discriminate|].
    destruct (skip_ws_head H1 Ew) as (t2 & -> & Hcase).
    destruct (c =? RBRACKET) eqn:Eb.
    { injection E as <- <-. eexists. split; [reflexivity|].
      destruct Hcase as [Hq|(-> & _)]; [now left|discriminate]. }
    destruct (c =? COMMA) eqn:Ec; [|discriminate].
    destruct Hcase as [H2|(-> & _)]; [|discriminate].
    destruct (JSONArray_loop n (skip_ws r2)) as [[values rest]|] eqn:El;
      [|discriminate].
    injection E as <- <-.
    destruct (IHa _ _ _ _ (padded_skip_ws H2) El) as (q2 & -> & Hq2). eauto.
Qed.

(** More fuel never changes a result. *)
Lemma scan_mono_all (n : nat) :
  (forall m s res, scan_once n s = Some res -> (n <= m)%nat ->
                   scan_once m s = Some res)
  /\ (forall m s res, JSONObject_loop n s = Some res -> (n <= m)%nat ->
                      JSONObject_loop m s = Some res)
  /\ (forall m s res, JSONArray_loop n s = Some res -> (n <= m)%nat ->
                      JSONArray_loop m s = Some res).
Proof.
  induction n as [|n (IHv & IHo & IHa)]; [repeat split; discriminate|].
  split; [|split]; intros m s res E Hle; (destruct m as [|m]; [lia|]).
  - destruct s as [|c r]; [discriminate|].
    rewrite scan_once_eq in E |- *.
    destruct (c =? DQUOTE); [exact E|].
    destruct (c =? LBRACE).
    { destruct (skip_ws r) as [|c1 r1]; [discriminate|].
      destruct (c1 =? RBRACE); [exact E|].
      destruct (c1 =? DQUOTE); [|discriminate].
      destruct (JSONObject_loop n r1) as [x|] eqn:El; [|discriminate].
      rewrite (IHo m _ _ El); [exact E|lia]. }
    destruct (c =? LBRACKET); [|exact E].
    destruct (skip_ws r) as [|c1 r1]; [discriminate|].
    destruct (c1 =? RBRACKET); [exact E|].
    destruct (JSONArray_loop n (c1 :: r1)) as [x|] eqn:El; [|discriminate].
    rewrite (IHa m _ _ El); [exact E|lia].
  - rewrite JSONObject_loop_eq in E |- *.
    destruct (scanstring s) as [[key r1]|]; [|discriminate].
    destruct (skip_ws r1) as [|c r2]; [discriminate|].
    destruct (c =? COLON); [|discriminate].
    destruct (scan_once n (skip_ws r2)) as [[value r3]|] eqn:Ev; [|discriminate].
    rewrite (IHv m _ _ Ev); [|lia].
    destruct (skip_ws r3) as [|c' r4]; [discriminate|].
    destruct (c' =? RBRACE); [exact E|].
    destruct (c' =? COMMA); [|discriminate].
    destruct (skip_ws r4) as [|q r5]; [discriminate|].
    destruct (q =? DQUOTE); [|discriminate].
    destruct (JSONObject_loop n r5) as [x|] eqn:El; [|discriminate].
    rewrite (IHo m _ _ El); [exact E|lia].
  - rewrite JSONArray_loop_eq in E |- *.
    destruct (scan_once n s) as [[value r1]|] eqn:Ev; [|discriminate].
    rewrite (IHv m _ _ Ev); [|lia].
    destruct (skip_ws r1) as [|c r2]; [discriminate|].
    destruct (c =? RBRACKET); [exact E|].
    destruct (c =? COMMA); [|discriminate].
    destruct (JSONArray_loop n (skip_ws r2)) as [x|] eqn:El; [|discriminate].
    rewrite (IHa m _ _ El); [exact E|lia].
Qed.

Lemma scan_once_mono (n m : nat) (s : str) (res : pyobj * str) :
  scan_once n s = Some res -> (n <= m)%nat -> scan_once m s = Some res.
Proof. apply scan_mono_all. Qed.

(** Whitespace put before the closing brace of a text does not change what
    [json.loads] makes of it. *)
Lemma json_loads_padded (s1 s2 : str) (v : pyobj) :
  padded s1 s2 -> json_loads s1 = Some v -> json_loads s2 = Some v.
Proof.
  intros H E. unfold json_loads in *.
  assert (Hbom : starts_with_bom s2 = starts_with_bom s1).
  { padded_head H c r1 r2 Hr; try discriminate E; reflexivity. }
  rewrite Hbom. destruct (starts_with_bom s1); [discriminate|].
  destruct (scan_once (S (List.length s1)) (skip_ws s1)) as [[v' rest]|] eqn:Es;
    [|discriminate].
  destruct (proj1 (scan_padded_all _) _ _ _ _ (padded_skip_ws H) Es)
    as (rest2 & E2 & Hrest).
  rewrite (scan_once_mono _ E2) by (apply padded_length in H; lia).
  destruct Hrest as [Hp|[-> ->]]; [|exact E].
  destruct (skip_ws_padded Hp) as [[E1 _]|(c & q1 & q2 & E1 & _)];
    rewrite E1 in E; discriminate.
Qed.

(** ** Decoding what [json.dumps] wrote *)

(** *** Digits *)

Lemma digits_of_uint_digits (u : uint) :
  forallb is_digit (digits_of_uint u) = true.
Proof. induction u; simpl; auto. Qed.

Lemma uint_of_digits_of_uint (u : uint) :
  uint_of_digits (digits_of_uint u) = u.
Proof. induction u; simpl; unfold digit_cons; simpl; congruence. Qed.

Lemma N_of_digits_of_N (n : N) : N_of_digits (digits_of_N n) = n.
Proof.
  unfold N_of_digits, digits_of_N. rewrite uint_of_digits_of_uint.
  apply DecimalN.Unsigned.of_to.
Qed.

Lemma digits_of_N_digits (n : N) : forallb is_digit (digits_of_N n) = true.
Proof. apply digits_of_uint_digits. Qed.

Lemma unorm_head (u : uint) :
  match unorm u with
  | Nil => False
  | D0 Nil => True
  | D0 _ => False
  | _ => True
  end.
Proof. induction u; simpl; auto. Qed.

Lemma digits_of_N_ok (n : N) : int_part_ok (digits_of_N n).
Proof.
  unfold digits_of_N.
  assert (Hn : N.to_uint n = unorm (N.to_uint n)).
  { rewrite <- (DecimalN.Unsigned.of_to n) at 1.
    apply DecimalN.Unsigned.to_of. }
  pose proof (unorm_head (N.to_uint n)) as Hh. rewrite <- Hn in Hh.
  pose proof (digits_of_uint_digits (N.to_uint n)) as Hd.
  destruct (N.to_uint n) as [|u|u|u|u|u|u|u|u|u|u]; simpl in *;
    try contradiction;
    try (repeat split; [exact Hd|discriminate]).
  destruct u; try contradiction. repeat split.
Qed.

Lemma span_digits_app (ds rest : str) :
  forallb is_digit ds = true ->
  match rest with [] => true | c :: _ => negb (is_digit c) end = true ->
  span_digits (ds ++ rest) = (ds, rest).
Proof.
  intros Hds Hrest. induction ds as [|c ds IH]; simpl.
  - destruct rest as [|c rest]; [reflexivity|].
    simpl. apply negb_true_iff in Hrest. now rewrite Hrest.
  - simpl in Hds. apply andb_true_iff in Hds as [Hc Hds].
    now rewrite Hc, (IH Hds).
Qed.

Lemma number_stop_no_digit (rest : str) :
  number_stop rest = true ->
  match rest with [] => true | c :: _ => negb (is_digit c) end = true.
Proof.
  destruct rest as [|c rest]; [reflexivity|]. unfold number_stop.
  rewrite !andb_true_iff. tauto.
Qed.

Lemma scan_int_part_app (ip rest : str) :
  int_part_ok ip ->
  match rest with [] => true | c :: _ => negb (is_digit c) end = true ->
  scan_int_part (ip ++ rest) = Some (ip, rest).
Proof.
  destruct ip as [|c r]; [contradiction|]. intros (Hc & Hr & Hz) Hrest.
  simpl. destruct (c =? ZERO) eqn:E.
  - apply N.eqb_eq in E. rewrite (Hz E), E. reflexivity.
  - rewrite Hc, (span_digits_app _ _ Hr Hrest). reflexivity.
Qed.

Lemma scan_frac_stop (rest : str) :
  number_stop rest = true -> scan_frac rest = ([], rest).
Proof.
  destruct rest as [|c rest]; [reflexivity|]. unfold number_stop, scan_frac.
  rewrite !andb_true_iff, !negb_true_iff. intros [[_ ->] _]. reflexivity.
Qed.

Lemma scan_exp_stop (rest : str) :
  number_stop rest = true -> scan_exp rest = (None, rest).
Proof.
  destruct rest as [|c rest]; [reflexivity|]. unfold number_stop, scan_exp.
  rewrite !andb_true_iff, !negb_true_iff. intros [_ ->]. reflexivity.
Qed.

Lemma scan_exp_text (ex : option (bool * str)) (rest : str) :
  exp_ok ex -> number_stop rest = true ->
  scan_exp (match ex with
            | None => []
            | Some (eneg, ed) => 101 :: (if eneg then MINUS else PLUS) :: ed
            end ++ rest)
  = (match ex with
     | None => None
     | Some (eneg, ed) => Some (signed eneg (N_of_digits ed))
     end, rest).
Proof.
  destruct ex as [[eneg ed]|]; simpl; intros Hex Hrest;
    [|now apply scan_exp_stop].
  destruct Hex as [Hne Hd].
  assert (Hspan := span_digits_app _ _ Hd (number_stop_no_digit _ Hrest)).
  destruct eneg; simpl; unfold str, char in *; rewrite Hspan;
    destruct ed; congruence.
Qed.

Lemma scan_frac_text (fr rest : str) :
  forallb is_digit fr = true ->
  match rest with
  | [] => true
  | c :: _ => negb (is_digit c) && negb (c =? DOT)
  end = true ->
  scan_frac (match fr with [] => [] | _ :: _ => DOT :: fr end ++ rest)
  = (fr, rest).
Proof.
  intros Hd Hrest. destruct fr as [|c fr].
  - simpl. destruct rest as [|c rest]; [reflexivity|].
    apply andb_true_iff in Hrest as [_ Hdot]. apply negb_true_iff in Hdot.
    simpl. now rewrite Hdot.
  - assert (Hspan : span_digits ((c :: fr) ++ rest) = (c :: fr, rest)).
    { apply span_digits_app; [exact Hd|].
      destruct rest as [|x rest]; [reflexivity|].
      now apply andb_true_iff in Hrest as [Hx _]. }
    unfold scan_frac. cbn [List.app]. cbn [List.app] in Hspan.
    unfold str, char in *. rewrite Hspan.
    now rewrite N.eqb_refl.
Qed.

Lemma exp_text_head (ex : option (bool * str)) (rest : str) :
  number_stop rest = true ->
  match (match ex with
         | None => []
         | Some (eneg, ed) => 101 :: (if eneg then MINUS else PLUS) :: ed
         end ++ rest) with
  | [] => true
  | c :: _ => negb (is_digit c) && negb (c =? DOT)
  end = true.
Proof.
  destruct ex as [[eneg ed]|]; [reflexivity|]. simpl.
  destruct rest as [|c rest]; [reflexivity|]. unfold number_stop.
  rewrite !andb_true_iff. tauto.
Qed.

Lemma frac_text_head (fr rest : str) :
  match rest with
  | [] => true
  | c :: _ => negb (is_digit c) && negb (c =? DOT)
  end = true ->
  match (match fr with [] => [] | _ :: _ => DOT :: fr end ++ rest) with
  | [] => true
  | c :: _ => negb (is_digit c)
  end = true.
Proof.
  destruct fr; [|reflexivity]. simpl. destruct rest; [reflexivity|].
  rewrite andb_true_iff. tauto.
Qed.

Lemma match_number_text (neg : bool) (ip fr : str) (ex : option (bool * str))
  (rest : str) :
  int_part_ok ip ->
  forallb is_digit fr = true ->
  exp_ok ex ->
  number_stop rest = true ->
  match_number (number_text neg ip fr ex ++ rest)
  = Some (number_value neg ip fr ex, rest).
Proof.
  intros Hip Hfr Hex Hrest.
  set (F := match fr with [] => [] | _ :: _ => DOT :: fr end).
  set (E := match ex with
            | None => []
            | Some (eneg, ed) => 101 :: (if eneg then MINUS else PLUS) :: ed
            end).
  assert (Htext : number_text neg ip fr ex ++ rest
                  = (if neg then [MINUS] else []) ++ ip ++ F ++ E ++ rest).
  { unfold number_text. fold F E. now rewrite <- !List.app_assoc. }
  rewrite Htext. clear Htext.
  assert (Hbody :
    match scan_int_part (ip ++ F ++ E ++ rest) with
    | None => None
    | Some (ip', r1) =>
        let (fr', r2) := scan_frac r1 in
        let (ex', r3) := scan_exp r2 in
        match fr', ex' with
        | [], None => Some (PyInt (signed neg (N_of_digits ip')), r3)
        | _, Some e => Some (PyFloat (float_of_literal neg ip' fr' e), r3)
        | _, None => Some (PyFloat (float_of_literal neg ip' fr' 0), r3)
        end
    end = Some (number_value neg ip fr ex, rest)).
  { subst F E.
    rewrite (@scan_int_part_app ip _ Hip
               (@frac_text_head fr _ (@exp_text_head ex rest Hrest))).
    rewrite (@scan_frac_text fr _ Hfr (@exp_text_head ex rest Hrest)).
    rewrite (@scan_exp_text ex rest Hex Hrest).
    unfold number_value. destruct fr, ex as [[eneg ed]|]; reflexivity. }
  destruct neg.
  - exact Hbody.
  - unfold match_number. cbn [List.app].
    destruct ip as [|c r]; [contradiction|]. destruct Hip as (Hc & Hip).
    cbn [List.app] in Hbody |- *.
    destruct (c =? MINUS) eqn:Ec.
    { apply N.eqb_eq in Ec. subst c. discriminate Hc. }
    exact Hbody.
Qed.

(** *** Integers and floats *)

Lemma int_repr_text (z : Z) :
  int_repr z = number_text (z <? 0)%Z (digits_of_N (Z.abs_N z)) [] None.
Proof.
  unfold int_repr, number_text. destruct (z <? 0)%Z; simpl;
    now rewrite !List.app_nil_r.
Qed.

Lemma int_repr_value (z : Z) :
  number_value (z <? 0)%Z (digits_of_N (Z.abs_N z)) [] None = PyInt z.
Proof.
  unfold number_value, signed. rewrite N_of_digits_of_N. f_equal.
  destruct (Z.ltb_spec z 0); rewrite N2Z.inj_abs_N; lia.
Qed.

Lemma rstrip_by_forallb (p q : char -> bool) (s : str) :
  forallb q s = true -> forallb q (rstrip_by p s) = true.
Proof.
  induction s as [|c s IH]; simpl; [reflexivity|].
  intros H. apply andb_true_iff in H as [Hc Hs]. specialize (IH Hs).
  destruct (rstrip_by p s) as [|d r].
  - destruct (p c); simpl; [reflexivity|now rewrite Hc].
  - simpl in *. now rewrite Hc.
Qed.

Lemma rstrip_by_head (p : char -> bool) (c d : char) (r tl : str) :
  rstrip_by p (c :: r) = d :: tl -> d = c.
Proof.
  simpl. destruct (rstrip_by p r); [destruct (p c)|]; congruence.
Qed.

(** The significant digits of a float: digits, the first one not zero. *)
Lemma significant_digits (m : N) (d : char) (tl : str) :
  rstrip_by (is_char ZERO) (digits_of_N m) = d :: tl ->
  is_digit d = true /\ forallb is_digit tl = true /\ d <> ZERO.
Proof.
  intros E.
  pose proof (rstrip_by_forallb (is_char ZERO) is_digit _ (digits_of_N_digits m))
    as Hd.
  rewrite E in Hd. simpl in Hd. apply andb_true_iff in Hd as [Hd Htl].
  repeat split; try assumption.
  pose proof (digits_of_N_ok m) as Hok.
  destruct (digits_of_N m) as [|c r]; [discriminate|].
  destruct Hok as (_ & _ & Hz).
  pose proof (rstrip_by_head _ _ _ E) as ->.
  intros ->. rewrite (Hz eq_refl) in E. discriminate.
Qed.

Lemma forallb_repeat (p : char -> bool) (c : char) (n : nat) :
  p c = true -> forallb p (repeat c n) = true.
Proof. intros H. induction n; simpl; [reflexivity|now rewrite H]. Qed.

Lemma forallb_firstn (p : char -> bool) (n : nat) (s : str) :
  forallb p s = true -> forallb p (firstn n s) = true.
Proof.
  revert s. induction n as [|n IH]; intros [|c s]; simpl; try reflexivity.
  intros H. apply andb_true_iff in H as [Hc Hs]. now rewrite Hc, IH.
Qed.

Lemma forallb_skipn (p : char -> bool) (n : nat) (s : str) :
  forallb p s = true -> forallb p (skipn n s) = true.
Proof.
  revert s. induction n as [|n IH]; intros [|c s]; simpl; try reflexivity;
    try (intros H; exact H).
  intros H. apply andb_true_iff in H as [Hc Hs]. now apply IH.
Qed.

Lemma exp_digits_ok (n : N) : exp_ok (Some (false, exp_digits n)).
Proof.
  unfold exp_ok, exp_digits.
  pose proof (digits_of_N_digits n) as Hd.
  pose proof (digits_of_N_ok n) as Hok.
  destruct (digits_of_N n) as [|c [|c' r]]; [contradiction| |];
    split; try discriminate; simpl in *; assumption.
Qed.

(** The text [float.__repr__] writes is a number text with a fraction or an
    exponent. *)
Lemma float_repr_dec_text (neg : bool) (m : N) (e : Z) :
  exists ip fr ex,
    float_repr_dec neg m e = number_text neg ip fr ex
    /\ int_part_ok ip
    /\ forallb is_digit fr = true
    /\ exp_ok ex
    /\ exists f, number_value neg ip fr ex = PyFloat f.
Proof.
  unfold float_repr_dec.
  destruct (rstrip_by (is_char ZERO) (digits_of_N m)) as [|d tl] eqn:Eds.
  { exists [ZERO], [ZERO], None.
    split; [reflexivity|]. split; [repeat split|]. split; [reflexivity|].
    split; [exact I|]. eexists; reflexivity. }
  destruct (significant_digits m Eds) as (Hd & Htl & Hnz).
  set (nd := Z.of_nat (List.length (d :: tl))).
  set (decpt := (nd + e + Z.of_nat (List.length (digits_of_N m)
                                     - List.length (d :: tl)))%Z).
  assert (Hds : forallb is_digit (d :: tl) = true) by (simpl; now rewrite Hd).
  destruct ((-4 <? decpt)%Z && (decpt <=? 16)%Z).
  - destruct (decpt <=? 0)%Z eqn:E0; [|destruct (nd <=? decpt)%Z eqn:E1].
    + exists [ZERO], (repeat ZERO (Z.to_nat (- decpt)) ++ d :: tl), None.
      split; [reflexivity|]. split; [repeat split|].
      split; [|split; [exact I|]].
      * rewrite forallb_app, forallb_repeat by reflexivity. exact Hds.
      * unfold number_value.
        destruct (repeat ZERO (Z.to_nat (- decpt)) ++ d :: tl) eqn:Ef;
          [|eexists; reflexivity].
        apply app_eq_nil in Ef as [_ Ef]. discriminate.
    + exists ((d :: tl) ++ repeat ZERO (Z.to_nat (decpt - nd))), [ZERO], None.
      split; [reflexivity|].
      split; [|split; [reflexivity|split; [exact I|eexists; reflexivity]]].
      simpl. split; [exact Hd|]. split; [|intros; contradiction].
      rewrite forallb_app, forallb_repeat by reflexivity.
      now rewrite Htl.
    + exists (firstn (Z.to_nat decpt) (d :: tl)),
             (skipn (Z.to_nat decpt) (d :: tl)), None.
      split; [reflexivity|].
      apply Z.leb_gt in E0, E1.
      destruct (Z.to_nat decpt) as [|k] eqn:Ek; [lia|].
      split; [|split; [|split; [exact I|]]].
      * simpl. split; [exact Hd|]. split; [|intros; contradiction].
        now apply forallb_firstn.
      * now apply forallb_skipn.
      * unfold number_value.
        destruct (skipn (S k) (d :: tl)) eqn:Es; [|eexists; reflexivity].
        exfalso. apply (f_equal (@List.length char)) in Es.
        rewrite length_skipn in Es. simpl in Es. subst nd.
        simpl List.length in E1. lia.
  - exists [d], tl,
      (Some ((decpt - 1 <? 0)%Z, exp_digits (Z.abs_N (decpt - 1)))).
    split; [reflexivity|]. split; [simpl; auto|]. split; [exact Htl|].
    split; [apply (exp_digits_ok (Z.abs_N (decpt - 1)))|].
    unfold number_value. destruct tl; eexists; reflexivity.
Qed.

(** *** Strings *)

Lemma N_lt_32_cases (c : N) :
  (c <? 32) = true -> In c (map N.of_nat (seq 0 32)).
Proof.
  intros H. apply N.ltb_lt in H. rewrite <- (N2Nat.id c).
  apply in_map, in_seq. lia.
Qed.

Lemma scanstring_loop_escape_char (c : char) (n : nat) (tail : str) :
  scanstring_loop (S n) (escape_char c ++ tail)
  = push_char c (scanstring_loop n tail).
Proof.
  destruct (c <? 32) eqn:Hlt.
  - apply N_lt_32_cases in Hlt. simpl in Hlt.
    repeat (destruct Hlt as [<-|Hlt]; [reflexivity|]). contradiction.
  - apply N.ltb_ge in Hlt. unfold escape_char.
    destruct (N.eqb_spec c 34) as [->|H34]; [reflexivity|].
    destruct (N.eqb_spec c 92) as [->|H92]; [reflexivity|].
    destruct (N.eqb_spec c 8); [lia|]. destruct (N.eqb_spec c 12); [lia|].
    destruct (N.eqb_spec c 10); [lia|]. destruct (N.eqb_spec c 13); [lia|].
    destruct (N.eqb_spec c 9); [lia|].
    destruct (N.ltb_spec c 32); [lia|].
    cbn [List.app scanstring_loop]. unfold DQUOTE, BACKSLASH.
    destruct (N.eqb_spec c 34); [contradiction|].
    destruct (N.eqb_spec c 92); [contradiction|].
    destruct (N.ltb_spec c 32); [lia|]. reflexivity.
Qed.

Lemma scanstring_loop_escaped (s : str) (n : nat) (rest : str) :
  (List.length s < n)%nat ->
  scanstring_loop n (flat_map escape_char s ++ DQUOTE :: rest) = Some (s, rest).
Proof.
  revert n. induction s as [|c s IH]; intros n Hn.
  - destruct n as [|n]; [lia|]. reflexivity.
  - destruct n as [|n]; [simpl in Hn; lia|].
    cbn [flat_map]. rewrite <- List.app_assoc.
    rewrite scanstring_loop_escape_char, IH by (simpl in Hn; lia).
    reflexivity.
Qed.

Lemma escape_char_length (c : char) : (1 <= List.length (escape_char c))%nat.
Proof.
  unfold escape_char.
  repeat match goal with
    | |- context [if ?b then _ else _] => destruct b
    end; simpl; lia.
Qed.

Lemma escaped_length (s : str) :
  (List.length s <= List.length (flat_map escape_char s))%nat.
Proof.
  induction s as [|c s IH]; simpl; [lia|].
  rewrite length_app. pose proof (escape_char_length c). lia.
Qed.

Lemma scanstring_escaped (s rest : str) :
  scanstring (flat_map escape_char s ++ DQUOTE :: rest) = Some (s, rest).
Proof.
  unfold scanstring. apply scanstring_loop_escaped.
  rewrite length_app. simpl. pose proof (escaped_length s). lia.
Qed.

(** *** Values *)

(** Induction over objects, with the hypothesis for every element of a list
    and every value of a dict. *)
Lemma pyobj_nested_ind (P : pyobj -> Prop) :
  P PyNone ->
  (forall b, P (PyBool b)) ->
  (forall z, P (PyInt z)) ->
  (forall f, P (PyFloat f)) ->
  (forall s, P (PyStr s)) ->
  (forall l, Forall P l -> P (PyList l)) ->
  (forall d, Forall (fun kv => P (snd kv)) d -> P (PyDict d)) ->
  forall o, P o.
Proof.
  intros HNone HBool HInt HFloat HStr HList HDict.
  fix IH 1. intros [| b | z | f | s | l | d].
  - exact HNone.
  - apply HBool.
  - apply HInt.
  - apply HFloat.
  - apply HStr.
  - apply HList. induction l as [|x l IHl]; constructor; [apply IH|exact IHl].
  - apply HDict. induction d as [|[k v] d IHd]; constructor;
      [apply IH|exact IHd].
Qed.

Lemma newline_indent_blank (indent : option nat) (level : nat) :
  forallb is_json_ws (newline_indent indent level) = true.
Proof.
  unfold newline_indent. destruct indent as [k|]; [|reflexivity].
  simpl. now apply forallb_repeat.
Qed.

Lemma item_separator_shape (indent : option nat) (level : nat) :
  exists w, item_separator indent level = COMMA :: w
            /\ forallb is_json_ws w = true.
Proof.
  unfold item_separator. destruct indent as [k|].
  - eexists. split; [reflexivity|]. apply (newline_indent_blank (Some k)).
  - exists [SPACE]. split; reflexivity.
Qed.

Lemma digit_value_start (c : char) : is_digit c = true -> value_start c = true.
Proof.
  unfold is_digit. intros H. apply andb_true_iff in H as [H1 H2].
  apply N.leb_le in H1, H2.
  unfold value_start, is_json_ws, RBRACKET, RBRACE, COMMA, COLON.
  repeat match goal with
    | |- context [c =? ?k] => destruct (N.eqb_spec c k); [lia|]
    end. reflexivity.
Qed.

Lemma number_text_start (neg : bool) (ip fr : str) (ex : option (bool * str)) :
  int_part_ok ip ->
  exists c r, number_text neg ip fr ex = c :: r
              /\ (is_digit c = true \/ c = MINUS).
Proof.
  intros Hip. unfold number_text. destruct neg.
  - eexists _, _. split; [reflexivity|now right].
  - destruct ip as [|c r]; [contradiction|]. destruct Hip as (Hc & _).
    eexists _, _. split; [reflexivity|now left].
Qed.

Lemma iterencode_start (indent : option nat) (level : nat) (o : pyobj) :
  exists c r, iterencode indent level o = c :: r /\ value_start c = true.
Proof.
  destruct o as [| [|] | z | f | s | [|x l] | [|kv d]];
    try (eexists _, _; split; reflexivity).
  - cbn [iterencode]. rewrite int_repr_text.
    destruct (@number_text_start (z <? 0)%Z _ [] None (digits_of_N_ok (Z.abs_N z)))
      as (c & r & -> & Hc).
    exists c, r. split; [reflexivity|].
    destruct Hc as [Hc| ->]; [now apply digit_value_start|reflexivity].
  - destruct f as [|[|]|neg m e]; try (eexists _, _; split; reflexivity).
    cbn [iterencode floatstr].
    destruct (float_repr_dec_text neg m e) as (ip & fr & ex & -> & Hip & _).
    destruct (@number_text_start neg ip fr ex Hip) as (c & r & -> & Hc).
    exists c, r. split; [reflexivity|].
    destruct Hc as [Hc| ->]; [now apply digit_value_start|reflexivity].
Qed.

Lemma skip_ws_value (indent : option nat) (level : nat) (o : pyobj) (rest : str) :
  skip_ws (iterencode indent level o ++ rest) = iterencode indent level o ++ rest.
Proof.
  destruct (iterencode_start indent level o) as (c & r & -> & Hc).
  simpl. unfold value_start in Hc.
  destruct (is_json_ws c); [discriminate|reflexivity].
Qed.

(** Scalars. *)
Lemma scan_once_number (n : nat) (c : char) (r : str) (res : pyobj * str) :
  is_digit c = true \/ c = MINUS ->
  match_number (c :: r) = Some res ->
  scan_once (S n) (c :: r) = Some res.
Proof.
  intros Hc Hm. rewrite scan_once_eq. unfold scan_literal. rewrite Hm.
  assert (Hin : In c [45; 48; 49; 50; 51; 52; 53; 54; 55; 56; 57]).
  { destruct Hc as [Hc| ->]; [|now left]. right.
    unfold is_digit in Hc. apply andb_true_iff in Hc as [H1 H2].
    apply N.leb_le in H1, H2.
    assert (E : c = N.of_nat (N.to_nat c)) by now rewrite N2Nat.id.
    rewrite E. change [48; 49; 50; 51; 52; 53; 54; 55; 56; 57]
      with (map N.of_nat (seq 48 10)).
    apply in_map, in_seq. lia. }
  simpl in Hin.
  repeat (destruct Hin as [<-|Hin]; [reflexivity|]). contradiction.
Qed.

Lemma scan_once_number_text (n : nat) (neg : bool) (ip fr : str)
  (ex : option (bool * str)) (rest : str) :
  int_part_ok ip ->
  forallb is_digit fr = true ->
  exp_ok ex ->
  number_stop rest = true ->
  scan_once (S n) (number_text neg ip fr ex ++ rest)
  = Some (number_value neg ip fr ex, rest).
Proof.
  intros Hip Hfr Hex Hrest.
  pose proof (@match_number_text neg ip fr ex rest Hip Hfr Hex Hrest) as Hm.
  destruct (@number_text_start neg ip fr ex Hip) as (c & r & E & Hc).
  rewrite E in Hm |- *. cbn [List.app] in Hm |- *.
  now apply scan_once_number.
Qed.

Lemma scan_once_str (n : nat) (s rest : str) :
  scan_once (S n) (encode_basestring s ++ rest) = Some (PyStr s, rest).
Proof.
  unfold encode_basestring. cbn [List.app]. rewrite scan_once_eq.
  rewrite N.eqb_refl. rewrite <- List.app_assoc. cbn [List.app].
  now rewrite scanstring_escaped.
Qed.

Lemma scan_once_scalar (indent : option nat) (level : nat) (o : pyobj)
  (n : nat) (rest : str) :
  match o with PyList _ | PyDict _ => False | _ => True end ->
  number_stop rest = true ->
  exists v, scan_once (S n) (iterencode indent level o ++ rest) = Some (v, rest).
Proof.
  intros Ho Hrest.
  destruct o as [| [|] | z | f | s | l | d]; try contradiction;
    try (eexists; reflexivity).
  - cbn [iterencode]. rewrite int_repr_text. eexists.
    apply scan_once_number_text; auto using digits_of_N_ok; exact I.
  - destruct f as [|[|]|neg m e]; try (eexists; reflexivity).
    cbn [iterencode floatstr].
    destruct (float_repr_dec_text neg m e)
      as (ip & fr & ex & -> & Hip & Hfr & Hex & _).
    eexists. now apply scan_once_number_text.
  - eexists. apply scan_once_str.
Qed.

(** Containers. *)
Lemma number_stop_closing (w : str) (c : char) (rest : str) :
  forallb is_json_ws w = true ->
  c = RBRACKET \/ c = RBRACE ->
  number_stop (w ++ c :: rest) = true.
Proof.
  intros Hw Hc. destruct w as [|x w]; simpl.
  - destruct Hc as [->| ->]; reflexivity.
  - simpl in Hw. apply andb_true_iff in Hw as [Hx _].
    apply json_ws_cases in Hx as [->|[->|[->| ->]]]; reflexivity.
Qed.

Lemma skip_ws_closing (w : str) (c : char) (rest : str) :
  forallb is_json_ws w = true ->
  c = RBRACKET \/ c = RBRACE ->
  skip_ws (w ++ c :: rest) = c :: rest.
Proof.
  intros Hw Hc. rewrite skip_ws_blank_tail by exact Hw.
  destruct Hc as [->| ->]; reflexivity.
Qed.

Lemma JSONArray_loop_items (indent : option nat) (level : nat) (rest : str)
  (xs : list pyobj) :
  forall (x : pyobj) (m : nat),
    decodes indent x ->
    Forall (decodes indent) xs ->
    (S (weight x + fold_right (fun y acc => S (weight y + acc)) O xs) <= m)%nat ->
    exists values,
      JSONArray_loop m
        (iterencode indent (S level) x
         ++ flat_map (fun y => item_separator indent (S level)
                               ++ iterencode indent (S level) y) xs
         ++ newline_indent indent level ++ RBRACKET :: rest)
      = Some (values, rest).
Proof.
  induction xs as [|y ys IH]; intros x m Hx Hxs Hm;
    (destruct m as [|m]; [lia|]); rewrite JSONArray_loop_eq.
  - cbn [flat_map List.app].
    destruct (Hx (S level) (newline_indent indent level ++ RBRACKET :: rest) m)
      as (v & ->).
    { apply number_stop_closing; [apply newline_indent_blank|now left]. }
    { simpl in Hm. lia. }
    rewrite skip_ws_closing; [|apply newline_indent_blank|now left].
    rewrite N.eqb_refl. eauto.
  - cbn [flat_map]. rewrite <- !List.app_assoc.
    inversion Hxs as [|? ? Hy Hys]; subst.
    destruct (IH y m Hy Hys) as (values & E); [simpl in Hm; lia|].
    destruct (item_separator_shape indent (S level)) as (w & Hsep & Hw).
    rewrite Hsep in E |- *. cbn [List.app] in E |- *.
    destruct (Hx (S level)
                (COMMA :: w ++ iterencode indent (S level) y
                 ++ flat_map (fun y0 => COMMA :: w ++ iterencode indent (S level) y0) ys
                 ++ newline_indent indent level ++ RBRACKET :: rest) m)
      as (v & ->); [reflexivity|simpl in Hm; lia|].
    cbn [skip_ws]. change (is_json_ws COMMA) with false. cbv iota.
    change (COMMA =? RBRACKET) with false. cbv iota.
    rewrite N.eqb_refl.
    rewrite skip_ws_blank_tail by exact Hw. rewrite skip_ws_value.
    rewrite E. eauto.
Qed.

Lemma skip_ws_space (s : str) : skip_ws (SPACE :: s) = skip_ws s.
Proof. reflexivity. Qed.

Lemma JSONObject_loop_items (indent : option nat) (level : nat) (rest : str)
  (kvs : list (str * pyobj)) :
  forall (k : str) (v : pyobj) (m : nat),
    decodes indent v ->
    Forall (fun kv => decodes indent (snd kv)) kvs ->
    (S (weight v + fold_right (fun kv acc => S (weight (snd kv) + acc)) O kvs)
     <= m)%nat ->
    exists pairs,
      JSONObject_loop m
        (flat_map escape_char k
         ++ DQUOTE :: COLON :: SPACE :: iterencode indent (S level) v
         ++ flat_map (fun kv' => item_separator indent (S level)
                                 ++ encode_basestring (fst kv') ++ key_separator
                                 ++ iterencode indent (S level) (snd kv')) kvs
         ++ newline_indent indent level ++ RBRACE :: rest)
      = Some (pairs, rest).
Proof.
  induction kvs as [|[k' v'] kvs IH]; intros k v m Hv Hkvs Hm;
    (destruct m as [|m]; [lia|]); rewrite JSONObject_loop_eq;
    rewrite scanstring_escaped; cbn [skip_ws];
    change (is_json_ws COLON) with false; cbv iota;
    rewrite N.eqb_refl;
    rewrite skip_ws_space, skip_ws_value.
  - cbn [flat_map List.app].
    destruct (Hv (S level) (newline_indent indent level ++ RBRACE :: rest) m)
      as (v1 & ->).
    { apply number_stop_closing; [apply newline_indent_blank|now right]. }
    { simpl in Hm. lia. }
    rewrite skip_ws_closing; [|apply newline_indent_blank|now right].
    rewrite N.eqb_refl. eauto.
  - inversion Hkvs as [|? ? Hv' Hkvs']; subst. cbn [snd] in Hv'.
    destruct (IH k' v' m Hv' Hkvs') as (pairs & E); [simpl in Hm; lia|].
    destruct (item_separator_shape indent (S level)) as (w & Hsep & Hw).
    cbn [flat_map fst snd]. unfold encode_basestring, key_separator in E |- *.
    rewrite Hsep in E |- *.
    rewrite <- ?List.app_assoc. cbn [List.app] in E |- *.
    rewrite <- ?List.app_assoc. cbn [List.app].
    match goal with
    | |- context [scan_once m (iterencode indent (S level) v ++ ?T)] =>
        destruct (Hv (S level) T m) as (v1 & ->);
          [reflexivity|simpl in Hm; lia|]
    end.
    cbn [skip_ws]. change (is_json_ws COMMA) with false. cbv iota.
    change (COMMA =? RBRACE) with false. cbv iota.
    rewrite N.eqb_refl.
    rewrite skip_ws_blank_tail by exact Hw.
    cbn [skip_ws]. change (is_json_ws DQUOTE) with false. cbv iota.
    rewrite N.eqb_refl.
    rewrite E. eauto.
Qed.

(** Every object is read back from the text [json.dumps] writes for it. *)
Lemma all_decode (indent : option nat) (o : pyobj) : decodes indent o.
Proof.
  induction o using pyobj_nested_ind;
    try (intros level rest n Hs Hn;
         (destruct n as [|n]; [simpl in Hn; lia|]);
         apply scan_once_scalar; [exact I|exact Hs]).
  - (* lists *)
    intros level rest n Hs Hn. destruct n as [|n]; [simpl in Hn; lia|].
    destruct l as [|x xs]; [eexists; reflexivity|].
    inversion H as [|? ? Hx Hxs]; subst.
    cbn [iterencode]. cbn [List.app]. rewrite scan_once_eq.
    change (LBRACKET =? DQUOTE) with false.
    change (LBRACKET =? LBRACE) with false.
    rewrite N.eqb_refl. cbv iota.
    rewrite <- !List.app_assoc. cbn [List.app].
    rewrite skip_ws_blank_tail by apply newline_indent_blank.
    rewrite skip_ws_value.
    destruct (@JSONArray_loop_items indent level rest xs x n Hx Hxs)
      as (values & E); [simpl in Hn; lia|].
    destruct (iterencode_start indent (S level) x) as (c & r & Ex & Hc).
    rewrite Ex in E |- *. cbn [List.app] in E |- *.
    assert (Hb : (c =? RBRACKET) = false).
    { unfold value_start in Hc. rewrite !andb_true_iff in Hc.
      destruct Hc as [[[[[_ Hc] _] _] _] _]. now apply negb_true_iff. }
    rewrite Hb, E. eauto.
  - (* dicts *)
    intros level rest n Hs Hn. destruct n as [|n]; [simpl in Hn; lia|].
    destruct d as [|[k v] kvs]; [eexists; reflexivity|].
    inversion H as [|? ? Hv Hkvs]; subst. cbn [snd] in Hv.
    cbn [iterencode fst snd]. cbn [List.app]. rewrite scan_once_eq.
    change (LBRACE =? DQUOTE) with false.
    rewrite N.eqb_refl. cbv iota.
    unfold encode_basestring at 1, key_separator at 1.
    rewrite <- !List.app_assoc. cbn [List.app].
    rewrite <- !List.app_assoc. cbn [List.app].
    rewrite skip_ws_blank_tail by apply newline_indent_blank.
    cbn [skip_ws]. change (is_json_ws DQUOTE) with false. cbv iota.
    change (DQUOTE =? RBRACE) with false. cbv iota. rewrite N.eqb_refl.
    destruct (@JSONObject_loop_items indent level rest kvs k v n Hv Hkvs)
      as (pairs & E); [simpl in Hn; lia|].
    rewrite E. eauto.
Qed.

(** The fuel [json.loads] supplies is enough. *)
Lemma iterencode_nonempty (indent : option nat) (level : nat) (o : pyobj) :
  (1 <= List.length (iterencode indent level o))%nat.
Proof.
  destruct (iterencode_start indent level o) as (c & r & -> & _). simpl. lia.
Qed.

Lemma item_separator_length (indent : option nat) (level : nat) :
  (1 <= List.length (item_separator indent level))%nat.
Proof.
  destruct (item_separator_shape indent level) as (w & -> & _). simpl. lia.
Qed.

Lemma weight_le_length (indent : option nat) (o : pyobj) :
  forall level, (weight o <= List.length (iterencode indent level o))%nat.
Proof.
  induction o using pyobj_nested_ind; intros level;
    try apply iterencode_nonempty.
  - destruct l as [|x xs]; [simpl; lia|].
    inversion H as [|? ? Hx Hxs]; subst.
    cbn [iterencode weight fold_right]. cbn [List.length].
    rewrite !length_app. specialize (Hx (S level)).
    assert (Hsum :
      (fold_right (fun y acc => S (weight y + acc)) O xs
       <= List.length
            (flat_map (fun y => item_separator indent (S level)
                                ++ iterencode indent (S level) y) xs))%nat).
    { clear Hx H. induction Hxs as [|y ys Hy Hys IH]; simpl; [lia|].
      rewrite !length_app. specialize (Hy (S level)).
      pose proof (item_separator_length indent (S level)). lia. }
    simpl. lia.
  - destruct d as [|[k v] kvs]; [simpl; lia|].
    inversion H as [|? ? Hv Hkvs]; subst. cbn [snd] in Hv.
    cbn [iterencode weight fold_right fst snd]. cbn [List.length].
    rewrite !length_app. specialize (Hv (S level)).
    assert (Hsum :
      (fold_right (fun kv acc => S (weight (snd kv) + acc)) O kvs
       <= List.length
            (flat_map (fun kv' => item_separator indent (S level)
                                  ++ encode_basestring (fst kv') ++ key_separator
                                  ++ iterencode indent (S level) (snd kv')) kvs))%nat).
    { clear Hv H.
      induction Hkvs as [|kv kvs' Hy Hys IH];
        cbn [flat_map fold_right List.length]; [lia|].
      rewrite !length_app. specialize (Hy (S level)).
      pose proof (item_separator_length indent (S level)). lia. }
    cbn [List.length]. lia.
Qed.

(** [json.loads] accepts what [json.dumps] wrote, also after a blank. *)
Lemma iterencode_decoded (indent : option nat) (o : pyobj) (n : nat) :
  (List.length (iterencode indent 0 o) < n)%nat ->
  exists v, scan_once n (skip_ws (iterencode indent 0 o)) = Some (v, []).
Proof.
  intros Hn.
  pose proof (skip_ws_value indent 0 o []) as Hskip.
  rewrite List.app_nil_r in Hskip. rewrite Hskip.
  destruct (@all_decode indent o 0%nat [] n eq_refl) as (v & Ev).
  { pose proof (weight_le_length indent o 0). lia. }
  rewrite List.app_nil_r in Ev. eauto.
Qed.

Lemma json_loads_dumps (indent : option nat) (o : pyobj) :
  exists v, json_loads (json_dumps indent o) = Some v.
Proof.
  unfold json_loads, json_dumps.
  destruct (iterencode_decoded indent o
              (n := S (List.length (iterencode indent 0 o)))) as (v & Ev);
    [lia|].
  rewrite Ev.
  destruct (iterencode_start indent 0 o) as (c & r & E & Hc).
  rewrite E. unfold value_start in Hc. rewrite !andb_true_iff in Hc.
  destruct Hc as [_ Hc]. apply negb_true_iff in Hc.
  unfold starts_with_bom. rewrite Hc. simpl. eauto.
Qed.

Lemma json_loads_space_dumps (indent : option nat) (o : pyobj) :
  exists v, json_loads (SPACE :: json_dumps indent o) = Some v.
Proof.
  unfold json_loads, json_dumps.
  change (starts_with_bom (SPACE :: iterencode indent 0 o)) with false.
  cbv iota. rewrite skip_ws_space.
  destruct (iterencode_decoded indent o
              (n := S (List.length (SPACE :: iterencode indent 0 o))))
    as (v & Ev); [simpl; lia|].
  rewrite Ev. simpl. eauto.
Qed.

(** ** [json.loads] after [json.dumps], exactly *)

Lemma dict_set_absent (k : str) (v : pyobj) (d : dict) :
  dict_get k d = None -> dict_set k v d = d ++ [(k, v)].
Proof.
  induction d as [|[k0 v0] d IH]; simpl; [reflexivity|].
  destruct (str_eqb k k0); [discriminate|]. intros H. now rewrite IH.
Qed.

Lemma dict_get_app_absent (k : str) (a b : dict) :
  dict_get k a = None -> dict_get k (a ++ b) = dict_get k b.
Proof.
  induction a as [|[k0 v0] a IH]; simpl; [reflexivity|].
  destruct (str_eqb k k0); [discriminate|]. exact IH.
Qed.

Lemma fold_dict_set_distinct (pairs : list (str * pyobj)) :
  forall acc : dict,
    distinct_keys pairs = true ->
    (forall k v, In (k, v) pairs -> dict_get k acc = None) ->
    fold_left (fun d kv => dict_set (fst kv) (snd kv) d) pairs acc
    = acc ++ pairs.
Proof.
  induction pairs as [|[k v] pairs IH]; intros acc Hd Hacc; simpl.
  - now rewrite List.app_nil_r.
  - simpl in Hd. apply andb_true_iff in Hd as [Hk Hd].
    cbn [fst snd].
    rewrite (@dict_set_absent k v acc (Hacc k v (or_introl eq_refl))).
    rewrite IH; [now rewrite <- List.app_assoc|exact Hd|].
    intros k' v' Hin. rewrite dict_get_app_absent by eauto using in_cons.
    simpl. destruct (str_eqb k' k) eqn:E; [|reflexivity].
    apply str_eqb_eq in E. subst k'.
    apply negb_true_iff in Hk. unfold dict_has in Hk.
    assert (Hget : dict_get k pairs <> None).
    { clear -Hin. induction pairs as [|[k0 v0] pairs IH]; [destruct Hin|].
      simpl. destruct (str_eqb k k0) eqn:E; [discriminate|].
      destruct Hin as [Hin|Hin]; [|auto].
      injection Hin as -> ->. now rewrite str_eqb_refl in E. }
    destruct (dict_get k pairs); [discriminate Hk|contradiction].
Qed.

Lemma dict_of_pairs_distinct (pairs : list (str * pyobj)) :
  distinct_keys pairs = true -> dict_of_pairs pairs = pairs.
Proof.
  intros Hd. unfold dict_of_pairs.
  now rewrite fold_dict_set_distinct.
Qed.

Lemma JSONArray_loop_exact (indent : option nat) (level : nat) (rest : str)
  (xs : list pyobj) :
  forall (x : pyobj) (m : nat),
    reads_back indent x ->
    Forall (reads_back indent) xs ->
    (S (weight x + fold_right (fun y acc => S (weight y + acc)) O xs) <= m)%nat ->
    JSONArray_loop m
      (iterencode indent (S level) x
       ++ flat_map (fun y => item_separator indent (S level)
                             ++ iterencode indent (S level) y) xs
       ++ newline_indent indent level ++ RBRACKET :: rest)
    = Some (x :: xs, rest).
Proof.
  induction xs as [|y ys IH]; intros x m Hx Hxs Hm;
    (destruct m as [|m]; [lia|]); rewrite JSONArray_loop_eq.
  - cbn [flat_map List.app].
    rewrite (Hx (S level) (newline_indent indent level ++ RBRACKET :: rest) m).
    2:{ apply number_stop_closing; [apply newline_indent_blank|now left]. }
    2:{ simpl in Hm. lia. }
    rewrite skip_ws_closing; [|apply newline_indent_blank|now left].
    now rewrite N.eqb_refl.
  - cbn [flat_map]. rewrite <- !List.app_assoc.
    inversion Hxs as [|? ? Hy Hys]; subst.
    pose proof (IH y m Hy Hys) as E.
    destruct (item_separator_shape indent (S level)) as (w & Hsep & Hw).
    rewrite Hsep in E |- *. cbn [List.app] in E |- *.
    rewrite (Hx (S level)
               (COMMA :: w ++ iterencode indent (S level) y
                ++ flat_map (fun y0 => COMMA :: w ++ iterencode indent (S level) y0) ys
                ++ newline_indent indent level ++ RBRACKET :: rest) m);
      [|reflexivity|simpl in Hm; lia].
    cbn [skip_ws]. change (is_json_ws COMMA) with false. cbv iota.
    change (COMMA =? RBRACKET) with false. cbv iota.
    rewrite N.eqb_refl.
    rewrite skip_ws_blank_tail by exact Hw. rewrite skip_ws_value.
    rewrite E; [reflexivity|simpl in Hm; lia].
Qed.

Lemma JSONObject_loop_exact (indent : option nat) (level : nat) (rest : str)
  (kvs : list (str * pyobj)) :
  forall (k : str) (v : pyobj) (m : nat),
    reads_back indent v ->
    Forall (fun kv => reads_back indent (snd kv)) kvs ->
    (S (weight v + fold_right (fun kv acc => S (weight (snd kv) + acc)) O kvs)
     <= m)%nat ->
    JSONObject_loop m
      (flat_map escape_char k
       ++ DQUOTE :: COLON :: SPACE :: iterencode indent (S level) v
       ++ flat_map (fun kv' => item_separator indent (S level)
                               ++ encode_basestring (fst kv') ++ key_separator
                               ++ iterencode indent (S level) (snd kv')) kvs
       ++ newline_indent indent level ++ RBRACE :: rest)
    = Some ((k, v) :: kvs, rest).
Proof.
  induction kvs as [|[k' v'] kvs IH]; intros k v m Hv Hkvs Hm;
    (destruct m as [|m]; [lia|]); rewrite JSONObject_loop_eq;
    rewrite scanstring_escaped; cbn [skip_ws];
    change (is_json_ws COLON) with false; cbv iota;
    rewrite N.eqb_refl;
    rewrite skip_ws_space, skip_ws_value.
  - cbn [flat_map List.app].
    rewrite (Hv (S level) (newline_indent indent level ++ RBRACE :: rest) m).
    2:{ apply number_stop_closing; [apply newline_indent_blank|now right]. }
    2:{ simpl in Hm. lia. }
    rewrite skip_ws_closing; [|apply newline_indent_blank|now right].
    now rewrite N.eqb_refl.
  - inversion Hkvs as [|? ? Hv' Hkvs']; subst. cbn [snd] in Hv'.
    assert (E := IH k' v' m Hv' Hkvs').
    destruct (item_separator_shape indent (S level)) as (w & Hsep & Hw).
    cbn [flat_map fst snd]. unfold encode_basestring, key_separator in E |- *.
    rewrite Hsep in E |- *.
    rewrite <- ?List.app_assoc. cbn [List.app] in E |- *.
    rewrite <- ?List.app_assoc. cbn [List.app].
    match goal with
    | |- context [scan_once m (iterencode indent (S level) v ++ ?T)] =>
        rewrite (Hv (S level) T m); [|reflexivity|simpl in Hm; lia]
    end.
    cbn [skip_ws]. change (is_json_ws COMMA) with false. cbv iota.
    change (COMMA =? RBRACE) with false. cbv iota.
    rewrite N.eqb_refl.
    rewrite skip_ws_blank_tail by exact Hw.
    cbn [skip_ws]. change (is_json_ws DQUOTE) with false. cbv iota.
    rewrite N.eqb_refl.
    rewrite E; [reflexivity|simpl in Hm; lia].
Qed.

Lemma plain_dict_values (d : list (str * pyobj)) :
  (fix all (l : list (str * pyobj)) : bool :=
     match l with
     | [] => true
     | (_, v) :: l' => plain v && all l'
     end) d = forallb (fun kv => plain (snd kv)) d.
Proof. induction d as [|[k v] d IH]; simpl; [reflexivity|now rewrite IH]. Qed.

(** Every plain object is read back as itself. *)
Lemma plain_reads_back (indent : option nat) (o : pyobj) :
  plain o = true -> reads_back indent o.
Proof.
  induction o as [| b | z | f | s | l IHl | d IHd] using pyobj_nested_ind;
    intros Hp level rest n Hs Hn;
    (destruct n as [|n]; [simpl in Hn; lia|]).
  - reflexivity.
  - destruct b; reflexivity.
  - cbn [iterencode]. rewrite int_repr_text.
    rewrite scan_once_number_text; auto using digits_of_N_ok; [|exact I].
    now rewrite int_repr_value.
  - discriminate Hp.
  - apply scan_once_str.
  - destruct l as [|x xs]; [reflexivity|].
    cbn [plain forallb] in Hp. apply andb_true_iff in Hp as [Hpx Hpxs].
    inversion IHl as [|? ? Hx Hxs]; subst.
    assert (Hxs' : Forall (reads_back indent) xs).
    { clear -Hxs Hpxs. induction Hxs as [|y ys Hy Hys IH]; constructor;
        simpl in Hpxs; apply andb_true_iff in Hpxs as [H1 H2]; auto. }
    cbn [iterencode]. cbn [List.app]. rewrite scan_once_eq.
    change (LBRACKET =? DQUOTE) with false.
    change (LBRACKET =? LBRACE) with false.
    rewrite N.eqb_refl. cbv iota.
    rewrite <- !List.app_assoc. cbn [List.app].
    rewrite skip_ws_blank_tail by apply newline_indent_blank.
    rewrite skip_ws_value.
    pose proof (@JSONArray_loop_exact indent level rest xs x n (Hx Hpx) Hxs') as E.
    destruct (iterencode_start indent (S level) x) as (c & r & Ex & Hc).
    rewrite Ex in E |- *. cbn [List.app] in E |- *.
    assert (Hb : (c =? RBRACKET) = false).
    { unfold value_start in Hc. rewrite !andb_true_iff in Hc.
      destruct Hc as [[[[[_ Hc] _] _] _] _]. now apply negb_true_iff. }
    rewrite Hb, E; [reflexivity|simpl in Hn; lia].
  - destruct d as [|[k v] kvs]; [reflexivity|].
    cbn [plain] in Hp. apply andb_true_iff in Hp as [Hkeys Hvals].
    rewrite plain_dict_values in Hvals. cbn [forallb snd] in Hvals.
    apply andb_true_iff in Hvals as [Hpv Hpkvs].
    inversion IHd as [|? ? Hv Hkvs]; subst. cbn [snd] in Hv.
    assert (Hkvs' : Forall (fun kv => reads_back indent (snd kv)) kvs).
    { clear -Hkvs Hpkvs. induction Hkvs as [|y ys Hy Hys IH]; constructor;
        simpl in Hpkvs; apply andb_true_iff in Hpkvs as [H1 H2]; auto. }
    cbn [iterencode fst snd]. cbn [List.app]. rewrite scan_once_eq.
    change (LBRACE =? DQUOTE) with false.
    rewrite N.eqb_refl. cbv iota.
    unfold encode_basestring at 1, key_separator at 1.
    rewrite <- !List.app_assoc. cbn [List.app].
    rewrite <- !List.app_assoc. cbn [List.app].
    rewrite skip_ws_blank_tail by apply newline_indent_blank.
    cbn [skip_ws]. change (is_json_ws DQUOTE) with false. cbv iota.
    change (DQUOTE =? RBRACE) with false. cbv iota. rewrite N.eqb_refl.
    rewrite (@JSONObject_loop_exact indent level rest kvs k v n (Hv Hpv) Hkvs');
      [|simpl in Hn; lia].
    now rewrite dict_of_pairs_distinct.
Qed.

Lemma scan_once_dumps_exact (indent : option nat) (o : pyobj) (n : nat) :
  plain o = true ->
  (List.length (iterencode indent 0 o) < n)%nat ->
  scan_once n (skip_ws (iterencode indent 0 o)) = Some (o, []).
Proof.
  intros Hp Hn.
  pose proof (skip_ws_value indent 0 o []) as Hskip.
  rewrite List.app_nil_r in Hskip. rewrite Hskip.
  pose proof (@plain_reads_back indent o Hp 0%nat [] n eq_refl) as Ev.
  rewrite List.app_nil_r in Ev. apply Ev.
  pose proof (weight_le_length indent o 0). lia.
Qed.

Lemma json_loads_dumps_exact (indent : option nat) (o : pyobj) :
  plain o = true -> json_loads (json_dumps indent o) = Some o.
Proof.
  intros Hp. unfold json_loads, json_dumps.
  rewrite (@scan_once_dumps_exact indent o _ Hp) by lia.
  destruct (iterencode_start indent 0 o) as (c & r & E & Hc).
  rewrite E. unfold value_start in Hc. rewrite !andb_true_iff in Hc.
  destruct Hc as [_ Hc]. apply negb_true_iff in Hc.
  unfold starts_with_bom. now rewrite Hc.
Qed.

Lemma json_loads_space_dumps_exact (indent : option nat) (o : pyobj) :
  plain o = true -> json_loads (SPACE :: json_dumps indent o) = Some o.
Proof.
  intros Hp. unfold json_loads, json_dumps.
  change (starts_with_bom (SPACE :: iterencode indent 0 o)) with false.
  cbv iota. rewrite skip_ws_space.
  rewrite (@scan_once_dumps_exact indent o _ Hp); [reflexivity|simpl; lia].
Qed.

(** ** The attachment stages *)

Lemma upload_pdf_credentials_absent (W : World) (path : str) (t : trace)
  (c : pyobj) :
  get_upload_credentials W (os_path_basename W path) = (t, Return c) ->
  truthy c = false ->
  upload_pdf W path =
    (if os_path_exists W path then t else [EvPrint (MsgFileMissing path)],
     Return None).
Proof.
  intros Hc Hf. unfold upload_pdf.
  destruct (os_path_exists W path); simpl; [|reflexivity].
  rewrite (bind_returned _ Hc), Hf. simpl. now rewrite List.app_nil_r.
Qed.

Lemma report_result_never_attachment_calls (W : World) (qp : question_page) (result : pyobj) :
  never (fun ev => is_upload_call ev || is_notify_call ev)
    (fst (report_result W qp result)).
Proof. unfold report_result, persist_paper. never_tac. Qed.

Lemma report_result_never_save (W : World) (qp : question_page) (result : pyobj) :
  never is_save_call (fst (report_result W qp result)).
Proof. unfold report_result, persist_paper. never_tac. Qed.

(** C1 (amended): when the credential fetch returns an absent (falsy)
    result, the run of [save_new_paper] contains no object-storage upload
    call and no notification call, and [upload_pdf] returns [None].  The
    run does not stop there: when the language model answered with a
    fragment that parses once trimmed and wrapped in braces,
    [save_new_paper] posts the paper-creation request, its payload being
    that fragment without attachments.  A PaperRecord is written by the
    run only if a paper-creation request was issued and answered with a
    mapping whose [success] is true. *)
Theorem C1_absent_credentials_skip_upload_and_notify
  (W : World) (qp : question_page) (t : trace) (c : pyobj) :
  get_upload_credentials W (os_path_basename W (pdf_path qp)) = (t, Return c) ->
  truthy c = false ->
  never (fun ev => is_upload_call ev || is_notify_call ev)
    (fst (save_new_paper W qp))
  /\ returned (upload_pdf W (pdf_path qp)) None
  /\ (forall dir file data,
        In (EvTomlDump dir file data) (fst (save_new_paper W qp)) ->
        exists body d,
          In (EvEvaluate (SaveRequest body)) (fst (save_new_paper W qp))
          /\ page_evaluate W (SaveRequest body) = Return (PyDict d)
          /\ truthy (dict_get_default (lit "success") d) = true)
  /\ (forall frag payload_dict,
        ask_llm_for_playload W (llm_prompt qp) = Return frag ->
        json_loads (wrap_braces (trim_fragment frag)) = Some payload_dict ->
        In (EvEvaluate (SaveRequest (json_dumps None payload_dict)))
           (fst (save_new_paper W qp))).
Proof.
  intros Hc Hf.
  pose proof (upload_pdf_credentials_absent W (pdf_path qp) Hc Hf) as Hup.
  assert (Hquiet : never (fun ev => is_upload_call ev || is_notify_call ev)
                     (fst (upload_pdf W (pdf_path qp)))).
  { rewrite Hup. simpl. destruct (os_path_exists W (pdf_path qp)).
    - replace t with (fst (get_upload_credentials W
                             (os_path_basename W (pdf_path qp))))
        by now rewrite Hc.
      apply credentials_never; reflexivity.
    - reflexivity. }
  split; [|split; [|split]].
  - unfold save_new_paper, print, evaluate.
    repeat first
      [ exact Hquiet
      | apply assemble_payload_never; reflexivity
      | apply report_result_never_attachment_calls
      | never_step ].
  - unfold returned. now rewrite Hup.
  - intros dir file data Hin.
    destruct (ask_llm_for_playload W (llm_prompt qp)) as [frag|e] eqn:H1.
    2:{ rewrite (save_new_paper_llm_raises _ _ H1) in Hin.
        destruct Hin as [Hin|[]]; discriminate. }
    set (tu := if os_path_exists W (pdf_path qp) then t
               else [EvPrint (MsgFileMissing (pdf_path qp))]) in Hup.
    destruct (assemble_payload frag None) as [ta [body|e]] eqn:H3.
    2:{ rewrite (save_new_paper_assemble_raises _ _ H1 Hup H3) in Hin.
        simpl in Hin. destruct Hin as [Hin|Hin]; [discriminate|].
        apply in_app_or in Hin as [Hin|Hin].
        - pose proof (upload_pdf_never W (pdf_path qp) is_record_write
                        (fun _ => eq_refl) (fun _ _ => eq_refl)
                        (fun _ _ _ => eq_refl) (fun _ => eq_refl)) as Hn.
          rewrite Hup in Hn. now apply (never_In _ Hn) in Hin.
        - pose proof (assemble_payload_never frag None is_record_write
                        (fun _ => eq_refl)) as Hn.
          rewrite H3 in Hn. now apply (never_In _ Hn) in Hin. }
    rewrite (save_new_paper_submits _ _ H1 Hup H3) in Hin |- *.
    simpl in Hin |- *.
    destruct Hin as [Hin|Hin]; [discriminate|].
    apply in_app_or in Hin as [Hin|Hin].
    { pose proof (upload_pdf_never W (pdf_path qp) is_record_write
                    (fun _ => eq_refl) (fun _ _ => eq_refl)
                    (fun _ _ _ => eq_refl) (fun _ => eq_refl)) as Hn.
      rewrite Hup in Hn. now apply (never_In _ Hn) in Hin. }
    apply in_app_or in Hin as [Hin|Hin].
    { pose proof (assemble_payload_never frag None is_record_write
                    (fun _ => eq_refl)) as Hn.
      rewrite H3 in Hn. now apply (never_In _ Hn) in Hin. }
    destruct Hin as [Hin|[Hin|Hin]]; try discriminate.
    destruct (page_evaluate W (SaveRequest body)) as [result|e] eqn:H4;
      [|contradiction].
    apply report_result_writes in Hin as (d & -> & Hs).
    exists body, d. split; [|split; [assumption|exact Hs]].
    right. apply in_or_app; right. apply in_or_app; right.
    right; left; reflexivity.
  - intros frag payload_dict H1 Hpd.
    assert (H3 : assemble_payload frag None
                 = ([], Return (json_dumps None payload_dict))).
    { unfold assemble_payload, parse_fragment. now rewrite Hpd. }
    rewrite (save_new_paper_submits _ _ H1 Hup H3). cbn [fst].
    right. apply in_or_app; right. cbn [List.app]. right; left; reflexivity.
Qed.

(** C1, witness: the credential endpoint refuses in [Scenario.world_refused];
    the fragment of the scenario is posted without attachments. *)
Lemma C1_witness :
  never (fun ev => is_upload_call ev || is_notify_call ev)
    (fst (save_new_paper Scenario.world_refused Scenario.paper))
  /\ returned (upload_pdf Scenario.world_refused (pdf_path Scenario.paper)) None
  /\ In (EvEvaluate
           (SaveRequest (json_dumps None (PyDict [(lit "title", PyStr (lit "T"))]))))
        (fst (save_new_paper Scenario.world_refused Scenario.paper)).
Proof.
  refine (let H := @C1_absent_credentials_skip_upload_and_notify
                     Scenario.world_refused Scenario.paper _ PyNone
                     eq_refl eq_refl in _).
  refine (conj (proj1 H) (conj (proj1 (proj2 H)) _)).
  apply (proj2 (proj2 (proj2 H)) Scenario.fragment); vm_compute; reflexivity.
Defined.

(** C1 as stated fails: in [Scenario.world_refused] the credential fetch
    returns [None], and yet the paper is submitted, the PaperRecord is
    written and the run returns the new identifier. *)
Lemma C1_counterexample :
  returned (get_upload_credentials Scenario.world_refused
              (os_path_basename Scenario.world_refused (pdf_path Scenario.paper)))
           PyNone
  /\ existsb is_record_write
       (fst (save_new_paper Scenario.world_refused Scenario.paper)) = true
  /\ In (EvTomlDump OUTPUT_DIR (lit "Test2024.toml")
           (page_data_dict (set_page_id Scenario.paper Scenario.PID)))
        (fst (save_new_paper Scenario.world_refused Scenario.paper))
  /\ returned (save_new_paper Scenario.world_refused Scenario.paper) Scenario.PID.
Proof.
  repeat split; try (vm_compute; reflexivity).
  vm_compute. repeat (first [left; reflexivity | right]).
Qed.

(** ** Persistence *)

Lemma stems_serializable (l : list QuestionStem) :
  forallb toml_serializable
    (map (fun q => PyDict [(lit "origin", PyStr (origin q));
                           (lit "stem", PyStr (stem q))]) l) = true.
Proof. induction l as [|q l IH]; simpl; [reflexivity|exact IH]. Qed.

Lemma page_data_dict_serializable (qp : question_page) (pid : pyobj) :
  truthy pid = true ->
  toml_serializable pid = true ->
  toml_serializable (page_data_dict (set_page_id qp pid)) = true.
Proof.
  intros Ht Hs. unfold page_data_dict. cbn [page_id set_page_id].
  rewrite Ht. cbn -[map]. rewrite Hs, stems_serializable. reflexivity.
Qed.

Lemma page_data_dict_falsy_id (qp : question_page) (pid : pyobj) :
  truthy pid = false ->
  toml_serializable (page_data_dict (set_page_id qp pid)) = false.
Proof.
  intros Ht. unfold page_data_dict. cbn [page_id set_page_id].
  rewrite Ht. reflexivity.
Qed.

(** C2 (amended): in every run that reaches the paper-creation request and
    receives a mapping whose [success] is true and whose [data] is an
    identifier that is truthy and free of nulls (a non-empty string, a
    non-zero number), and in which the output directory can be created and
    the record file opened and written without an exception, the
    PaperRecord is written with [page_id] equal to that identifier, next
    to the paper's name, province, grade, year and subject and the stems
    reduced to [origin] and [stem]; the run returns the identifier. *)
Theorem C2_record_carries_returned_identifier
  (W : World) (qp : question_page) (frag : str) (tu ta : trace)
  (pp : option str) (body : str) (d : dict) (pid : pyobj) :
  ask_llm_for_playload W (llm_prompt qp) = Return frag ->
  upload_pdf W (pdf_path qp) = (tu, Return pp) ->
  assemble_payload frag pp = (ta, Return body) ->
  page_evaluate W (SaveRequest body) = Return (PyDict d) ->
  truthy (dict_get_default (lit "success") d) = true ->
  dict_get (lit "data") d = Some pid ->
  truthy pid = true ->
  toml_serializable pid = true ->
  path_mkdir W OUTPUT_DIR = None ->
  open_wb W OUTPUT_DIR (name qp ++ lit ".toml") = None ->
  file_write W OUTPUT_DIR (name qp ++ lit ".toml")
    (page_data_dict (set_page_id qp pid)) = None ->
  In (EvTomlDump OUTPUT_DIR (name qp ++ lit ".toml")
        (PyDict [(lit "name", PyStr (name qp));
                 (lit "province", PyStr (province qp));
                 (lit "grade", PyStr (grade qp));
                 (lit "year", PyStr (year qp));
                 (lit "subject", PyStr (subject qp));
                 (lit "page_id", pid);
                 (lit "stemlist",
                  PyList (map (fun q => PyDict [(lit "origin", PyStr (origin q));
                                                (lit "stem", PyStr (stem q))])
                              (stemlist qp)))]))
     (fst (save_new_paper W qp))
  /\ returned (save_new_paper W qp) pid.
Proof.
  intros H1 H2 H3 H4 Hs Hd Ht Hser Hmk Hopen Hwrite.
  assert (Hrec : page_data_dict (set_page_id qp pid) =
                 PyDict [(lit "name", PyStr (name qp));
                         (lit "province", PyStr (province qp));
                         (lit "grade", PyStr (grade qp));
                         (lit "year", PyStr (year qp));
                         (lit "subject", PyStr (subject qp));
                         (lit "page_id", pid);
                         (lit "stemlist",
                          PyList (map (fun q => PyDict [(lit "origin", PyStr (origin q));
                                                        (lit "stem", PyStr (stem q))])
                                      (stemlist qp)))]).
  { unfold page_data_dict. cbn [page_id set_page_id name province grade year
                                  subject stemlist]. now rewrite Ht. }
  assert (Hrun : report_result W qp (PyDict d) =
                 ([EvPrint (MsgApiResponse (json_dumps (Some 2%nat) (PyDict d)));
                   EvPrint (MsgPaperId pid); EvSetPageId pid; EvMkdir OUTPUT_DIR;
                   EvOpenWb OUTPUT_DIR (name qp ++ lit ".toml");
                   EvTomlDump OUTPUT_DIR (name qp ++ lit ".toml")
                     (page_data_dict (set_page_id qp pid));
                   EvPrint (MsgSavedToml OUTPUT_DIR (name qp ++ lit ".toml"))],
                  Return pid)).
  { unfold report_result, persist_paper, print, emit, bind, py_get, ret.
    assert (Htd : truthy (PyDict d) = true).
    { destruct d; [discriminate Hd|reflexivity]. }
    rewrite Htd. cbn [fst snd app]. rewrite Hs.
    unfold dict_get_default. rewrite Hd.
    unfold of_status. cbn [name set_page_id]. rewrite Hmk, Hopen.
    rewrite (page_data_dict_serializable qp pid Ht Hser), Hwrite.
    reflexivity. }
  rewrite (save_new_paper_submits _ _ H1 H2 H3), H4, Hrun, Hrec.
  split; [|reflexivity].
  cbn [fst]. right. apply in_or_app; right. apply in_or_app; right.
  cbn. do 7 right. left. reflexivity.
Qed.

(** C2, witness: the end-to-end scenario, identifier [PID-123]. *)
Lemma C2_witness :
  In (EvTomlDump OUTPUT_DIR (lit "Test2024.toml")
        (PyDict [(lit "name", PyStr (lit "Test2024"));
                 (lit "province", PyStr (lit "Beijing"));
                 (lit "grade", PyStr (lit "9"));
                 (lit "year", PyStr (lit "2024"));
                 (lit "subject", PyStr (lit "Math"));
                 (lit "page_id", PyStr (lit "PID-123"));
                 (lit "stemlist",
                  PyList [PyDict [(lit "origin", PyStr (lit "Q1"));
                                  (lit "stem", PyStr (lit "2+2=?"))]])]))
     (fst (save_new_paper Scenario.world_ok Scenario.paper))
  /\ returned (save_new_paper Scenario.world_ok Scenario.paper)
       (PyStr (lit "PID-123")).
Proof.
  eapply (@C2_record_carries_returned_identifier
            Scenario.world_ok Scenario.paper Scenario.fragment).
  - reflexivity.
  - vm_compute. reflexivity.
  - vm_compute. reflexivity.
  - vm_compute. reflexivity.
  - reflexivity.
  - reflexivity.
  - reflexivity.
  - reflexivity.
  - reflexivity.
  - reflexivity.
  - reflexivity.
Defined.

(** C2 as stated fails: in [Scenario.world_zero] the credential fetch, the
    upload, the notification and the submission all succeed and the
    paper-creation response is [success: true, data: 0], yet no PaperRecord
    with [page_id = 0] is written: the snapshot holds [None] for [page_id],
    the TOML writer rejects it and the run ends with [TypeError]. *)
Lemma C2_counterexample :
  (exists tu att, upload_pdf Scenario.world_zero (pdf_path Scenario.paper)
                  = (tu, Return (Some att)))
  /\ (exists body,
        In (EvEvaluate (SaveRequest body))
           (fst (save_new_paper Scenario.world_zero Scenario.paper))
        /\ page_evaluate Scenario.world_zero (SaveRequest body)
           = Return (PyDict [(lit "success", PyBool true); (lit "data", PyInt 0)]))
  /\ never is_record_write (fst (save_new_paper Scenario.world_zero Scenario.paper))
  /\ snd (save_new_paper Scenario.world_zero Scenario.paper) = Raise TypeError
  /\ dict_get (lit "page_id")
       match page_data_dict (set_page_id Scenario.paper (PyInt 0)) with
       | PyDict r => r
       | _ => []
       end = Some PyNone.
Proof.
  split; [|split; [|split; [|split]]].
  - eexists _, _. vm_compute. reflexivity.
  - eexists. split; [|reflexivity].
    vm_compute. repeat (first [left; reflexivity | right]).
  - vm_compute. reflexivity.
  - vm_compute. reflexivity.
  - vm_compute. reflexivity.
Qed.

(** ** The payload assembler *)

Lemma assemble_payload_without_attachment (frag : str) (pd : pyobj) :
  json_loads (wrap_braces (trim_fragment frag)) = Some pd ->
  assemble_payload frag None = ([], Return (json_dumps None pd)).
Proof.
  intros H. unfold assemble_payload, parse_fragment. rewrite H. reflexivity.
Qed.

(** C3: when [upload_pdf] produced no result, the assembler builds the
    payload from the parsed fragment alone, nothing added to it, without
    raising, and [save_new_paper] posts that payload to the paper-creation
    endpoint. *)
Theorem C3_submission_proceeds_without_attachments
  (W : World) (qp : question_page) (frag : str) (tu : trace) (pd : pyobj) :
  ask_llm_for_playload W (llm_prompt qp) = Return frag ->
  upload_pdf W (pdf_path qp) = (tu, Return None) ->
  json_loads (wrap_braces (trim_fragment frag)) = Some pd ->
  assemble_payload frag None = ([], Return (json_dumps None pd))
  /\ exists rest,
       fst (save_new_paper W qp) =
         EvAskLlm (llm_prompt qp) :: tu
         ++ EvPrint (MsgSending (json_dumps None pd))
            :: EvEvaluate (SaveRequest (json_dumps None pd)) :: rest.
Proof.
  intros H1 H2 H3.
  pose proof (assemble_payload_without_attachment frag H3) as Ha.
  split; [exact Ha|].
  rewrite (save_new_paper_submits _ _ H1 H2 Ha). cbn [fst app].
  eexists. reflexivity.
Qed.

(** C3, witness: the credential endpoint refuses, the fragment is posted
    alone. *)
Lemma C3_witness :
  assemble_payload Scenario.fragment None
  = ([], Return (json_dumps None (PyDict [(lit "title", PyStr (lit "T"))])))
  /\ exists rest,
       fst (save_new_paper Scenario.world_refused Scenario.paper) =
         EvAskLlm (llm_prompt Scenario.paper)
         :: [EvPrint MsgStage1;
             EvEvaluate (CredentialRequest (lit "Test2024.pdf"));
             EvPrint (MsgCredentialsRefused Scenario.credentials_refused)]
         ++ EvPrint (MsgSending (json_dumps None (PyDict [(lit "title", PyStr (lit "T"))])))
            :: EvEvaluate (SaveRequest (json_dumps None (PyDict [(lit "title", PyStr (lit "T"))])))
            :: rest.
Proof.
  apply (@C3_submission_proceeds_without_attachments
           Scenario.world_refused Scenario.paper Scenario.fragment).
  - reflexivity.
  - vm_compute. reflexivity.
  - vm_compute. reflexivity.
Defined.

(** C5: when the trimmed and brace-wrapped fragment does not parse,
    [save_new_paper] prints the error and the offending fragment and then
    raises [JSONDecodeError]; its trace holds no paper-creation request. *)
Theorem C5_malformed_fragment_raises_without_submission
  (W : World) (qp : question_page) (frag : str) (tu : trace)
  (pp : option str) :
  ask_llm_for_playload W (llm_prompt qp) = Return frag ->
  upload_pdf W (pdf_path qp) = (tu, Return pp) ->
  json_loads (wrap_braces (trim_fragment frag)) = None ->
  save_new_paper W qp =
    (EvAskLlm (llm_prompt qp) :: tu
     ++ [EvPrint MsgJsonError; EvPrint (MsgPayloadContent (trim_fragment frag))],
     Raise JSONDecodeError)
  /\ never is_save_call (fst (save_new_paper W qp)).
Proof.
  intros H1 H2 H3.
  assert (Ha : assemble_payload frag pp =
               ([EvPrint MsgJsonError;
                 EvPrint (MsgPayloadContent (trim_fragment frag))],
                Raise JSONDecodeError)).
  { unfold assemble_payload, parse_fragment. rewrite H3. reflexivity. }
  rewrite (save_new_paper_assemble_raises _ _ H1 H2 Ha).
  split; [reflexivity|].
  cbn [fst]. change (?x :: ?l) with ([x] ++ l) at 1.
  apply never_app; split; [reflexivity|].
  apply never_app; split; [|reflexivity].
  pose proof (upload_pdf_never W (pdf_path qp) is_save_call
                (fun _ => eq_refl) (fun _ _ => eq_refl)
                (fun _ _ _ => eq_refl) (fun _ => eq_refl)) as Hn.
  now rewrite H2 in Hn.
Qed.

(** C5, witness: the language model answers with a fragment that ends in
    [, ,]. *)
Lemma C5_witness :
  exists tu,
    save_new_paper Scenario.world_malformed Scenario.paper =
      (EvAskLlm (llm_prompt Scenario.paper) :: tu
       ++ [EvPrint MsgJsonError;
           EvPrint (MsgPayloadContent (trim_fragment Scenario.fragment_two_commas))],
       Raise JSONDecodeError)
    /\ never is_save_call (fst (save_new_paper Scenario.world_malformed Scenario.paper)).
Proof.
  eexists.
  eapply (@C5_malformed_fragment_raises_without_submission
            Scenario.world_malformed Scenario.paper Scenario.fragment_two_commas).
  - reflexivity.
  - vm_compute. reflexivity.
  - vm_compute. reflexivity.
Defined.

(** C6: a present attachment fragment puts the value it carries under the
    key found before its first colon (blanks and quotes stripped): the
    value stored under that key afterwards is the new one whatever was
    there before, every other key keeps its value, and when the key was
    already present the keys stay in their order. *)
Theorem C6_attachment_key_is_overwritten
  (d : dict) (p k v : str) (value : pyobj) :
  p <> [] ->
  split_once COLON p = [k; v] ->
  json_loads v = Some value ->
  merge_attachment (PyDict d) (Some p)
  = ([], Return (PyDict (dict_set (strip_chars DQUOTE (strip k)) value d)))
  /\ dict_get (strip_chars DQUOTE (strip k))
       (dict_set (strip_chars DQUOTE (strip k)) value d) = Some value
  /\ (forall k', k' <> strip_chars DQUOTE (strip k) ->
        dict_get k' (dict_set (strip_chars DQUOTE (strip k)) value d)
        = dict_get k' d)
  /\ (dict_get (strip_chars DQUOTE (strip k)) d <> None ->
      map fst (dict_set (strip_chars DQUOTE (strip k)) value d) = map fst d).
Proof.
  intros Hp Hsplit Hv. repeat split.
  - unfold merge_attachment. destruct p as [|c p]; [congruence|].
    rewrite Hsplit, Hv. reflexivity.
  - apply dict_get_set_same.
  - intros k' Hk'. now apply dict_get_set_other.
  - apply dict_set_keys_present.
Qed.

(** C6, witness: an [attachments] entry already in the mapping is replaced. *)
Lemma C6_witness :
  merge_attachment
    (PyDict [(lit "attachments", PyInt 1); (lit "title", PyStr (lit "T"))])
    (Some (ATTACHMENTS_PREFIX ++ lit "[2]"))
  = ([], Return (PyDict [(lit "attachments", PyList [PyInt 2]);
                         (lit "title", PyStr (lit "T"))])).
Proof.
  refine (proj1 (@C6_attachment_key_is_overwritten
                   [(lit "attachments", PyInt 1); (lit "title", PyStr (lit "T"))]
                   (ATTACHMENTS_PREFIX ++ lit "[2]")
                   (quoted (lit "attachments")) (lit " [2]")
                   (PyList [PyInt 2]) _ _ _)).
  - discriminate.
  - reflexivity.
  - vm_compute. reflexivity.
Defined.

(** ** The object uploader *)

Lemma has_shape_length (shape : list bool) (s : str) :
  has_shape shape s = true -> List.length s = List.length shape.
Proof.
  revert s; induction shape as [|h shape IH]; intros [|c s]; simpl; try easy.
  intros H; apply andb_true_iff in H as [_ H]. f_equal; auto.
Qed.

Lemma app_inj_same_length {A} (a b x y : list A) :
  List.length x = List.length y -> a ++ x = b ++ y -> a = b /\ x = y.
Proof.
  intros Hlen Heq.
  assert (Hl : List.length a = List.length b).
  { apply (f_equal (@List.length A)) in Heq. rewrite !length_app in Heq. lia. }
  revert b Hl Heq; induction a as [|h a IH]; intros [|h' b] Hl Heq;
    simpl in *; try discriminate; [now split|].
  injection Heq as -> Heq. injection Hl as Hl.
  destruct (IH b Hl Heq) as [-> ->]. now split.
Qed.

(** C7: two object keys generated for the same filename from two distinct
    UUID texts differ, whatever the key prefixes are. *)
Theorem C7_object_keys_differ (p1 p2 u1 u2 filename : str) :
  is_uuid_text u1 = true ->
  is_uuid_text u2 = true ->
  u1 <> u2 ->
  object_key_of p1 u1 filename <> object_key_of p2 u2 filename.
Proof.
  intros H1 H2 Hne Heq. unfold object_key_of in Heq.
  apply has_shape_length in H1, H2.
  rewrite !app_assoc in Heq.
  apply app_inv_tail in Heq. apply app_inv_tail in Heq.
  apply app_inj_same_length in Heq; [|congruence].
  destruct Heq as [_ Heq]. contradiction.
Qed.

(** C7, witness: two UUID texts that differ in their last digit. *)
Lemma C7_witness :
  object_key_of (lit "p") (lit "123e4567-e89b-42d3-a456-426614174000") (lit "a.pdf")
  <> object_key_of (lit "p") (lit "123e4567-e89b-42d3-a456-426614174001") (lit "a.pdf").
Proof.
  apply C7_object_keys_differ.
  - reflexivity.
  - reflexivity.
  - discriminate.
Defined.

(** The run of [upload_to_cos] on a credential structure whose storage
    client can be built. *)
Lemma upload_to_cos_run (W : World) (c : pyobj) (k : credential) (path : str) :
  credential_structure c k ->
  cos_client W (c_region k) (c_tmpSecretId k) (c_tmpSecretKey k)
    (c_sessionToken k) = None ->
  let object_key :=
    object_key_of (py_format W (c_keyPrefix k)) (uuid_uuid4 W)
      (os_path_basename W path) in
  let final_url := final_url_of (py_format W (c_cdnDomain k)) object_key in
  upload_to_cos W c path =
    match cos_upload_file W (c_bucket k) path object_key with
    | None =>
        ([EvPrint MsgStage2; EvPrint (MsgObjectKey object_key);
          EvUploadFile (c_bucket k) path object_key;
          EvPrint (MsgUploadOk final_url)],
         Return (Some {| url := final_url; key := object_key |}))
    | Some e =>
        ([EvPrint MsgStage2; EvPrint (MsgObjectKey object_key);
          EvUploadFile (c_bucket k) path object_key;
          EvPrint (MsgUploadError e)],
         Return None)
    end.
Proof.
  intros (top & inner & -> & Hc & Hr & Hb & Hp & Hd & Hi & Hk & Ht) Hclient.
  unfold upload_to_cos, py_getitem, print, emit, bind, ret, try_except, of_status.
  rewrite Hc, Hr, Hb, Hp, Hi, Hk, Ht, Hclient. cbn.
  destruct (cos_upload_file W (c_bucket k) path _) as [e|]; cbn.
  - reflexivity.
  - cbn in Hd. rewrite Hd. reflexivity.
Qed.

(** C8: for a credential structure and a file path, [upload_to_cos] asks
    the object store to put the file under the key made of the key prefix,
    a slash, the UUID, a slash and the basename of the path; when the
    upload succeeds it returns the address [https://] + CDN domain + slash
    + object key together with that key. *)
Theorem C8_object_key_and_public_url
  (W : World) (c : pyobj) (k : credential) (path : str) :
  credential_structure c k ->
  cos_client W (c_region k) (c_tmpSecretId k) (c_tmpSecretKey k)
    (c_sessionToken k) = None ->
  let object_key :=
    py_format W (c_keyPrefix k) ++ [SLASH] ++ uuid_uuid4 W ++ [SLASH]
    ++ os_path_basename W path in
  In (EvUploadFile (c_bucket k) path object_key) (fst (upload_to_cos W c path))
  /\ (forall b f key', In (EvUploadFile b f key') (fst (upload_to_cos W c path)) ->
        key' = object_key)
  /\ (cos_upload_file W (c_bucket k) path object_key = None ->
      returned (upload_to_cos W c path)
        (Some {| url := lit "https://" ++ py_format W (c_cdnDomain k)
                        ++ [SLASH] ++ object_key;
                 key := object_key |})).
Proof.
  intros Hc Hclient object_key.
  pose proof (upload_to_cos_run W path Hc Hclient) as Hrun.
  cbv zeta in Hrun. fold object_key in Hrun.
  change (object_key_of (py_format W (c_keyPrefix k)) (uuid_uuid4 W)
            (os_path_basename W path)) with object_key in Hrun.
  rewrite Hrun. unfold returned.
  destruct (cos_upload_file W (c_bucket k) path object_key) as [e|]; cbn.
  - split; [auto|]. split; [|discriminate].
    intros b f key' [H|[H|[H|[H|[]]]]]; try discriminate. now injection H.
  - split; [auto|]. split; [|reflexivity].
    intros b f key' [H|[H|[H|[H|[]]]]]; try discriminate. now injection H.
Qed.

Lemma scenario_credential_structure :
  credential_structure Scenario.credential_data Scenario.credential_fields.
Proof. do 2 eexists. repeat split. Qed.

(** C8, witness: the end-to-end scenario. *)
Lemma C8_witness :
  returned (upload_to_cos Scenario.world_ok Scenario.credential_data
              (lit "PDF/Test2024.pdf"))
    (Some {| url := lit "https://cdn.example.com/p/123e4567-e89b-42d3-a456-426614174000/Test2024.pdf";
             key := lit "p/123e4567-e89b-42d3-a456-426614174000/Test2024.pdf" |}).
Proof.
  exact (proj2 (proj2 (@C8_object_key_and_public_url Scenario.world_ok
                         Scenario.credential_data Scenario.credential_fields
                         (lit "PDF/Test2024.pdf")
                         scenario_credential_structure eq_refl)) eq_refl).
Defined.

(** C9: whenever [upload_to_cos] reaches the storage client's upload call,
    it returns; and when that call raises, what it returns is [None].  No
    exception of the upload call reaches the caller. *)
Theorem C9_upload_exception_becomes_absent
  (W : World) (c : pyobj) (path : str) (b : pyobj) (f k : str) :
  In (EvUploadFile b f k) (fst (upload_to_cos W c path)) ->
  (exists r, snd (upload_to_cos W c path) = Return r)
  /\ (forall e, cos_upload_file W b f k = Some e ->
        returned (upload_to_cos W c path) None).
Proof.
  unfold returned, upload_to_cos, py_getitem, print, emit, bind, ret, raise,
    try_except, of_status.
  repeat match goal with
    | |- context [match ?x with PyDict _ => _ | _ => _ end] =>
        is_var x; destruct x; cbn
    | |- context [dict_get ?key ?d] => destruct (dict_get key d) eqn:?; cbn
    | |- context [cos_client ?w ?r ?i ?s ?t] =>
        destruct (cos_client w r i s t) eqn:?; cbn
    | |- context [cos_upload_file ?w ?bk ?p ?ky] =>
        destruct (cos_upload_file w bk p ky) eqn:?; cbn
    end;
    intros Hin;
    repeat (destruct Hin as [Hin|Hin]; [try discriminate Hin|]);
    try contradiction;
    try (injection Hin as <- <- <-);
    (split; [eexists; reflexivity|]); intros e' He'; try reflexivity;
    congruence.
Qed.

(** C9, witness: the object store rejects the upload of the scenario. *)
Lemma C9_witness :
  returned (upload_to_cos Scenario.world_upload_fails Scenario.credential_data
              (lit "PDF/Test2024.pdf")) None.
Proof.
  refine (proj2 (@C9_upload_exception_becomes_absent
                   Scenario.world_upload_fails Scenario.credential_data
                   (lit "PDF/Test2024.pdf") (PyStr (lit "b1"))
                   (lit "PDF/Test2024.pdf")
                   (lit "p/123e4567-e89b-42d3-a456-426614174000/Test2024.pdf")
                   _) (ExternalError 1) eq_refl).
  vm_compute. repeat (first [left; reflexivity | right]).
Defined.

(** ** Trimming the fragment *)

Lemma rstrip_by_all (p : char -> bool) (w : str) :
  forallb p w = true -> rstrip_by p w = [].
Proof.
  induction w as [|c w IH]; simpl; [reflexivity|].
  intros H. apply andb_true_iff in H as [Hc Hw]. now rewrite (IH Hw), Hc.
Qed.

Lemma rstrip_by_app_all (p : char -> bool) (s w : str) :
  forallb p w = true -> rstrip_by p (s ++ w) = rstrip_by p s.
Proof.
  intros Hw. induction s as [|c s IH]; simpl.
  - now apply rstrip_by_all.
  - now rewrite IH.
Qed.

Lemma rstrip_by_keep (p : char -> bool) (s : str) (x : char) :
  p x = false -> rstrip_by p (s ++ [x]) = s ++ [x].
Proof.
  intros Hx. induction s as [|c s IH]; simpl.
  - now rewrite Hx.
  - rewrite IH. destruct (s ++ [x]) eqn:E; [|reflexivity].
    now destruct s.
Qed.

Lemma forallb_last (p : char -> bool) (l : str) :
  l <> [] -> forallb p l = true ->
  exists l0 x, l = l0 ++ [x] /\ p x = true.
Proof.
  intros Hne Hall. destruct (exists_last Hne) as (l0 & x & ->).
  rewrite forallb_app in Hall. apply andb_true_iff in Hall as [_ Hx].
  simpl in Hx. rewrite andb_true_r in Hx. eauto.
Qed.

Lemma json_ws_isspace (c : char) : is_json_ws c = true -> py_isspace c = true.
Proof.
  intros H. apply json_ws_cases in H as [->|[->|[->| ->]]]; reflexivity.
Qed.

Lemma json_ws_not_comma (c : char) :
  is_json_ws c = true -> is_char COMMA c = false.
Proof.
  intros H. apply json_ws_cases in H as [->|[->|[->| ->]]]; reflexivity.
Qed.

Lemma comma_not_space (c : char) :
  is_char COMMA c = true -> py_isspace c = false.
Proof. unfold is_char. intros H. apply N.eqb_eq in H. now subst. Qed.

(** What line 192 leaves of a body followed by blanks, commas and blanks. *)
Lemma trim_fragment_tail (body w1 cs w2 : str) :
  rstrip body = body ->
  rstrip_chars COMMA body = body ->
  forallb is_json_ws w1 = true ->
  forallb (is_char COMMA) cs = true ->
  forallb py_isspace w2 = true ->
  trim_fragment (body ++ w1 ++ cs ++ w2)
  = match cs with [] => body | _ :: _ => body ++ w1 end.
Proof.
  intros Hb1 Hb2 Hw1 Hcs Hw2. unfold trim_fragment, rstrip, rstrip_chars in *.
  assert (Hw1' : forallb py_isspace w1 = true).
  { rewrite forallb_forall in *. intros c Hc. now apply json_ws_isspace, Hw1. }
  destruct cs as [|c cs].
  - simpl. rewrite rstrip_by_app_all.
    + now rewrite Hb1, Hb2.
    + rewrite forallb_app. now rewrite Hw1', Hw2.
  - replace (body ++ w1 ++ (c :: cs) ++ w2)
      with ((body ++ w1 ++ c :: cs) ++ w2)
      by now rewrite <- !app_assoc.
    rewrite (rstrip_by_app_all _ _ _ Hw2).
    destruct (@forallb_last (is_char COMMA) (c :: cs)) as (cs0 & x & E & Hx);
      [discriminate|exact Hcs|].
    rewrite E at 1.
    replace (body ++ w1 ++ cs0 ++ [x]) with ((body ++ w1 ++ cs0) ++ [x])
      by now rewrite <- !app_assoc.
    rewrite (rstrip_by_keep _ _ _ (comma_not_space _ Hx)).
    rewrite <- !app_assoc, <- E.
    replace (body ++ w1 ++ c :: cs) with ((body ++ w1) ++ c :: cs)
      by now rewrite <- !app_assoc.
    rewrite (rstrip_by_app_all _ _ _ Hcs).
    destruct w1 as [|y w1'].
    + now rewrite List.app_nil_r.
    + destruct (@forallb_last is_json_ws (y :: w1')) as (w0 & z & E' & Hz);
        [discriminate|exact Hw1|].
      rewrite E'. rewrite app_assoc.
      apply rstrip_by_keep. now apply json_ws_not_comma.
Qed.

Lemma padded_app (body w : str) :
  forallb is_json_ws w = true ->
  padded (body ++ [RBRACE]) ((body ++ w) ++ [RBRACE]).
Proof.
  intros Hw. induction body as [|c body IH]; simpl.
  - now constructor.
  - now constructor.
Qed.

(** Trailing-comma tolerance of line 192: for a fragment made of a body
    that ends neither in whitespace nor in a comma, followed by JSON
    whitespace, then commas, then whitespace (each possibly empty), when
    the body wrapped in braces parses to a mapping, so does the trimmed
    fragment wrapped in braces, and to the same mapping. *)
Theorem trailing_commas_are_tolerated
  (body w1 cs w2 : str) (v : pyobj) :
  rstrip body = body ->
  rstrip_chars COMMA body = body ->
  forallb is_json_ws w1 = true ->
  forallb (is_char COMMA) cs = true ->
  forallb py_isspace w2 = true ->
  json_loads (wrap_braces body) = Some v ->
  json_loads (wrap_braces (trim_fragment (body ++ w1 ++ cs ++ w2))) = Some v.
Proof.
  intros Hb1 Hb2 Hw1 Hcs Hw2 Hv.
  rewrite trim_fragment_tail by assumption.
  destruct cs as [|c cs]; [exact Hv|].
  refine (json_loads_padded _ Hv). unfold wrap_braces.
  constructor. now apply padded_app.
Qed.

(** A body followed by a blank, two commas and a newline. *)
Lemma trailing_commas_are_tolerated_witness :
  json_loads
    (wrap_braces
       (trim_fragment
          ((quoted (lit "title") ++ lit ": " ++ quoted (lit "T"))
           ++ [SPACE] ++ [COMMA; COMMA] ++ [NEWLINE])))
  = Some (PyDict [(lit "title", PyStr (lit "T"))]).
Proof.
  apply trailing_commas_are_tolerated; vm_compute; reflexivity.
Defined.

(** ** What [upload_pdf] hands to the assembler *)

Lemma upload_pdf_some (W : World) (path : str) (tr : trace) (s : str) :
  upload_pdf W path = (tr, Return (Some s)) ->
  exists info d data,
    In (EvEvaluate (NotifyRequest (os_path_basename W path) (url info))) tr
    /\ page_evaluate W (NotifyRequest (os_path_basename W path) (url info))
       = Return (PyDict d)
    /\ truthy (dict_get_default (lit "success") d) = true
    /\ dict_get (lit "data") d = Some data
    /\ s = ATTACHMENTS_PREFIX ++ json_dumps (Some 2%nat) data.
Proof.
  unfold upload_pdf.
  destruct (os_path_exists W path); cbn [negb]; [|discriminate].
  destruct (get_upload_credentials W (os_path_basename W path)) as [t1 [c|e]];
    cbn [bind]; [|discriminate].
  destruct (truthy c); cbn [negb]; [|discriminate].
  destruct (upload_to_cos W c path) as [t2 [[info|]|e]];
    cbn [bind ret]; try discriminate.
  unfold notify_application_server, evaluate, print, emit, of_outcome, bind,
    try_except, ret, raise.
  destruct (page_evaluate W (NotifyRequest (os_path_basename W path) (url info)))
    as [r|e] eqn:Hr; cbn; [|discriminate].
  destruct (truthy r) eqn:Ht; cbn; [|discriminate].
  destruct r as [| b | z | f | x | l | d]; try discriminate.
  match goal with
  | |- context [if ?c then _ else _] => destruct c eqn:Hs; [|discriminate]
  end.
  match goal with
  | |- context [match ?x with Some _ => _ | None => _ end] =>
      destruct x as [data|] eqn:Hd; [|discriminate]
  end.
  intros H. injection H as <- <-.
  exists info, d, data. repeat split; try assumption.
  rewrite !in_app_iff. right. right. simpl. auto.
Qed.

(** A text in braces that parses gives a mapping. *)
Lemma json_loads_wrap_braces_dict (p : str) (v : pyobj) :
  json_loads (wrap_braces p) = Some v -> exists d, v = PyDict d.
Proof.
  unfold json_loads, wrap_braces.
  change (starts_with_bom (LBRACE :: p ++ [RBRACE])) with false. cbv iota.
  change (skip_ws (LBRACE :: p ++ [RBRACE])) with (LBRACE :: p ++ [RBRACE]).
  rewrite scan_once_eq.
  change (LBRACE =? DQUOTE) with false.
  change (LBRACE =? LBRACE) with true. cbv iota.
  destruct (skip_ws (p ++ [RBRACE])) as [|c1 r1]; [discriminate|].
  destruct (c1 =? RBRACE).
  - destruct (skip_ws r1); [|discriminate]. intros H; injection H as <-. eauto.
  - destruct (c1 =? DQUOTE); [|discriminate].
    destruct (JSONObject_loop _ r1) as [[pairs rest]|]; [|discriminate].
    destruct (skip_ws rest); [|discriminate]. intros H; injection H as <-. eauto.
Qed.

Lemma attachments_prefix_split (t : str) :
  split_once COLON (ATTACHMENTS_PREFIX ++ t)
  = [quoted (lit "attachments"); SPACE :: t].
Proof. reflexivity. Qed.

Lemma attachments_key :
  strip_chars DQUOTE (strip (quoted (lit "attachments"))) = lit "attachments".
Proof. reflexivity. Qed.

Lemma merge_attachment_eq (pd : pyobj) (s k v : str) (value : pyobj) :
  split_once COLON s = [k; v] ->
  json_loads v = Some value ->
  merge_attachment pd (Some s)
  = py_setitem pd (strip_chars DQUOTE (strip k)) value.
Proof.
  intros Hs Hv. destruct s as [|c p]; [discriminate Hs|].
  unfold merge_attachment. now rewrite Hs, Hv.
Qed.

Lemma merge_attachment_fragment (base : dict) (data : pyobj) :
  exists value,
    json_loads (SPACE :: json_dumps (Some 2%nat) data) = Some value
    /\ merge_attachment (PyDict base)
         (Some (ATTACHMENTS_PREFIX ++ json_dumps (Some 2%nat) data))
       = ([], Return (PyDict (dict_set (lit "attachments") value base))).
Proof.
  destruct (json_loads_space_dumps (Some 2%nat) data) as (value & Hv).
  exists value. split; [exact Hv|].
  rewrite (@merge_attachment_eq _ _ _ _ _ (attachments_prefix_split _) Hv).
  rewrite attachments_key. reflexivity.
Qed.

(** Every string [upload_pdf] returns is the literal prefix
    [attachments] in quotes, a colon and a blank, followed by the indented
    [json.dumps] text of the [data] entry of the answer to the notification
    request, an answer that is a mapping with a true [success]. Splitting
    the string at its first colon gives exactly two parts; the first,
    stripped of whitespace and quotes, is [attachments], and [json.loads]
    accepts the second. *)
Theorem upload_pdf_result_is_attachment_fragment
  (W : World) (path : str) (tr : trace) (s : str) :
  upload_pdf W path = (tr, Return (Some s)) ->
  exists fileUrl d data,
    In (EvEvaluate (NotifyRequest (os_path_basename W path) fileUrl)) tr
    /\ page_evaluate W (NotifyRequest (os_path_basename W path) fileUrl)
       = Return (PyDict d)
    /\ truthy (dict_get_default (lit "success") d) = true
    /\ dict_get (lit "data") d = Some data
    /\ s = quoted (lit "attachments") ++ lit ": "
           ++ json_dumps (Some 2%nat) data
    /\ split_once COLON s
       = [quoted (lit "attachments"); SPACE :: json_dumps (Some 2%nat) data]
    /\ strip_chars DQUOTE (strip (quoted (lit "attachments")))
       = lit "attachments"
    /\ exists v, json_loads (SPACE :: json_dumps (Some 2%nat) data) = Some v.
Proof.
  intros H.
  destruct (upload_pdf_some _ _ H) as (info & d & data & Hin & Hr & Hs & Hd & ->).
  exists (url info), d, data.
  split; [exact Hin|]. split; [exact Hr|]. split; [exact Hs|].
  split; [exact Hd|]. split; [reflexivity|].
  split; [apply attachments_prefix_split|].
  split; [apply attachments_key|].
  apply json_loads_space_dumps.
Qed.

(** The end-to-end scenario: the notification answers with a list holding
    one mapping, and [upload_pdf] returns its text after the prefix. *)
Lemma upload_pdf_result_is_attachment_fragment_witness :
  snd (upload_pdf Scenario.world_ok (lit "PDF/Test2024.pdf"))
  = Return (Some (ATTACHMENTS_PREFIX
                  ++ json_dumps (Some 2%nat)
                       (PyList [PyDict [(lit "id", PyInt 7)]])))
  /\ exists data,
       split_once COLON
         (ATTACHMENTS_PREFIX
          ++ json_dumps (Some 2%nat) (PyList [PyDict [(lit "id", PyInt 7)]]))
       = [quoted (lit "attachments"); SPACE :: json_dumps (Some 2%nat) data]
       /\ exists v, json_loads (SPACE :: json_dumps (Some 2%nat) data) = Some v.
Proof.
  split; [vm_compute; reflexivity|].
  destruct (@upload_pdf_result_is_attachment_fragment Scenario.world_ok
              (lit "PDF/Test2024.pdf")
              (fst (upload_pdf Scenario.world_ok (lit "PDF/Test2024.pdf")))
              (ATTACHMENTS_PREFIX
               ++ json_dumps (Some 2%nat)
                    (PyList [PyDict [(lit "id", PyInt 7)]])))
    as (u & d & data & _ & _ & _ & _ & _ & Hsplit & _ & Hv).
  - vm_compute. reflexivity.
  - exists data. split; assumption.
Defined.

Lemma upload_pdf_never_save (W : World) (path : str) :
  never is_save_call (fst (upload_pdf W path)).
Proof. apply upload_pdf_never; reflexivity. Qed.

(** When [upload_pdf] returns a string and the trimmed fragment of the
    language model parses, the merge of lines 202-208 does not raise: the
    run posts one paper-creation request, and its body is the [json.dumps]
    text of the fragment's mapping with the key [attachments] set to the
    value read back from the string. *)
Theorem attachment_is_merged_into_the_posted_payload
  (W : World) (qp : question_page) (frag : str) (tu : trace) (s : str)
  (pd : pyobj) :
  ask_llm_for_playload W (llm_prompt qp) = Return frag ->
  upload_pdf W (pdf_path qp) = (tu, Return (Some s)) ->
  json_loads (wrap_braces (trim_fragment frag)) = Some pd ->
  exists base data value,
    pd = PyDict base
    /\ s = ATTACHMENTS_PREFIX ++ json_dumps (Some 2%nat) data
    /\ json_loads (SPACE :: json_dumps (Some 2%nat) data) = Some value
    /\ In (EvEvaluate
             (SaveRequest
                (json_dumps None
                   (PyDict (dict_set (lit "attachments") value base)))))
          (fst (save_new_paper W qp))
    /\ forall body, In (EvEvaluate (SaveRequest body)) (fst (save_new_paper W qp)) ->
         body = json_dumps None
                  (PyDict (dict_set (lit "attachments") value base)).
Proof.
  intros Hllm Hup Hpd.
  destruct (json_loads_wrap_braces_dict _ Hpd) as (base & ->).
  destruct (upload_pdf_some _ _ Hup) as (info & d & data & _ & _ & _ & _ & ->).
  destruct (merge_attachment_fragment base data) as (value & Hv & Hm).
  exists base, data, value.
  split; [reflexivity|]. split; [reflexivity|]. split; [exact Hv|].
  assert (Ha : assemble_payload frag
                 (Some (ATTACHMENTS_PREFIX ++ json_dumps (Some 2%nat) data))
               = ([], Return (json_dumps None
                                (PyDict (dict_set (lit "attachments") value base))))).
  { unfold assemble_payload, parse_fragment. rewrite Hpd.
    unfold bind at 1. unfold ret at 1. rewrite Hm. reflexivity. }
  rewrite (@save_new_paper_submits W qp frag tu [] _ _ Hllm Hup Ha). cbn [fst].
  split.
  - right. rewrite in_app_iff. right. cbn [List.app]. right. left. reflexivity.
  - intros body [Hin|Hin]; [discriminate Hin|].
    rewrite in_app_iff in Hin. destruct Hin as [Hin|Hin].
    { pose proof (upload_pdf_never_save W (pdf_path qp)) as Hn.
      rewrite Hup in Hn. cbn [fst] in Hn.
      pose proof (@never_In _ _ _ Hn Hin) as Hf. discriminate Hf. }
    cbn [List.app] in Hin. destruct Hin as [Hin|[Hin|Hin]];
      [discriminate Hin|injection Hin as <-; reflexivity|].
    destruct (page_evaluate W (SaveRequest _)) as [result|e]; [|destruct Hin].
    pose proof (@never_In _ _ _ (report_result_never_save W qp result) Hin) as Hf.
    discriminate Hf.
Qed.

(** The end-to-end scenario posts the title of the fragment and the
    attachment list. *)
Lemma attachment_is_merged_into_the_posted_payload_witness :
  exists base data value,
    PyDict [(lit "title", PyStr (lit "T"))] = PyDict base
    /\ ATTACHMENTS_PREFIX
       ++ json_dumps (Some 2%nat) (PyList [PyDict [(lit "id", PyInt 7)]])
       = ATTACHMENTS_PREFIX ++ json_dumps (Some 2%nat) data
    /\ json_loads (SPACE :: json_dumps (Some 2%nat) data) = Some value
    /\ In (EvEvaluate
             (SaveRequest
                (json_dumps None
                   (PyDict (dict_set (lit "attachments") value base)))))
          (fst (save_new_paper Scenario.world_ok Scenario.paper))
    /\ forall body,
         In (EvEvaluate (SaveRequest body))
            (fst (save_new_paper Scenario.world_ok Scenario.paper)) ->
         body = json_dumps None
                  (PyDict (dict_set (lit "attachments") value base)).
Proof.
  apply (@attachment_is_merged_into_the_posted_payload Scenario.world_ok
           Scenario.paper Scenario.fragment
           (fst (upload_pdf Scenario.world_ok (pdf_path Scenario.paper))));
    vm_compute; reflexivity.
Defined.

(** ** The three attachment stages, one by one *)

Arguments lit : simpl never.

Lemma calls_app (a b : trace) : calls (a ++ b) = calls a ++ calls b.
Proof. apply filter_app. Qed.

(** The run of [get_upload_credentials]. *)
Lemma get_upload_credentials_run (W : World) (filename : str) :
  exists tr v,
    get_upload_credentials W filename = (tr, Return v)
    /\ calls tr = [EvEvaluate (CredentialRequest filename)]
    /\ (v <> PyNone ->
        exists d,
          page_evaluate W (CredentialRequest filename) = Return (PyDict d)
          /\ truthy (dict_get_default (lit "success") d) = true
          /\ dict_get (lit "data") d = Some v).
Proof.
  unfold get_upload_credentials, evaluate, print, emit, of_outcome, bind,
    try_except, ret, py_get.
  destruct (page_evaluate W (CredentialRequest filename)) as [r|e]; cbn.
  2:{ do 2 eexists. split; [reflexivity|]. split; [reflexivity|]. congruence. }
  destruct (truthy r) eqn:Hr; cbn.
  - destruct r as [| b | z | f | s | l | d]; cbn;
      try (do 2 eexists; split; [reflexivity|]; split; [reflexivity|]; congruence).
    destruct (truthy (dict_get_default (lit "success") d)) eqn:Hs; cbn.
    + do 2 eexists. split; [reflexivity|]. split; [reflexivity|].
      intros Hv. exists d. split; [reflexivity|]. split; [exact Hs|].
      unfold dict_get_default in *.
      destruct (dict_get (lit "data") d); [reflexivity|congruence].
    + do 2 eexists. split; [reflexivity|]. split; [reflexivity|]. congruence.
  - rewrite Hr. cbn.
    do 2 eexists. split; [reflexivity|]. split; [reflexivity|]. congruence.
Qed.

(** [get_upload_credentials] never raises: it issues the credential
    request for the file name it was given, once, and returns; what it
    returns is other than [None] only when the page answered with a
    mapping whose [success] is true, and is then the [data] entry of that
    mapping. *)
Theorem get_upload_credentials_never_raises (W : World) (filename : str) :
  exists tr v,
    get_upload_credentials W filename = (tr, Return v)
    /\ calls tr = [EvEvaluate (CredentialRequest filename)]
    /\ (v <> PyNone ->
        exists d,
          page_evaluate W (CredentialRequest filename) = Return (PyDict d)
          /\ truthy (dict_get_default (lit "success") d) = true
          /\ dict_get (lit "data") d = Some v).
Proof. apply get_upload_credentials_run. Qed.

(** The run of [notify_application_server]. *)
Lemma notify_application_server_run
  (W : World) (filename : str) (info : file_info) :
  exists tr,
    notify_application_server W filename info
    = (tr, Return match page_evaluate W (NotifyRequest filename (url info)) with
                  | Return response_data => response_data
                  | Raise _ => PyNone
                  end)
    /\ calls tr = [EvEvaluate (NotifyRequest filename (url info))].
Proof.
  unfold notify_application_server, evaluate, print, emit, of_outcome, bind,
    try_except, ret.
  destruct (page_evaluate W (NotifyRequest filename (url info))) as [r|e]; cbn;
    eexists; split; reflexivity.
Qed.

(** [notify_application_server] never raises: it issues one notification
    request carrying the file name and the address of the uploaded file,
    and returns the answer of the page as it is, whatever it reports, or
    [None] when the page raised. *)
Theorem notify_application_server_never_raises
  (W : World) (filename : str) (info : file_info) :
  exists tr,
    notify_application_server W filename info
    = (tr, Return match page_evaluate W (NotifyRequest filename (url info)) with
                  | Return response_data => response_data
                  | Raise _ => PyNone
                  end)
    /\ calls tr = [EvEvaluate (NotifyRequest filename (url info))].
Proof. apply notify_application_server_run. Qed.

(** The address is built inside the [try] of [upload_to_cos]: when the
    credential structure has every field but [cdnDomain], the file is
    uploaded to the object store and [upload_to_cos] still returns
    [None]. *)
Theorem upload_without_cdn_domain_returns_absent
  (W : World) (top inner : dict) (path : str)
  (region bucket key_prefix secret_id secret_key token : pyobj) :
  dict_get (lit "credentials") top = Some (PyDict inner) ->
  dict_get (lit "region") top = Some region ->
  dict_get (lit "bucket") top = Some bucket ->
  dict_get (lit "keyPrefix") top = Some key_prefix ->
  dict_get (lit "cdnDomain") top = None ->
  dict_get (lit "tmpSecretId") inner = Some secret_id ->
  dict_get (lit "tmpSecretKey") inner = Some secret_key ->
  dict_get (lit "sessionToken") inner = Some token ->
  cos_client W region secret_id secret_key token = None ->
  cos_upload_file W bucket path
    (object_key_of (py_format W key_prefix) (uuid_uuid4 W)
       (os_path_basename W path)) = None ->
  returned (upload_to_cos W (PyDict top) path) None
  /\ In (EvUploadFile bucket path
           (object_key_of (py_format W key_prefix) (uuid_uuid4 W)
              (os_path_basename W path)))
        (fst (upload_to_cos W (PyDict top) path))
  /\ In (EvPrint (MsgUploadError (KeyError (lit "cdnDomain"))))
        (fst (upload_to_cos W (PyDict top) path)).
Proof.
  intros Hc Hr Hb Hp Hd Hi Hk Ht Hclient Hup.
  unfold returned, upload_to_cos, py_getitem, print, emit, bind, ret, raise,
    try_except, of_status.
  rewrite Hc, Hr, Hb, Hp, Hi, Hk, Ht, Hclient. cbn.
  rewrite Hup. cbn. rewrite Hd. cbn. auto 8.
Qed.

(** The credential structure of the scenario, its [cdnDomain] removed. *)
Lemma upload_without_cdn_domain_returns_absent_witness :
  returned (upload_to_cos Scenario.world_ok
              (PyDict Edge.credential_top_without_cdn) (lit "PDF/Test2024.pdf"))
    None
  /\ In (EvUploadFile (PyStr (lit "b1")) (lit "PDF/Test2024.pdf")
           (lit "p/123e4567-e89b-42d3-a456-426614174000/Test2024.pdf"))
        (fst (upload_to_cos Scenario.world_ok
                (PyDict Edge.credential_top_without_cdn) (lit "PDF/Test2024.pdf")))
  /\ In (EvPrint (MsgUploadError (KeyError (lit "cdnDomain"))))
        (fst (upload_to_cos Scenario.world_ok
                (PyDict Edge.credential_top_without_cdn) (lit "PDF/Test2024.pdf"))).
Proof.
  apply (@upload_without_cdn_domain_returns_absent Scenario.world_ok
           Edge.credential_top_without_cdn Edge.credential_inner
           (lit "PDF/Test2024.pdf")
           (PyStr (lit "ap-x")) (PyStr (lit "b1")) (PyStr (lit "p"))
           (PyStr (lit "id")) (PyStr (lit "key")) (PyStr (lit "tok")));
    reflexivity.
Defined.

(** How [upload_to_cos] can end. *)
Lemma upload_to_cos_cases (W : World) (c : pyobj) (path : str) :
  (calls (fst (upload_to_cos W c path)) = []
   /\ exists e, snd (upload_to_cos W c path) = Raise e)
  \/ exists bucket key_prefix,
       calls (fst (upload_to_cos W c path))
       = [EvUploadFile bucket path
            (object_key_of (py_format W key_prefix) (uuid_uuid4 W)
               (os_path_basename W path))]
       /\ (snd (upload_to_cos W c path) = Return None
           \/ exists cdn_domain,
                cos_upload_file W bucket path
                  (object_key_of (py_format W key_prefix) (uuid_uuid4 W)
                     (os_path_basename W path)) = None
                /\ snd (upload_to_cos W c path)
                   = Return
                       (Some {| url := final_url_of (py_format W cdn_domain)
                                         (object_key_of (py_format W key_prefix)
                                            (uuid_uuid4 W)
                                            (os_path_basename W path));
                                key := object_key_of (py_format W key_prefix)
                                         (uuid_uuid4 W)
                                         (os_path_basename W path) |})).
Proof.
  unfold upload_to_cos, py_getitem, print, emit, bind, ret, raise,
    try_except, of_status.
  repeat match goal with
    | |- context [match ?x with PyDict _ => _ | _ => _ end] =>
        is_var x; destruct x; cbn
    | |- context [dict_get ?key ?d] => destruct (dict_get key d) eqn:?; cbn
    | |- context [cos_client ?w ?r ?i ?s ?t] =>
        destruct (cos_client w r i s t) eqn:?; cbn
    | |- context [cos_upload_file ?w ?bk ?p ?ky] =>
        destruct (cos_upload_file w bk p ky) eqn:?; cbn
    end;
    try (left; split; [reflexivity|eexists; reflexivity]).
  all: right; do 2 eexists; (split; [reflexivity|]).
  all: first [ left; reflexivity
             | right; eexists; split; [eassumption|reflexivity] ].
Qed.

(** ** The calls of [upload_pdf] *)

Lemma bind_fst_snd {A B} (m : M A) (k : A -> M B) (t : trace) (a : A) :
  m = (t, Return a) ->
  fst (bind m k) = t ++ fst (k a) /\ snd (bind m k) = snd (k a).
Proof. intros ->. simpl. now destruct (k a). Qed.

(** How [upload_pdf] can run: the calls it makes, in their order. *)
Lemma upload_pdf_cases (W : World) (path : str) :
  (os_path_exists W path = false
   /\ calls (fst (upload_pdf W path)) = []
   /\ snd (upload_pdf W path) = Return None)
  \/ (os_path_exists W path = true
      /\ calls (fst (upload_pdf W path))
         = [EvEvaluate (CredentialRequest (os_path_basename W path))]
      /\ (snd (upload_pdf W path) = Return None
          \/ exists e, snd (upload_pdf W path) = Raise e))
  \/ (os_path_exists W path = true
      /\ exists bucket key_prefix,
           calls (fst (upload_pdf W path))
           = [EvEvaluate (CredentialRequest (os_path_basename W path));
              EvUploadFile bucket path
                (object_key_of (py_format W key_prefix) (uuid_uuid4 W)
                   (os_path_basename W path))]
           /\ snd (upload_pdf W path) = Return None)
  \/ (os_path_exists W path = true
      /\ exists bucket key_prefix cdn_domain,
           cos_upload_file W bucket path
             (object_key_of (py_format W key_prefix) (uuid_uuid4 W)
                (os_path_basename W path)) = None
           /\ calls (fst (upload_pdf W path))
              = [EvEvaluate (CredentialRequest (os_path_basename W path));
                 EvUploadFile bucket path
                   (object_key_of (py_format W key_prefix) (uuid_uuid4 W)
                      (os_path_basename W path));
                 EvEvaluate
                   (NotifyRequest (os_path_basename W path)
                      (final_url_of (py_format W cdn_domain)
                         (object_key_of (py_format W key_prefix) (uuid_uuid4 W)
                            (os_path_basename W path))))]
           /\ forall final_result,
                final_result
                = match page_evaluate W
                          (NotifyRequest (os_path_basename W path)
                             (final_url_of (py_format W cdn_domain)
                                (object_key_of (py_format W key_prefix)
                                   (uuid_uuid4 W) (os_path_basename W path))))
                  with
                  | Return response_data => response_data
                  | Raise _ => PyNone
                  end ->
                (truthy final_result = false ->
                 snd (upload_pdf W path) = Return None)
                /\ (truthy final_result = true ->
                    (forall d, final_result <> PyDict d) ->
                    snd (upload_pdf W path) = Raise AttributeError)
                /\ (forall d,
                      final_result = PyDict d ->
                      truthy final_result = true ->
                      snd (upload_pdf W path)
                      = Return
                          (if truthy (dict_get_default (lit "success") d)
                           then option_map
                                  (fun data_array =>
                                     ATTACHMENTS_PREFIX
                                     ++ json_dumps (Some 2%nat) data_array)
                                  (dict_get (lit "data") d)
                           else None))).
Proof.
  unfold upload_pdf. cbv zeta.
  destruct (os_path_exists W path) eqn:Hex; cbn [negb].
  2:{ left. repeat split. }
  right.
  destruct (get_upload_credentials_run W (os_path_basename W path))
    as (t1 & c & Hc & Hcalls & _).
  rewrite Hc. cbn [bind].
  destruct (truthy c); cbn [negb ret fst snd].
  2:{ left. rewrite List.app_nil_r.
      split; [reflexivity|]. split; [exact Hcalls|]. left. reflexivity. }
  destruct (upload_to_cos_cases W c path)
    as [[Hu (e & He)]|(bucket & key_prefix & Hu & Hres)].
  - left. split; [reflexivity|].
    destruct (upload_to_cos W c path) as [t2 o]. cbn [fst snd] in *. subst o.
    cbn [bind fst snd]. rewrite calls_app, Hcalls, Hu.
    split; [reflexivity|]. right. eauto.
  - right. destruct Hres as [Hres|(cdn_domain & Hok & Hres)].
    + left. split; [reflexivity|]. exists bucket, key_prefix.
      destruct (upload_to_cos W c path) as [t2 o]. cbn [fst snd] in *. subst o.
      cbn [bind ret fst snd]. rewrite List.app_nil_r, calls_app, Hcalls, Hu.
      split; reflexivity.
    + right. split; [reflexivity|]. exists bucket, key_prefix, cdn_domain.
      split; [exact Hok|].
      destruct (upload_to_cos W c path) as [t2 o]. cbn [fst snd] in *. subst o.
      cbn [bind].
      match goal with
      | |- context [notify_application_server W ?f ?i] =>
          destruct (notify_application_server_run W f i) as (t3 & Hn & Hn');
          rewrite Hn; cbn [url] in Hn'
      end.
      cbn [bind].
      match goal with
      | |- context [let (_, _) := ?m in (t3 ++ _, _)] =>
          assert (Hm : calls (fst m) = []);
          [|split;
            [destruct m as [t4 o4]; cbn [fst] in *;
             rewrite !calls_app, Hcalls, Hu, Hn', Hm; reflexivity|];
            replace (snd _) with (snd m)
              by (destruct m as [t4 o4]; reflexivity);
            clear Hm]
      end.
      { match goal with
        | |- context [truthy ?r] => destruct (truthy r)
        end; cbn [negb]; [|reflexivity].
        match goal with
        | |- context [match ?r with PyDict _ => _ | _ => _ end] => destruct r
        end; try reflexivity.
        destruct (truthy (dict_get_default (lit "success") d));
          [destruct (dict_get (lit "data") d)|]; reflexivity. }
      intros final_result ->. cbn [url].
      match goal with
      | |- context [truthy ?r] => generalize r; intros final_result
      end.
      split; [|split].
      * intros ->. reflexivity.
      * intros -> Hnd. destruct final_result; try reflexivity.
        now elim (Hnd d).
      * intros d -> ->. cbn [negb].
        destruct (truthy (dict_get_default (lit "success") d));
          [destruct (dict_get (lit "data") d)|]; reflexivity.
Qed.

Lemma calls_In (ev : event) (t : trace) :
  In ev (calls t) <-> In ev t /\ is_print ev = false.
Proof.
  unfold calls. rewrite filter_In. now rewrite negb_true_iff.
Qed.

(** [upload_pdf] makes at most three calls: the credential request, the
    upload to the object store and the notification, each at most once
    and in this order, all three for the base name of the path it was
    given; when the file does not exist it makes none. *)
Theorem upload_pdf_calls_in_order (W : World) (path : str) :
  (exists bucket object_key fileUrl rest,
     calls (fst (upload_pdf W path)) ++ rest
     = [EvEvaluate (CredentialRequest (os_path_basename W path));
        EvUploadFile bucket path object_key;
        EvEvaluate (NotifyRequest (os_path_basename W path) fileUrl)])
  /\ (os_path_exists W path = false -> calls (fst (upload_pdf W path)) = []).
Proof.
  destruct (upload_pdf_cases W path)
    as [(Hex & Hc & _)
       |[(Hex & Hc & _)
        |[(Hex & b & p & Hc & _)
         |(Hex & b & p & d & _ & Hc & _)]]]; rewrite Hc.
  - split; [|reflexivity]. exists PyNone, [], []. eexists. reflexivity.
  - split; [|congruence]. exists PyNone, [], []. eexists. reflexivity.
  - split; [|congruence]. do 2 eexists. exists []. eexists. reflexivity.
  - split; [|congruence]. do 3 eexists. exists []. reflexivity.
Qed.



(** How a run of [upload_pdf] that notified the server ends. *)
Lemma upload_pdf_notified (W : World) (path filename fileUrl : str) :
  In (EvEvaluate (NotifyRequest filename fileUrl)) (fst (upload_pdf W path)) ->
  forall final_result,
    final_result
    = match page_evaluate W (NotifyRequest filename fileUrl) with
      | Return response_data => response_data
      | Raise _ => PyNone
      end ->
    (truthy final_result = false -> snd (upload_pdf W path) = Return None)
    /\ (truthy final_result = true ->
        (forall d, final_result <> PyDict d) ->
        snd (upload_pdf W path) = Raise AttributeError)
    /\ (forall d,
          final_result = PyDict d ->
          truthy final_result = true ->
          snd (upload_pdf W path)
          = Return
              (if truthy (dict_get_default (lit "success") d)
               then option_map
                      (fun data_array =>
                         ATTACHMENTS_PREFIX ++ json_dumps (Some 2%nat) data_array)
                      (dict_get (lit "data") d)
               else None)).
Proof.
  intros Hin.
  assert (Hc : In (EvEvaluate (NotifyRequest filename fileUrl))
                 (calls (fst (upload_pdf W path)))).
  { apply calls_In. split; [exact Hin|reflexivity]. }
  destruct (upload_pdf_cases W path)
    as [(Hex & Hcalls & _)
       |[(Hex & Hcalls & _)
        |[(Hex & b & p & Hcalls & _)
         |(Hex & b & p & d & Hok & Hcalls & Hres)]]]; rewrite Hcalls in Hc.
  - destruct Hc.
  - destruct Hc as [Hc|[]]. discriminate Hc.
  - destruct Hc as [Hc|[Hc|[]]]; discriminate Hc.
  - destruct Hc as [Hc|[Hc|[Hc|[]]]]; try discriminate Hc.
    injection Hc as <- <-. exact Hres.
Qed.

(** A notification answer that is true in a test but is not a mapping (a
    list, a string, a number) makes [upload_pdf] raise [AttributeError]
    at line 176; [save_new_paper] does not catch it, so the run ends there
    and no paper-creation request is issued. *)
Theorem notification_answer_without_get_raises
  (W : World) (qp : question_page) (filename fileUrl : str)
  (response_data : pyobj) :
  In (EvEvaluate (NotifyRequest filename fileUrl))
     (fst (upload_pdf W (pdf_path qp))) ->
  page_evaluate W (NotifyRequest filename fileUrl) = Return response_data ->
  truthy response_data = true ->
  (forall d, response_data <> PyDict d) ->
  snd (upload_pdf W (pdf_path qp)) = Raise AttributeError
  /\ (forall fragment,
        ask_llm_for_playload W (llm_prompt qp) = Return fragment ->
        snd (save_new_paper W qp) = Raise AttributeError
        /\ never is_save_call (fst (save_new_paper W qp))).
Proof.
  intros Hin Hr Ht Hnd.
  destruct (upload_pdf_notified _ _ _ _ Hin eq_refl) as (_ & Hraise & _).
  rewrite Hr in Hraise. specialize (Hraise Ht Hnd).
  split; [exact Hraise|]. intros fragment Hllm.
  pose proof (upload_pdf_never_save W (pdf_path qp)) as Hn.
  destruct (upload_pdf W (pdf_path qp)) as [tu o] eqn:Hup.
  cbn [fst snd] in *. subst o.
  rewrite (@save_new_paper_upload_raises W qp fragment tu _ Hllm Hup).
  cbn [fst snd].
  split; [reflexivity|]. exact Hn.
Qed.

(** The notification endpoint answers with the list [[1]]. *)
Lemma notification_answer_without_get_raises_witness :
  snd (upload_pdf Edge.world_notify_list (pdf_path Scenario.paper))
  = Raise AttributeError
  /\ snd (save_new_paper Edge.world_notify_list Scenario.paper)
     = Raise AttributeError
  /\ never is_save_call (fst (save_new_paper Edge.world_notify_list Scenario.paper)).
Proof.
  destruct (@notification_answer_without_get_raises Edge.world_notify_list
              Scenario.paper (lit "Test2024.pdf")
              (lit "https://cdn.example.com/p/123e4567-e89b-42d3-a456-426614174000/Test2024.pdf")
              (PyList [PyInt 1])) as [H1 H2].
  - vm_compute. repeat (first [left; reflexivity | right]).
  - reflexivity.
  - reflexivity.
  - discriminate.
  - split; [exact H1|]. exact (H2 Scenario.fragment eq_refl).
Defined.

(** A notification answer that reports success but has no [data] entry,
    one whose [success] is not true, and a request that raised all make
    [upload_pdf] return [None]: nothing is handed to the assembler. *)
Theorem notification_without_data_returns_absent
  (W : World) (path filename fileUrl : str) :
  In (EvEvaluate (NotifyRequest filename fileUrl)) (fst (upload_pdf W path)) ->
  (exists e, page_evaluate W (NotifyRequest filename fileUrl) = Raise e)
  \/ (exists d,
        page_evaluate W (NotifyRequest filename fileUrl) = Return (PyDict d)
        /\ (truthy (dict_get_default (lit "success") d) = false
            \/ dict_get (lit "data") d = None)) ->
  snd (upload_pdf W path) = Return None.
Proof.
  intros Hin Hcase.
  destruct (upload_pdf_notified _ _ _ _ Hin eq_refl) as (Hfalsy & _ & Hdict).
  destruct Hcase as [(e & He)|(d & Hd & Hno)].
  - rewrite He in Hfalsy. apply Hfalsy. reflexivity.
  - rewrite Hd in Hfalsy, Hdict.
    destruct (truthy (PyDict d)) eqn:Ht; [|apply Hfalsy; reflexivity].
    rewrite (Hdict d eq_refl eq_refl).
    destruct Hno as [-> | ->]; [reflexivity|].
    destruct (truthy (dict_get_default (lit "success") d)); reflexivity.
Qed.

(** The notification endpoint reports success and sends no [data]. *)
Lemma notification_without_data_returns_absent_witness :
  snd (upload_pdf Edge.world_notify_without_data (lit "PDF/Test2024.pdf"))
  = Return None.
Proof.
  apply (@notification_without_data_returns_absent
           Edge.world_notify_without_data (lit "PDF/Test2024.pdf")
           (lit "Test2024.pdf")
           (lit "https://cdn.example.com/p/123e4567-e89b-42d3-a456-426614174000/Test2024.pdf")).
  - vm_compute. repeat (first [left; reflexivity | right]).
  - right. exists [(lit "success", PyBool true)].
    split; [reflexivity|]. right. reflexivity.
Defined.

(** ** Exceptions that leave [upload_to_cos] *)

(** [upload_to_cos] reads seven fields and builds the storage client before
    its [try]: an exception leaves it only from there.  It is then a
    [TypeError] (something subscripted is not a mapping), a [KeyError]
    naming one of those seven fields, or the exception of the client
    constructor, and nothing has been uploaded.  A missing [cdnDomain] is
    not among them. *)
Theorem upload_to_cos_raises_only_before_the_upload
  (W : World) (c : pyobj) (path : str) (tr : trace) (e : exn) :
  upload_to_cos W c path = (tr, Raise e) ->
  calls tr = []
  /\ (e = TypeError
      \/ (exists k,
            e = KeyError k
            /\ In k [lit "credentials"; lit "region"; lit "tmpSecretId";
                     lit "tmpSecretKey"; lit "sessionToken"; lit "bucket";
                     lit "keyPrefix"])
      \/ exists region secret_id secret_key token,
           cos_client W region secret_id secret_key token = Some e).
Proof.
  unfold upload_to_cos, py_getitem, print, emit, bind, ret, raise,
    try_except, of_status.
  repeat match goal with
    | |- context [match ?x with PyDict _ => _ | _ => _ end] =>
        is_var x; destruct x; cbn
    | |- context [dict_get ?key ?d] => destruct (dict_get key d) eqn:?; cbn
    | |- context [cos_client ?w ?r ?i ?s ?t] =>
        destruct (cos_client w r i s t) eqn:?; cbn
    | |- context [cos_upload_file ?w ?bk ?p ?ky] =>
        destruct (cos_upload_file w bk p ky) eqn:?; cbn
    end;
    intros H; try discriminate H; injection H as <- <-;
    (split; [reflexivity|]);
    first [ left; reflexivity
          | right; left; eexists; split; [reflexivity|]; simpl; tauto
          | right; right; do 4 eexists; eassumption ].
Qed.

(** A credential structure without [bucket]. *)
Lemma upload_to_cos_raises_only_before_the_upload_witness :
  calls (fst (upload_to_cos Scenario.world_ok Edge.credential_without_bucket
                (lit "PDF/Test2024.pdf"))) = []
  /\ (KeyError (lit "bucket") = TypeError
      \/ (exists k,
            KeyError (lit "bucket") = KeyError k
            /\ In k [lit "credentials"; lit "region"; lit "tmpSecretId";
                     lit "tmpSecretKey"; lit "sessionToken"; lit "bucket";
                     lit "keyPrefix"])
      \/ exists region secret_id secret_key token,
           cos_client Scenario.world_ok region secret_id secret_key token
           = Some (KeyError (lit "bucket"))).
Proof.
  apply (@upload_to_cos_raises_only_before_the_upload Scenario.world_ok
           Edge.credential_without_bucket (lit "PDF/Test2024.pdf")).
  reflexivity.
Defined.

Lemma upload_pdf_upload_raises (W : World) (path : str) (t1 t2 : trace)
  (c : pyobj) (e : exn) :
  os_path_exists W path = true ->
  get_upload_credentials W (os_path_basename W path) = (t1, Return c) ->
  truthy c = true ->
  upload_to_cos W c path = (t2, Raise e) ->
  upload_pdf W path = (t1 ++ t2, Raise e).
Proof.
  intros Hex Hc Ht Hu. unfold upload_pdf. cbv zeta.
  rewrite Hex, Hc. cbn [negb bind]. rewrite Ht, Hu. reflexivity.
Qed.

(** Credentials that are granted but incomplete end the whole run: when
    the credential fetch returns a value that is true in a test and
    [upload_to_cos] raises on it, [upload_pdf] and [save_new_paper] raise
    the same exception; no upload, no notification and no paper-creation
    request is made and no record is written. *)
Theorem incomplete_credentials_abort_the_run
  (W : World) (qp : question_page) (fragment : str) (c : pyobj) (e : exn) :
  ask_llm_for_playload W (llm_prompt qp) = Return fragment ->
  os_path_exists W (pdf_path qp) = true ->
  snd (get_upload_credentials W (os_path_basename W (pdf_path qp))) = Return c ->
  truthy c = true ->
  snd (upload_to_cos W c (pdf_path qp)) = Raise e ->
  snd (upload_pdf W (pdf_path qp)) = Raise e
  /\ snd (save_new_paper W qp) = Raise e
  /\ never (fun ev => is_upload_call ev || is_notify_call ev || is_save_call ev
                      || is_record_write ev)
       (fst (save_new_paper W qp)).
Proof.
  intros Hllm Hex Hc Ht Hu.
  destruct (get_upload_credentials W (os_path_basename W (pdf_path qp)))
    as [t1 o1] eqn:Ec. cbn [snd] in Hc. subst o1.
  destruct (upload_to_cos W c (pdf_path qp)) as [t2 o2] eqn:Eu.
  cbn [snd] in Hu. subst o2.
  pose proof (@upload_pdf_upload_raises W _ _ _ _ _ Hex Ec Ht Eu) as Hup.
  rewrite (@save_new_paper_upload_raises W qp fragment _ _ Hllm Hup), Hup.
  cbn [fst snd]. split; [reflexivity|]. split; [reflexivity|].
  change (never (fun ev => is_upload_call ev || is_notify_call ev
                           || is_save_call ev || is_record_write ev)
            (t1 ++ t2)).
  apply never_app. split.
  - pose proof (@credentials_never W (os_path_basename W (pdf_path qp))
                  (fun ev => is_upload_call ev || is_notify_call ev
                             || is_save_call ev || is_record_write ev)) as Hn.
    rewrite Ec in Hn. apply Hn; reflexivity.
  - destruct (upload_to_cos_cases W c (pdf_path qp))
      as [[Hcalls _]|(b & p & _ & [Hres|(d & _ & Hres)])];
      rewrite Eu in *; cbn [fst snd] in *; try discriminate Hres.
    clear -Hcalls. unfold never. induction t2 as [|ev t2 IH]; [reflexivity|].
    cbn in Hcalls |- *. destruct ev; cbn in Hcalls; try discriminate Hcalls.
    cbn. apply IH. exact Hcalls.
Qed.

(** The credential endpoint grants a structure without [bucket]. *)
Lemma incomplete_credentials_abort_the_run_witness :
  snd (upload_pdf Edge.world_without_bucket (pdf_path Scenario.paper))
  = Raise (KeyError (lit "bucket"))
  /\ snd (save_new_paper Edge.world_without_bucket Scenario.paper)
     = Raise (KeyError (lit "bucket"))
  /\ never (fun ev => is_upload_call ev || is_notify_call ev || is_save_call ev
                      || is_record_write ev)
       (fst (save_new_paper Edge.world_without_bucket Scenario.paper)).
Proof.
  apply (@incomplete_credentials_abort_the_run Edge.world_without_bucket
           Scenario.paper Scenario.fragment Edge.credential_without_bucket);
    reflexivity.
Defined.

(** ** What follows the paper-creation request *)

(** How [report_result] can end: with [None] for an answer that does not
    report success, with [AttributeError] for an answer without [get], and
    otherwise as the persistence branch ends: with the identifier once the
    record is written, or with the exception of the first step that
    failed. *)
Lemma report_result_cases (W : World) (qp : question_page) (result : pyobj) :
  (snd (report_result W qp result) = Return PyNone
   /\ calls (fst (report_result W qp result)) = []
   /\ (truthy result = false
       \/ exists d, result = PyDict d
                    /\ truthy (dict_get_default (lit "success") d) = false))
  \/ (snd (report_result W qp result) = Raise AttributeError
      /\ calls (fst (report_result W qp result)) = []
      /\ truthy result = true /\ forall d, result <> PyDict d)
  \/ exists d,
       result = PyDict d
       /\ truthy (dict_get_default (lit "success") d) = true
       /\ ((path_mkdir W OUTPUT_DIR = None
            /\ open_wb W OUTPUT_DIR (name qp ++ lit ".toml") = None
            /\ file_write W OUTPUT_DIR (name qp ++ lit ".toml")
                 (page_data_dict
                    (set_page_id qp (dict_get_default (lit "data") d))) = None
            /\ truthy (dict_get_default (lit "data") d) = true
            /\ toml_serializable (dict_get_default (lit "data") d) = true
            /\ snd (report_result W qp result)
               = Return (dict_get_default (lit "data") d)
            /\ calls (fst (report_result W qp result))
               = [EvSetPageId (dict_get_default (lit "data") d);
                  EvMkdir OUTPUT_DIR;
                  EvOpenWb OUTPUT_DIR (name qp ++ lit ".toml");
                  EvTomlDump OUTPUT_DIR (name qp ++ lit ".toml")
                    (page_data_dict
                       (set_page_id qp (dict_get_default (lit "data") d)))])
           \/ (exists e,
                 path_mkdir W OUTPUT_DIR = Some e
                 /\ snd (report_result W qp result) = Raise e
                 /\ calls (fst (report_result W qp result))
                    = [EvSetPageId (dict_get_default (lit "data") d);
                       EvMkdir OUTPUT_DIR])
           \/ (exists e,
                 path_mkdir W OUTPUT_DIR = None
                 /\ snd (report_result W qp result) = Raise e
                 /\ calls (fst (report_result W qp result))
                    = [EvSetPageId (dict_get_default (lit "data") d);
                       EvMkdir OUTPUT_DIR;
                       EvOpenWb OUTPUT_DIR (name qp ++ lit ".toml")]
                 /\ (open_wb W OUTPUT_DIR (name qp ++ lit ".toml") = Some e
                     \/ (open_wb W OUTPUT_DIR (name qp ++ lit ".toml") = None
                         /\ toml_serializable
                              (page_data_dict
                                 (set_page_id qp (dict_get_default (lit "data") d)))
                            = false
                         /\ e = TypeError)
                     \/ (open_wb W OUTPUT_DIR (name qp ++ lit ".toml") = None
                         /\ toml_serializable
                              (page_data_dict
                                 (set_page_id qp (dict_get_default (lit "data") d)))
                            = true
                         /\ file_write W OUTPUT_DIR (name qp ++ lit ".toml")
                              (page_data_dict
                                 (set_page_id qp (dict_get_default (lit "data") d)))
                            = Some e)))).
Proof.
  unfold report_result, persist_paper, print, emit, bind, py_get, ret, raise,
    of_status.
  destruct (truthy result) eqn:Ht.
  2:{ left. cbn. rewrite Ht. cbn. auto. }
  destruct result as [| b | z | f | s | l | d];
    try (right; left; cbn; repeat split; congruence).
  cbn [fst snd List.app].
  destruct (truthy (dict_get_default (lit "success") d)) eqn:Hs.
  2:{ left. cbn. split; [reflexivity|]. split; [reflexivity|].
      right. eauto. }
  right. right. exists d. split; [reflexivity|]. split; [exact Hs|].
  cbn [name set_page_id].
  destruct (path_mkdir W OUTPUT_DIR) as [e|] eqn:Hmk.
  { right. left. exists e. repeat split. }
  destruct (open_wb W OUTPUT_DIR (name qp ++ lit ".toml")) as [e|] eqn:Hopen.
  { right. right. exists e. split; [reflexivity|]. split; [reflexivity|].
    split; [reflexivity|]. left. reflexivity. }
  destruct (toml_serializable
              (page_data_dict (set_page_id qp (dict_get_default (lit "data") d))))
    eqn:Hser.
  2:{ right. right. exists TypeError. split; [reflexivity|].
      split; [reflexivity|]. split; [reflexivity|]. right. left. auto. }
  destruct (file_write W OUTPUT_DIR (name qp ++ lit ".toml")
              (page_data_dict (set_page_id qp (dict_get_default (lit "data") d))))
    as [e|] eqn:Hwrite.
  { right. right. exists e. split; [reflexivity|]. split; [reflexivity|].
    split; [reflexivity|]. right. right. auto. }
  left. split; [reflexivity|]. split; [reflexivity|]. split; [reflexivity|].
  destruct (truthy (dict_get_default (lit "data") d)) eqn:Hd.
  2:{ rewrite (page_data_dict_falsy_id qp _ Hd) in Hser. discriminate Hser. }
  split; [reflexivity|]. split.
  { revert Hser. unfold page_data_dict. cbn [page_id set_page_id].
    rewrite Hd. cbn -[map].
    destruct (toml_serializable (dict_get_default (lit "data") d));
      [reflexivity|discriminate]. }
  split; reflexivity.
Qed.

(** ** Runs of [save_new_paper], from the first call to the last *)

Lemma calls_never_print (t : trace) :
  never (fun ev => negb (is_print ev)) t -> calls t = [].
Proof.
  unfold never, calls. induction t as [|ev t IH]; [reflexivity|].
  cbn. destruct (is_print ev); cbn; [exact IH|discriminate].
Qed.

Lemma assemble_payload_calls (frag : str) (pp : option str) :
  calls (fst (assemble_payload frag pp)) = [].
Proof.
  apply calls_never_print. apply assemble_payload_never. reflexivity.
Qed.

Lemma upload_pdf_never_record (W : World) (path : str) :
  never is_record_write (fst (upload_pdf W path)).
Proof. apply upload_pdf_never; reflexivity. Qed.

Lemma never_calls (p : event -> bool) (t : trace) :
  (forall m, p (EvPrint m) = false) ->
  never p (calls t) -> never p t.
Proof.
  intros Hp. unfold never, calls. induction t as [|ev t IH]; [reflexivity|].
  cbn. destruct ev; cbn; try (intros H; apply andb_true_iff in H as [-> H];
                              cbn; auto).
  intros H. rewrite Hp. cbn. auto.
Qed.

(** How [save_new_paper] can run. *)
Lemma save_new_paper_cases (W : World) (qp : question_page) :
  (exists e,
     ask_llm_for_playload W (llm_prompt qp) = Raise e
     /\ save_new_paper W qp = ([EvAskLlm (llm_prompt qp)], Raise e))
  \/ (exists frag tu e,
        ask_llm_for_playload W (llm_prompt qp) = Return frag
        /\ upload_pdf W (pdf_path qp) = (tu, Raise e)
        /\ save_new_paper W qp = (EvAskLlm (llm_prompt qp) :: tu, Raise e))
  \/ (exists frag tu pp ta e,
        ask_llm_for_playload W (llm_prompt qp) = Return frag
        /\ upload_pdf W (pdf_path qp) = (tu, Return pp)
        /\ assemble_payload frag pp = (ta, Raise e)
        /\ save_new_paper W qp
           = (EvAskLlm (llm_prompt qp) :: tu ++ ta, Raise e))
  \/ (exists frag tu pp ta body,
        ask_llm_for_playload W (llm_prompt qp) = Return frag
        /\ upload_pdf W (pdf_path qp) = (tu, Return pp)
        /\ assemble_payload frag pp = (ta, Return body)
        /\ save_new_paper W qp
           = (EvAskLlm (llm_prompt qp) :: tu ++ ta
                ++ EvPrint (MsgSending body) :: EvEvaluate (SaveRequest body)
                :: match page_evaluate W (SaveRequest body) with
                   | Return result => fst (report_result W qp result)
                   | Raise _ => []
                   end,
              match page_evaluate W (SaveRequest body) with
              | Return result => snd (report_result W qp result)
              | Raise e => Raise e
              end)).
Proof.
  destruct (ask_llm_for_playload W (llm_prompt qp)) as [frag|e] eqn:Hllm.
  2:{ left. exists e. split; [reflexivity|].
      now apply save_new_paper_llm_raises. }
  right.
  destruct (upload_pdf W (pdf_path qp)) as [tu [pp|e]] eqn:Hup.
  2:{ left. exists frag, tu, e. split; [reflexivity|]. split; [first [reflexivity|assumption]|].
      exact (@save_new_paper_upload_raises W qp frag tu e Hllm Hup). }
  right.
  destruct (assemble_payload frag pp) as [ta [body|e]] eqn:Ha.
  2:{ left. exists frag, tu, pp, ta, e. repeat (split; [first [reflexivity|assumption]|]).
      exact (@save_new_paper_assemble_raises W qp frag tu ta pp e Hllm Hup Ha). }
  right. exists frag, tu, pp, ta, body. repeat (split; [first [reflexivity|assumption]|]).
  exact (@save_new_paper_submits W qp frag tu ta pp body Hllm Hup Ha).
Qed.

(** A run that issued the paper-creation request: what came before it and
    how it goes on. *)
Lemma save_new_paper_submitted (W : World) (qp : question_page) (body : str) :
  In (EvEvaluate (SaveRequest body)) (fst (save_new_paper W qp)) ->
  exists pre,
    fst (save_new_paper W qp)
    = pre ++ EvEvaluate (SaveRequest body)
      :: match page_evaluate W (SaveRequest body) with
         | Return result => fst (report_result W qp result)
         | Raise _ => []
         end
    /\ calls pre
       = EvAskLlm (llm_prompt qp) :: calls (fst (upload_pdf W (pdf_path qp)))
    /\ snd (upload_pdf W (pdf_path qp)) <> Raise AttributeError
    /\ snd (save_new_paper W qp)
       = match page_evaluate W (SaveRequest body) with
         | Return result => snd (report_result W qp result)
         | Raise e => Raise e
         end
    /\ exists frag pp ta,
         ask_llm_for_playload W (llm_prompt qp) = Return frag
         /\ snd (upload_pdf W (pdf_path qp)) = Return pp
         /\ assemble_payload frag pp = (ta, Return body).
Proof.
  intros Hin.
  assert (Hnot : forall tu ta,
             upload_pdf W (pdf_path qp) = (tu, snd (upload_pdf W (pdf_path qp))) ->
             calls ta = [] ->
             ~ In (EvEvaluate (SaveRequest body))
                  (EvAskLlm (llm_prompt qp) :: tu ++ ta)).
  { intros tu ta Hup Hta [H|H]; [discriminate H|].
    apply in_app_iff in H as [H|H].
    - pose proof (upload_pdf_never_save W (pdf_path qp)) as Hn.
      rewrite Hup in Hn. cbn [fst] in Hn.
      pose proof (@never_In _ _ _ Hn H) as Hf. discriminate Hf.
    - assert (Hc : In (EvEvaluate (SaveRequest body)) (calls ta))
        by (apply calls_In; split; [exact H|reflexivity]).
      rewrite Hta in Hc. destruct Hc. }
  destruct (save_new_paper_cases W qp)
    as [(e & _ & Hrun)
       |[(frag & tu & e & _ & Hup & Hrun)
        |[(frag & tu & pp & ta & e & _ & Hup & Ha & Hrun)
         |(frag & tu & pp & ta & body' & Hllm & Hup & Ha & Hrun)]]];
    rewrite Hrun in Hin |- *; cbn [fst snd] in Hin |- *.
  - destruct Hin as [H|[]]. discriminate H.
  - exfalso. apply (Hnot tu []); [now rewrite Hup|reflexivity|].
    now rewrite List.app_nil_r.
  - exfalso. apply (Hnot tu ta); [now rewrite Hup|  |exact Hin].
    pose proof (assemble_payload_calls frag pp) as Hc. now rewrite Ha in Hc.
  - assert (Hta : calls ta = []).
    { pose proof (assemble_payload_calls frag pp) as Hc. now rewrite Ha in Hc. }
    assert (Hbody : body' = body).
    { destruct Hin as [H|H]; [discriminate H|].
      apply in_app_iff in H as [H|H].
      { exfalso. apply (Hnot tu []); [now rewrite Hup|reflexivity|].
        rewrite List.app_nil_r. right. exact H. }
      apply in_app_iff in H as [H|H].
      { exfalso. apply (Hnot tu ta); [now rewrite Hup|exact Hta|].
        right. apply in_app_iff. right. exact H. }
      destruct H as [H|[H|H]]; [discriminate H|now injection H|].
      destruct (page_evaluate W (SaveRequest body')) as [result|e];
        [|destruct H].
      pose proof (@never_In _ _ _ (report_result_never_save W qp result) H) as Hf.
      discriminate Hf. }
    subst body'.
    exists (EvAskLlm (llm_prompt qp) :: tu ++ ta ++ [EvPrint (MsgSending body)]).
    split.
    { cbn [List.app]. f_equal. rewrite <- !List.app_assoc. reflexivity. }
    split.
    { cbn [calls filter is_print negb]. fold (calls (tu ++ ta ++ [EvPrint (MsgSending body)])).
      rewrite !calls_app, Hta, Hup. cbn. now rewrite List.app_nil_r. }
    split; [rewrite Hup; discriminate|]. split; [reflexivity|].
    exists frag, pp, ta. rewrite Hup. auto.
Qed.

Lemma never_record_before_report (W : World) (qp : question_page)
  (frag : str) (tu ta : trace) (pp : option str) (o : outcome (option str))
  (oa : outcome str) (body : str) (rest : trace) :
  upload_pdf W (pdf_path qp) = (tu, o) ->
  assemble_payload frag pp = (ta, oa) ->
  never is_record_write rest ->
  never is_record_write
    (EvAskLlm (llm_prompt qp) :: tu ++ ta
     ++ EvPrint (MsgSending body) :: EvEvaluate (SaveRequest body) :: rest).
Proof.
  intros Hup Ha Hrest.
  change (never is_record_write
            (tu ++ ta ++ EvPrint (MsgSending body)
             :: EvEvaluate (SaveRequest body) :: rest)).
  apply never_app. split.
  { pose proof (upload_pdf_never_record W (pdf_path qp)) as Hn.
    now rewrite Hup in Hn. }
  apply never_app. split.
  { pose proof (@assemble_payload_never frag pp is_record_write
                  (fun _ => eq_refl)) as Hn.
    now rewrite Ha in Hn. }
  exact Hrest.
Qed.

Lemma calls_nil_never_record (t : trace) :
  calls t = [] -> never is_record_write t.
Proof.
  intros H. apply never_calls; [reflexivity|]. now rewrite H.
Qed.

(** What [save_new_paper] returns tells what it wrote: a run that returns
    [None] has written no record, and a run that returns anything else
    returns the [data] of a paper-creation answer that reported success, a
    value that is true in a test, after writing the record whose [page_id]
    is that value. *)
Theorem returned_identifier_is_recorded
  (W : World) (qp : question_page) (tr : trace) (v : pyobj) :
  save_new_paper W qp = (tr, Return v) ->
  (v = PyNone /\ never is_record_write tr)
  \/ (truthy v = true
      /\ In (EvTomlDump OUTPUT_DIR (name qp ++ lit ".toml")
               (page_data_dict (set_page_id qp v))) tr
      /\ exists body d,
           In (EvEvaluate (SaveRequest body)) tr
           /\ page_evaluate W (SaveRequest body) = Return (PyDict d)
           /\ truthy (dict_get_default (lit "success") d) = true
           /\ dict_get (lit "data") d = Some v).
Proof.
  intros H.
  destruct (save_new_paper_cases W qp)
    as [(e & _ & Hrun)
       |[(frag & tu & e & _ & Hup & Hrun)
        |[(frag & tu & pp & ta & e & _ & Hup & Ha & Hrun)
         |(frag & tu & pp & ta & body & _ & Hup & Ha & Hrun)]]];
    rewrite Hrun in H; try discriminate H.
  injection H as Htr Hv.
  destruct (page_evaluate W (SaveRequest body)) as [result|e] eqn:Hr;
    [|discriminate Hv].
  destruct (report_result_cases W qp result)
    as [(Hs & Hc & _)
       |[(Hs & _)
        |(d & -> & Hsucc
          & [(_ & _ & _ & Ht & Hser & Hs & Hc)
            |[(e & _ & Hs & _)|(e & _ & Hs & _)]])]];
    rewrite Hs in Hv; try discriminate Hv; injection Hv as <-.
  - left. split; [reflexivity|]. subst tr.
    eapply never_record_before_report; [exact Hup|exact Ha|].
    now apply calls_nil_never_record.
  - right. split; [exact Ht|]. subst tr. split; [|exists body, d; split].
    + right. apply in_app_iff. right. apply in_app_iff. right.
      right. right.
      apply (calls_In _ (fst (report_result W qp (PyDict d)))).
      rewrite Hc. cbn. auto.
    + right. apply in_app_iff. right. apply in_app_iff. right.
      right. left. reflexivity.
    + split; [exact Hr|]. split; [exact Hsucc|].
      unfold dict_get_default in *.
      destruct (dict_get (lit "data") d); [reflexivity|discriminate Ht].
Qed.

(** The end-to-end scenario returns the identifier [PID-123]. *)
Lemma returned_identifier_is_recorded_witness :
  (PyStr (lit "PID-123") = PyNone
   /\ never is_record_write (fst (save_new_paper Scenario.world_ok Scenario.paper)))
  \/ (truthy (PyStr (lit "PID-123")) = true
      /\ In (EvTomlDump OUTPUT_DIR (name Scenario.paper ++ lit ".toml")
               (page_data_dict (set_page_id Scenario.paper (PyStr (lit "PID-123")))))
            (fst (save_new_paper Scenario.world_ok Scenario.paper))
      /\ exists body d,
           In (EvEvaluate (SaveRequest body))
              (fst (save_new_paper Scenario.world_ok Scenario.paper))
           /\ page_evaluate Scenario.world_ok (SaveRequest body)
              = Return (PyDict d)
           /\ truthy (dict_get_default (lit "success") d) = true
           /\ dict_get (lit "data") d = Some (PyStr (lit "PID-123"))).
Proof.
  apply (@returned_identifier_is_recorded Scenario.world_ok Scenario.paper).
  vm_compute. reflexivity.
Defined.

(** The calls of a run of [save_new_paper] come in one order: the language
    model, the calls of [upload_pdf], one paper-creation request, then the
    assignment of [page_id], the creation of the output directory, the
    opening of the record file and the dump; a run makes a prefix of this
    sequence, each call at most once. *)
Theorem save_new_paper_calls_in_order (W : World) (qp : question_page) :
  exists body paper_id rest,
    calls (fst (save_new_paper W qp)) ++ rest
    = EvAskLlm (llm_prompt qp)
      :: calls (fst (upload_pdf W (pdf_path qp)))
      ++ [EvEvaluate (SaveRequest body);
          EvSetPageId paper_id;
          EvMkdir OUTPUT_DIR;
          EvOpenWb OUTPUT_DIR (name qp ++ lit ".toml");
          EvTomlDump OUTPUT_DIR (name qp ++ lit ".toml")
            (page_data_dict (set_page_id qp paper_id))].
Proof.
  destruct (save_new_paper_cases W qp)
    as [(e & _ & Hrun)
       |[(frag & tu & e & _ & Hup & Hrun)
        |[(frag & tu & pp & ta & e & _ & Hup & Ha & Hrun)
         |(frag & tu & pp & ta & body & _ & Hup & Ha & Hrun)]]];
    rewrite Hrun; cbn [fst].
  - exists [], PyNone. eexists. reflexivity.
  - exists [], PyNone. eexists. rewrite Hup. reflexivity.
  - assert (Hta : calls ta = []).
    { pose proof (assemble_payload_calls frag pp) as Hc. now rewrite Ha in Hc. }
    assert (Hcalls : calls (EvAskLlm (llm_prompt qp) :: tu ++ ta)
                     = EvAskLlm (llm_prompt qp) :: calls tu).
    { change (calls (EvAskLlm (llm_prompt qp) :: tu ++ ta))
        with (EvAskLlm (llm_prompt qp) :: calls (tu ++ ta)).
      now rewrite calls_app, Hta, List.app_nil_r. }
    rewrite Hcalls, Hup. exists [], PyNone. eexists. reflexivity.
  - assert (Hta : calls ta = []).
    { pose proof (assemble_payload_calls frag pp) as Hc. now rewrite Ha in Hc. }
    exists body. rewrite Hup. cbn [fst].
    assert (Hshape : forall rest',
              calls (EvAskLlm (llm_prompt qp) :: tu ++ ta
                     ++ EvPrint (MsgSending body)
                     :: EvEvaluate (SaveRequest body) :: rest')
              = EvAskLlm (llm_prompt qp) :: calls tu
                ++ EvEvaluate (SaveRequest body) :: calls rest').
    { intros rest'.
      change (EvAskLlm (llm_prompt qp) :: calls
                (tu ++ ta ++ [EvPrint (MsgSending body)]
                 ++ EvEvaluate (SaveRequest body) :: rest')
              = EvAskLlm (llm_prompt qp) :: calls tu
                ++ EvEvaluate (SaveRequest body) :: calls rest').
      rewrite !calls_app, Hta. reflexivity. }
    rewrite Hshape.
    destruct (page_evaluate W (SaveRequest body)) as [result|e].
    2:{ exists PyNone. eexists.
        rewrite <- List.app_comm_cons, <- List.app_assoc. reflexivity. }
    destruct (report_result_cases W qp result)
      as [(_ & Hc & _)
         |[(_ & Hc & _)
          |(d & -> & _
            & [(_ & _ & _ & _ & _ & _ & Hc)
              |[(e & _ & _ & Hc)|(e & _ & _ & Hc & _)]])]]; rewrite Hc.
    + exists PyNone. eexists.
      rewrite <- List.app_comm_cons, <- List.app_assoc. reflexivity.
    + exists PyNone. eexists.
      rewrite <- List.app_comm_cons, <- List.app_assoc. reflexivity.
    + exists (dict_get_default (lit "data") d), [].
      now rewrite List.app_nil_r.
    + exists (dict_get_default (lit "data") d).
      exists [EvOpenWb OUTPUT_DIR (name qp ++ lit ".toml");
              EvTomlDump OUTPUT_DIR (name qp ++ lit ".toml")
                (page_data_dict
                   (set_page_id qp (dict_get_default (lit "data") d)))].
      rewrite <- List.app_comm_cons, <- List.app_assoc. reflexivity.
    + exists (dict_get_default (lit "data") d).
      exists [EvTomlDump OUTPUT_DIR (name qp ++ lit ".toml")
                (page_data_dict
                   (set_page_id qp (dict_get_default (lit "data") d)))].
      rewrite <- List.app_comm_cons, <- List.app_assoc. reflexivity.
Qed.

Lemma never_of_calls (p : event -> bool) (t : trace) :
  never p t -> never p (calls t).
Proof.
  unfold never, calls. induction t as [|ev t IH]; [reflexivity|].
  cbn. intros H. apply andb_true_iff in H as [Hev H].
  destruct (is_print ev); cbn; [auto|]. rewrite Hev. auto.
Qed.

Lemma upload_pdf_never_persistence (W : World) (path : str) :
  never is_persistence_call (fst (upload_pdf W path)).
Proof. apply upload_pdf_never; reflexivity. Qed.

(** Nothing of the persistence branch happens before the answer to the
    paper-creation request is in. *)
Lemma never_persistence_before_submission (W : World) (qp : question_page)
  (pre : trace) :
  calls pre
  = EvAskLlm (llm_prompt qp) :: calls (fst (upload_pdf W (pdf_path qp))) ->
  never is_persistence_call (pre ++ [EvEvaluate (SaveRequest [])]).
Proof.
  intros Hpre. apply never_app. split; [|reflexivity].
  apply never_calls; [reflexivity|]. rewrite Hpre.
  change (never is_persistence_call
            (calls (fst (upload_pdf W (pdf_path qp))))).
  apply never_of_calls, upload_pdf_never_persistence.
Qed.

Lemma never_persistence_submitted (W : World) (qp : question_page)
  (pre rest : trace) (body : str) :
  calls pre
  = EvAskLlm (llm_prompt qp) :: calls (fst (upload_pdf W (pdf_path qp))) ->
  calls rest = [] ->
  never is_persistence_call (pre ++ EvEvaluate (SaveRequest body) :: rest).
Proof.
  intros Hpre Hrest.
  apply never_persistence_before_submission in Hpre.
  apply never_app in Hpre as [Hpre _].
  apply never_app. split; [exact Hpre|].
  change (never is_persistence_call rest).
  apply never_calls; [reflexivity|]. now rewrite Hrest.
Qed.

(** The paper-creation request is not guarded: an exception raised by
    [page.evaluate] leaves [save_new_paper], and so does the
    [AttributeError] of an answer that is true in a test but is not a
    mapping; in both cases nothing of the persistence branch has run. *)
Theorem paper_creation_failure_is_raised
  (W : World) (qp : question_page) (body : str) :
  In (EvEvaluate (SaveRequest body)) (fst (save_new_paper W qp)) ->
  (forall e,
     page_evaluate W (SaveRequest body) = Raise e ->
     snd (save_new_paper W qp) = Raise e
     /\ never is_persistence_call (fst (save_new_paper W qp)))
  /\ (forall result,
        page_evaluate W (SaveRequest body) = Return result ->
        truthy result = true ->
        (forall d, result <> PyDict d) ->
        snd (save_new_paper W qp) = Raise AttributeError
        /\ never is_persistence_call (fst (save_new_paper W qp))).
Proof.
  intros Hin.
  destruct (save_new_paper_submitted _ _ _ Hin) as (pre & Htr & Hpre & _ & Hres & _).
  rewrite Htr, Hres. split.
  - intros e ->. split; [reflexivity|].
    apply (@never_persistence_submitted W qp); [exact Hpre|first [reflexivity|assumption]].
  - intros result -> Ht Hnd.
    destruct (report_result_cases W qp result)
      as [(_ & _ & [Hf|(d & -> & _)])
         |[(Hs & Hc & _)
          |(d & -> & _)]].
    + congruence.
    + now elim (Hnd d).
    + split; [exact Hs|]. apply (@never_persistence_submitted W qp); [exact Hpre|first [reflexivity|assumption]].
    + now elim (Hnd d).
Qed.

(** An answer the run cannot use is reported and nothing is persisted:
    when the paper-creation answer is false in a test, or is a mapping
    whose [success] is not true, [save_new_paper] returns [None] and
    nothing of the persistence branch has run. *)
Theorem refused_paper_returns_absent
  (W : World) (qp : question_page) (body : str) (result : pyobj) :
  In (EvEvaluate (SaveRequest body)) (fst (save_new_paper W qp)) ->
  page_evaluate W (SaveRequest body) = Return result ->
  truthy result = false
  \/ (exists d, result = PyDict d
                /\ truthy (dict_get_default (lit "success") d) = false) ->
  snd (save_new_paper W qp) = Return PyNone
  /\ never is_persistence_call (fst (save_new_paper W qp)).
Proof.
  intros Hin Hr Hcase.
  destruct (save_new_paper_submitted _ _ _ Hin) as (pre & Htr & Hpre & _ & Hres & _).
  rewrite Htr, Hres, Hr.
  destruct (report_result_cases W qp result)
    as [(Hs & Hc & _)
       |[(_ & _ & Ht & Hnd)
        |(d & -> & Hsucc & _)]].
  - split; [exact Hs|]. apply (@never_persistence_submitted W qp); [exact Hpre|first [reflexivity|assumption]].
  - destruct Hcase as [Hf|(d & -> & _)]; [congruence|now elim (Hnd d)].
  - destruct Hcase as [Hf|(d' & Hd & Hsucc')].
    + destruct d; [|discriminate Hf]. discriminate Hsucc.
    + injection Hd as <-. congruence.
Qed.

(** An identifier the record cannot hold: when the paper-creation answer
    reports success and its [data] is false in a test (absent, [None],
    [0], an empty string) or holds a [None], and the record file can be
    created and opened, [save_new_paper] has set [page_id] and opened the
    file, [tomli_w.dump] raises [TypeError], the run raises it, and the
    dump of the record was not completed. *)
Theorem unusable_identifier_raises_type_error
  (W : World) (qp : question_page) (body : str) (d : dict) :
  In (EvEvaluate (SaveRequest body)) (fst (save_new_paper W qp)) ->
  page_evaluate W (SaveRequest body) = Return (PyDict d) ->
  truthy (dict_get_default (lit "success") d) = true ->
  truthy (dict_get_default (lit "data") d) = false
  \/ toml_serializable (dict_get_default (lit "data") d) = false ->
  path_mkdir W OUTPUT_DIR = None ->
  open_wb W OUTPUT_DIR (name qp ++ lit ".toml") = None ->
  snd (save_new_paper W qp) = Raise TypeError
  /\ In (EvSetPageId (dict_get_default (lit "data") d))
        (fst (save_new_paper W qp))
  /\ In (EvOpenWb OUTPUT_DIR (name qp ++ lit ".toml"))
        (fst (save_new_paper W qp))
  /\ never is_record_write (fst (save_new_paper W qp)).
Proof.
  intros Hin Hr Hsucc Hbad Hmk Hopen.
  destruct (save_new_paper_submitted _ _ _ Hin) as (pre & Htr & Hpre & _ & Hres & _).
  rewrite Htr, Hres, Hr.
  assert (Hpre' : never is_record_write pre).
  { apply never_calls; [reflexivity|]. rewrite Hpre.
    change (never is_record_write (calls (fst (upload_pdf W (pdf_path qp))))).
    apply never_of_calls, upload_pdf_never_record. }
  destruct (report_result_cases W qp (PyDict d))
    as [(_ & _ & [Hf|(d' & Hd & Hsucc')])
       |[(_ & _ & _ & Hnd)
        |(d' & Hd & _
          & [(_ & _ & _ & Ht & Hser & _)
            |[(e & He & _)
             |(e & _ & Hs & Hc
               & [He|[(_ & Hser & ->)|(_ & Hser & _)]])]])]].
  - destruct d; [discriminate Hsucc|discriminate Hf].
  - injection Hd as <-. congruence.
  - now elim (Hnd d).
  - injection Hd as <-. destruct Hbad; congruence.
  - congruence.
  - injection Hd as <-. congruence.
  - injection Hd as <-. split; [exact Hs|].
    assert (Hin' : forall ev, is_print ev = false ->
                     In ev (calls (fst (report_result W qp (PyDict d)))) ->
                     In ev (pre ++ EvEvaluate (SaveRequest body)
                            :: fst (report_result W qp (PyDict d)))).
    { intros ev _ H. apply in_app_iff. right. right.
      now apply (calls_In ev (fst (report_result W qp (PyDict d)))). }
    split; [apply Hin'; [reflexivity|rewrite Hc; cbn; auto]|].
    split; [apply Hin'; [reflexivity|rewrite Hc; cbn; auto]|].
    apply never_app. split; [exact Hpre'|].
    change (never is_record_write (fst (report_result W qp (PyDict d)))).
    apply never_calls; [reflexivity|]. rewrite Hc. reflexivity.
  - injection Hd as <-. exfalso.
    destruct Hbad as [Hbad|Hbad].
    + rewrite (page_data_dict_falsy_id qp _ Hbad) in Hser. discriminate Hser.
    + revert Hser. unfold page_data_dict. cbn [page_id set_page_id].
      destruct (truthy (dict_get_default (lit "data") d)); [|discriminate].
      cbn -[map]. rewrite Hbad. discriminate.
Qed.

(** The page raises while the paper is posted. *)
Lemma paper_creation_failure_is_raised_witness :
  snd (save_new_paper Edge.world_save_raises Scenario.paper)
  = Raise (ExternalError 7)
  /\ never is_persistence_call
       (fst (save_new_paper Edge.world_save_raises Scenario.paper)).
Proof.
  refine (proj1 (@paper_creation_failure_is_raised Edge.world_save_raises
                   Scenario.paper Edge.posted_body _) (ExternalError 7) eq_refl).
  vm_compute. repeat (first [left; reflexivity | right]).
Defined.

(** The endpoint answers that the paper was not created. *)
Lemma refused_paper_returns_absent_witness :
  snd (save_new_paper Edge.world_paper_refused Scenario.paper) = Return PyNone
  /\ never is_persistence_call
       (fst (save_new_paper Edge.world_paper_refused Scenario.paper)).
Proof.
  apply (@refused_paper_returns_absent Edge.world_paper_refused Scenario.paper
           Edge.posted_body (PyDict [(lit "success", PyBool false)])).
  - vm_compute. repeat (first [left; reflexivity | right]).
  - reflexivity.
  - right. eexists. split; reflexivity.
Defined.

(** The endpoint creates the paper and answers with the identifier [0]. *)
Lemma unusable_identifier_raises_type_error_witness :
  snd (save_new_paper Scenario.world_zero Scenario.paper) = Raise TypeError
  /\ In (EvSetPageId (PyInt 0))
        (fst (save_new_paper Scenario.world_zero Scenario.paper))
  /\ In (EvOpenWb OUTPUT_DIR (lit "Test2024.toml"))
        (fst (save_new_paper Scenario.world_zero Scenario.paper))
  /\ never is_record_write
       (fst (save_new_paper Scenario.world_zero Scenario.paper)).
Proof.
  apply (@unusable_identifier_raises_type_error Scenario.world_zero
           Scenario.paper Edge.posted_body
           [(lit "success", PyBool true); (lit "data", PyInt 0)]).
  - vm_compute. repeat (first [left; reflexivity | right]).
  - reflexivity.
  - reflexivity.
  - left. reflexivity.
  - reflexivity.
  - reflexivity.
Defined.

(** A record that cannot be written costs the caller the identifier: when
    the paper-creation answer reports success and the output directory
    cannot be created, or the record file cannot be opened, or writing it
    fails, [save_new_paper] raises that exception after assigning
    [page_id]; the identifier of the paper just created is not returned
    and the dump of the record is not completed. *)
Theorem persistence_failure_is_raised
  (W : World) (qp : question_page) (body : str) (d : dict) (e : exn) :
  In (EvEvaluate (SaveRequest body)) (fst (save_new_paper W qp)) ->
  page_evaluate W (SaveRequest body) = Return (PyDict d) ->
  truthy (dict_get_default (lit "success") d) = true ->
  path_mkdir W OUTPUT_DIR = Some e
  \/ (path_mkdir W OUTPUT_DIR = None
      /\ open_wb W OUTPUT_DIR (name qp ++ lit ".toml") = Some e)
  \/ (path_mkdir W OUTPUT_DIR = None
      /\ open_wb W OUTPUT_DIR (name qp ++ lit ".toml") = None
      /\ toml_serializable
           (page_data_dict (set_page_id qp (dict_get_default (lit "data") d)))
         = true
      /\ file_write W OUTPUT_DIR (name qp ++ lit ".toml")
           (page_data_dict (set_page_id qp (dict_get_default (lit "data") d)))
         = Some e) ->
  snd (save_new_paper W qp) = Raise e
  /\ In (EvSetPageId (dict_get_default (lit "data") d))
        (fst (save_new_paper W qp))
  /\ never is_record_write (fst (save_new_paper W qp)).
Proof.
  intros Hin Hr Hsucc Hfail.
  destruct (save_new_paper_submitted _ _ _ Hin) as (pre & Htr & Hpre & _ & Hres & _).
  rewrite Htr, Hres, Hr.
  assert (Hpre' : never is_record_write pre).
  { apply never_calls; [reflexivity|]. rewrite Hpre.
    change (never is_record_write (calls (fst (upload_pdf W (pdf_path qp))))).
    apply never_of_calls, upload_pdf_never_record. }
  assert (Hend : forall c,
            calls (fst (report_result W qp (PyDict d))) = c ->
            In (EvSetPageId (dict_get_default (lit "data") d)) c ->
            never is_record_write c ->
            In (EvSetPageId (dict_get_default (lit "data") d))
               (pre ++ EvEvaluate (SaveRequest body)
                :: fst (report_result W qp (PyDict d)))
            /\ never is_record_write
                 (pre ++ EvEvaluate (SaveRequest body)
                  :: fst (report_result W qp (PyDict d)))).
  { intros c Hc Hset Hnone. split.
    - apply in_app_iff. right. right.
      apply (calls_In _ (fst (report_result W qp (PyDict d)))).
      now rewrite Hc.
    - apply never_app. split; [exact Hpre'|].
      change (never is_record_write (fst (report_result W qp (PyDict d)))).
      apply never_calls; [reflexivity|]. now rewrite Hc. }
  destruct (report_result_cases W qp (PyDict d))
    as [(_ & _ & [Hf|(d' & Hd & Hsucc')])
       |[(_ & _ & _ & Hnd)
        |(d' & Hd & _
          & [(Hmk & Hopen & Hwrite & _)
            |[(e' & Hmk & Hs & Hc)
             |(e' & Hmk & Hs & Hc
               & [Hopen|[(Hopen & Hser & ->)|(Hopen & Hser & Hwrite)]])]])]];
    try (injection Hd as <-).
  - destruct d; [discriminate Hsucc|discriminate Hf].
  - congruence.
  - now elim (Hnd d).
  - destruct Hfail as [H|[(_ & H)|(_ & _ & _ & H)]]; congruence.
  - assert (e' = e)
      by (destruct Hfail as [H|[(H & _)|(H & _)]]; congruence).
    subst e'. split; [exact Hs|]. apply (Hend _ Hc); [cbn; auto|reflexivity].
  - assert (e' = e)
      by (destruct Hfail as [H|[(_ & H)|(_ & H & _)]]; congruence).
    subst e'. split; [exact Hs|]. apply (Hend _ Hc); [cbn; auto|reflexivity].
  - exfalso. destruct Hfail as [H|[(_ & H)|(_ & _ & H & _)]]; congruence.
  - assert (e' = e)
      by (destruct Hfail as [H|[(_ & H)|(_ & _ & _ & H)]]; congruence).
    subst e'. split; [exact Hs|]. apply (Hend _ Hc); [cbn; auto|reflexivity].
Qed.

(** The paper is created and the record file cannot be opened. *)
Lemma persistence_failure_is_raised_witness :
  snd (save_new_paper Edge.world_record_unwritable Scenario.paper)
  = Raise (ExternalError 13)
  /\ In (EvSetPageId Scenario.PID)
        (fst (save_new_paper Edge.world_record_unwritable Scenario.paper))
  /\ never is_record_write
       (fst (save_new_paper Edge.world_record_unwritable Scenario.paper)).
Proof.
  apply (@persistence_failure_is_raised Edge.world_record_unwritable
           Scenario.paper Edge.posted_body
           [(lit "success", PyBool true); (lit "data", Scenario.PID)]).
  - vm_compute. repeat (first [left; reflexivity | right]).
  - reflexivity.
  - reflexivity.
  - right. left. split; reflexivity.
Defined.

(** ** The body of the paper-creation request *)

Lemma iterencode_dict_braces (indent : option nat) (level : nat) (d : dict) :
  exists p, iterencode indent level (PyDict d) = wrap_braces p.
Proof.
  destruct d as [|kv kvs]; [exists []; reflexivity|].
  cbn [iterencode]. unfold wrap_braces.
  eexists. f_equal. rewrite !List.app_assoc. reflexivity.
Qed.

Lemma merge_attachment_dict (base : dict) (pp : option str) (t : trace)
  (pd : pyobj) :
  merge_attachment (PyDict base) pp = (t, Return pd) -> exists d, pd = PyDict d.
Proof.
  unfold merge_attachment.
  destruct pp as [[|c p]|]; try (intros H; injection H as _ <-; eauto).
  destruct (split_once COLON (c :: p)) as [|k [|v [|x l]]];
    try (intros H; injection H as _ <-; eauto).
  destruct (json_loads v); [|discriminate].
  intros H; injection H as _ <-; eauto.
Qed.

Lemma assemble_payload_dict (frag : str) (pp : option str) (ta : trace)
  (body : str) :
  assemble_payload frag pp = (ta, Return body) ->
  exists d, body = json_dumps None (PyDict d).
Proof.
  unfold assemble_payload, parse_fragment.
  destruct (json_loads (wrap_braces (trim_fragment frag))) as [pd|] eqn:Hpd;
    [|discriminate].
  destruct (json_loads_wrap_braces_dict _ Hpd) as (base & ->).
  unfold bind at 1. unfold ret at 1.
  destruct (merge_attachment (PyDict base) pp) as [t [pd|e]] eqn:Hm;
    [|discriminate].
  destruct (merge_attachment_dict _ _ Hm) as (d & ->).
  cbn. intros H; injection H as _ <-. eauto.
Qed.

(** Every body posted to the paper-creation endpoint is the compact
    [json.dumps] text of a mapping; [json.loads] accepts it and reads a
    mapping, the posted one when it is plain. *)
Theorem posted_body_is_a_json_object
  (W : World) (qp : question_page) (body : str) :
  In (EvEvaluate (SaveRequest body)) (fst (save_new_paper W qp)) ->
  exists payload_dict decoded,
    body = json_dumps None (PyDict payload_dict)
    /\ json_loads body = Some (PyDict decoded)
    /\ (plain (PyDict payload_dict) = true -> decoded = payload_dict).
Proof.
  intros Hin.
  destruct (save_new_paper_submitted _ _ _ Hin)
    as (_ & _ & _ & _ & _ & frag & pp & ta & _ & _ & Ha).
  destruct (assemble_payload_dict _ _ Ha) as (d & ->).
  destruct (json_loads_dumps None (PyDict d)) as (v & Hv).
  destruct (iterencode_dict_braces None 0 d) as (p & Hp).
  assert (Hd : exists d', v = PyDict d').
  { apply (json_loads_wrap_braces_dict p). unfold json_dumps in Hv.
    now rewrite Hp in Hv. }
  destruct Hd as (d' & ->).
  exists d, d'. split; [reflexivity|]. split; [exact Hv|].
  intros Hplain. rewrite (json_loads_dumps_exact None _ Hplain) in Hv.
  now injection Hv.
Qed.

(** The end-to-end scenario. *)
Lemma posted_body_is_a_json_object_witness :
  exists payload_dict decoded,
    Edge.posted_body = json_dumps None (PyDict payload_dict)
    /\ json_loads Edge.posted_body = Some (PyDict decoded)
    /\ (plain (PyDict payload_dict) = true -> decoded = payload_dict).
Proof.
  apply (@posted_body_is_a_json_object Scenario.world_ok Scenario.paper).
  vm_compute. repeat (first [left; reflexivity | right]).
Defined.

(** The attachment list reaches the payload unchanged: when [upload_pdf]
    returns a string and the trimmed fragment of the language model parses
    to a mapping, and the [data] of the notification answer is plain (made
    of [None], booleans, integers, strings, lists and mappings with
    distinct keys), the body posted to the paper-creation endpoint is the
    [json.dumps] text of that mapping with [attachments] set to [data]
    itself: the round trip through the indented text of line 180 and
    [json.loads] of line 207 loses nothing. *)
Theorem posted_attachments_are_the_notified_data
  (W : World) (qp : question_page) (frag : str) (tu : trace) (s : str)
  (pd : pyobj) :
  ask_llm_for_playload W (llm_prompt qp) = Return frag ->
  upload_pdf W (pdf_path qp) = (tu, Return (Some s)) ->
  json_loads (wrap_braces (trim_fragment frag)) = Some pd ->
  exists base fileUrl d data,
    pd = PyDict base
    /\ In (EvEvaluate
             (NotifyRequest (os_path_basename W (pdf_path qp)) fileUrl)) tu
    /\ page_evaluate W
         (NotifyRequest (os_path_basename W (pdf_path qp)) fileUrl)
       = Return (PyDict d)
    /\ dict_get (lit "data") d = Some data
    /\ (plain data = true ->
        In (EvEvaluate
              (SaveRequest
                 (json_dumps None
                    (PyDict (dict_set (lit "attachments") data base)))))
           (fst (save_new_paper W qp))).
Proof.
  intros Hllm Hup Hpd.
  destruct (json_loads_wrap_braces_dict _ Hpd) as (base & ->).
  destruct (upload_pdf_some _ _ Hup)
    as (info & d & data & Hin & Hr & _ & Hd & ->).
  exists base, (url info), d, data.
  split; [reflexivity|]. split; [exact Hin|]. split; [exact Hr|].
  split; [exact Hd|]. intros Hplain.
  assert (Hm : merge_attachment (PyDict base)
                 (Some (ATTACHMENTS_PREFIX ++ json_dumps (Some 2%nat) data))
               = ([], Return (PyDict (dict_set (lit "attachments") data base)))).
  { rewrite (@merge_attachment_eq _ _ _ _ _ (attachments_prefix_split _)
               (json_loads_space_dumps_exact (Some 2%nat) data Hplain)).
    rewrite attachments_key. reflexivity. }
  assert (Ha : assemble_payload frag
                 (Some (ATTACHMENTS_PREFIX ++ json_dumps (Some 2%nat) data))
               = ([], Return (json_dumps None
                                (PyDict (dict_set (lit "attachments") data base))))).
  { unfold assemble_payload, parse_fragment. rewrite Hpd.
    unfold bind at 1. unfold ret at 1. rewrite Hm. reflexivity. }
  rewrite (@save_new_paper_submits W qp frag tu [] _ _ Hllm Hup Ha). cbn [fst].
  right. rewrite in_app_iff. right. cbn [List.app]. right. left. reflexivity.
Qed.

(** The end-to-end scenario: the attachment list [[{id: 7}]] is posted. *)
Lemma posted_attachments_are_the_notified_data_witness :
  In (EvEvaluate
        (SaveRequest
           (json_dumps None
              (PyDict [(lit "title", PyStr (lit "T"));
                       (lit "attachments",
                        PyList [PyDict [(lit "id", PyInt 7)]])]))))
     (fst (save_new_paper Scenario.world_ok Scenario.paper)).
Proof.
  destruct (@posted_attachments_are_the_notified_data Scenario.world_ok
              Scenario.paper Scenario.fragment
              (fst (upload_pdf Scenario.world_ok (pdf_path Scenario.paper)))
              (ATTACHMENTS_PREFIX
               ++ json_dumps (Some 2%nat) (PyList [PyDict [(lit "id", PyInt 7)]]))
              (PyDict [(lit "title", PyStr (lit "T"))]))
    as (base & u & d & data & Hb & _ & Hr & Hd & Hpost).
  - reflexivity.
  - vm_compute. reflexivity.
  - vm_compute. reflexivity.
  - injection Hb as <-.
    change (page_evaluate Scenario.world_ok (NotifyRequest _ u))
      with (Return Scenario.notify_response) in Hr.
    injection Hr as <-. injection Hd as <-.
    apply Hpost. reflexivity.
Defined.

(** ** What line 192 removes *)

Lemma rstrip_by_decompose (p : char -> bool) (s : str) :
  exists w, s = rstrip_by p s ++ w /\ forallb p w = true.
Proof.
  induction s as [|c s (w & E & Hw)]; [exists []; split; reflexivity|].
  cbn [rstrip_by]. destruct (rstrip_by p s) as [|c' r'] eqn:Er.
  - destruct (p c) eqn:Hc.
    + exists (c :: s). split; [reflexivity|].
      cbn [List.app] in E. subst w. cbn. now rewrite Hc.
    + exists s. split; [reflexivity|]. cbn [List.app] in E. now subst w.
  - exists w. split; [|exact Hw]. rewrite E at 1. reflexivity.
Qed.

Lemma rstrip_by_last (p : char -> bool) (s t : str) (c : char) :
  rstrip_by p s = t ++ [c] -> p c = false.
Proof.
  revert t. induction s as [|x s IH]; intros t H; cbn [rstrip_by] in H.
  - now destruct t.
  - destruct (rstrip_by p s) as [|c' r'] eqn:Er.
    + destruct (p x) eqn:Hx; [now destruct t|].
      destruct t as [|y t]; [now injection H as <-|].
      injection H as _ H. now destruct t.
    + destruct t as [|y t]; [discriminate H|].
      injection H as _ H. now apply (IH t).
Qed.

(** Line 192 removes a run of commas followed by a run of whitespace from
    the end of the fragment, nothing else, and what it leaves does not
    end in a comma. *)
Theorem trimmed_fragment_has_no_trailing_comma (payload : str) :
  (exists cs ws,
     payload = trim_fragment payload ++ cs ++ ws
     /\ forallb (is_char COMMA) cs = true
     /\ forallb py_isspace ws = true)
  /\ forall t, trim_fragment payload <> t ++ [COMMA].
Proof.
  unfold trim_fragment, rstrip_chars, rstrip. split.
  - destruct (rstrip_by_decompose py_isspace payload) as (ws & E1 & Hws).
    destruct (rstrip_by_decompose (is_char COMMA) (rstrip_by py_isspace payload))
      as (cs & E2 & Hcs).
    exists cs, ws. split; [|split; assumption].
    rewrite List.app_assoc, <- E2. exact E1.
  - intros t H. apply rstrip_by_last in H. discriminate H.
Qed.

(** ** The trimming of line 192 and the result of [upload_pdf] *)

(** C4 (amended): for a fragment made of a body that ends neither in
    whitespace nor in a comma, followed by JSON whitespace, then commas,
    then whitespace (each run possibly empty, in this order), line 192
    leaves the body, followed by the JSON whitespace when there was a
    comma; when the body wrapped in braces parses to a mapping, the
    trimmed fragment wrapped in braces parses to the same mapping. *)
Theorem C4_trailing_commas_after_the_body_are_tolerated
  (body w1 cs w2 : str) (v : pyobj) :
  rstrip body = body ->
  rstrip_chars COMMA body = body ->
  forallb is_json_ws w1 = true ->
  forallb (is_char COMMA) cs = true ->
  forallb py_isspace w2 = true ->
  json_loads (wrap_braces body) = Some v ->
  trim_fragment (body ++ w1 ++ cs ++ w2)
  = match cs with [] => body | _ :: _ => body ++ w1 end
  /\ json_loads (wrap_braces (trim_fragment (body ++ w1 ++ cs ++ w2))) = Some v.
Proof.
  intros Hb1 Hb2 Hw1 Hcs Hw2 Hv.
  pose proof (@trim_fragment_tail body w1 cs w2 Hb1 Hb2 Hw1 Hcs Hw2) as Ht.
  split; [exact Ht|]. rewrite Ht.
  destruct cs as [|c cs]; [exact Hv|].
  refine (json_loads_padded _ Hv). unfold wrap_braces.
  constructor. now apply padded_app.
Qed.

(** C4, witness: a body followed by a comma and a newline. *)
Lemma C4_witness :
  trim_fragment
    ((quoted (lit "title") ++ lit ": " ++ quoted (lit "T"))
     ++ [] ++ [COMMA] ++ [NEWLINE])
  = quoted (lit "title") ++ lit ": " ++ quoted (lit "T")
  /\ json_loads
       (wrap_braces
          (trim_fragment
             ((quoted (lit "title") ++ lit ": " ++ quoted (lit "T"))
              ++ [] ++ [COMMA] ++ [NEWLINE])))
     = Some (PyDict [(lit "title", PyStr (lit "T"))]).
Proof.
  apply (@C4_trailing_commas_after_the_body_are_tolerated
           (quoted (lit "title") ++ lit ": " ++ quoted (lit "T"))
           [] [COMMA] [NEWLINE]);
    vm_compute; reflexivity.
Defined.

(** C4 as stated fails: the fragment [Scenario.fragment_two_commas] is a
    body that parses, followed by a comma, a blank and a comma, that is
    by commas and whitespace only; line 192 strips the last comma and
    leaves the first comma and the blank, and the wrapped text does not
    parse. *)
Lemma C4_counterexample :
  Scenario.fragment_two_commas
  = (quoted (lit "title") ++ lit ": " ++ quoted (lit "T")) ++ lit ", ,"
  /\ forallb (fun c => is_char COMMA c || py_isspace c) (lit ", ,") = true
  /\ json_loads (wrap_braces (quoted (lit "title") ++ lit ": " ++ quoted (lit "T")))
     = Some (PyDict [(lit "title", PyStr (lit "T"))])
  /\ trim_fragment Scenario.fragment_two_commas
     = (quoted (lit "title") ++ lit ": " ++ quoted (lit "T")) ++ lit ", "
  /\ json_loads (wrap_braces (trim_fragment Scenario.fragment_two_commas)) = None.
Proof. repeat split; vm_compute; reflexivity. Qed.



(** ** The script entry *)

(** [main] closes the browser only on the way out of a pipeline that
    returned: when the page was downloaded and [save_new_paper] raises (a
    malformed fragment, incomplete credentials, a record that cannot be
    written), [main] raises the same exception, [browser.close] is not
    called and the script prints no result. *)
Theorem pipeline_exception_leaves_the_browser_open
  (W : World) (S : Session) (page_data : question_page) (e : exn) :
  connect_to_browser_and_page S = None ->
  download_page S = Return page_data ->
  snd (save_new_paper W page_data) = Raise e ->
  snd (main W S) = Raise e
  /\ ~ In StepBrowserClose (fst (main W S))
  /\ snd (script W S) = Raise e
  /\ forall result, ~ In (StepPrintResult result) (fst (script W S)).
Proof.
  intros Hc Hd Hs. unfold script, main. rewrite Hc, Hd.
  destruct (save_new_paper W page_data) as [t o]. cbn [snd] in Hs. subst o.
  cbn [fst snd].
  assert (Hno : forall st, (forall ev, st <> StepPipeline ev) ->
                  st <> StepConnect -> st <> StepDownloadPage ->
                  ~ In st (StepConnect :: StepDownloadPage :: map StepPipeline t)).
  { intros st Hp H1 H2 [H|[H|H]]; [now apply H1|now apply H2|].
    apply in_map_iff in H as (ev & H & _). now apply (Hp ev). }
  split; [reflexivity|]. split; [apply Hno; discriminate|].
  split; [reflexivity|]. intros result. apply Hno; discriminate.
Qed.

(** The language model's fragment is malformed. *)
Lemma pipeline_exception_leaves_the_browser_open_witness :
  snd (main Scenario.world_malformed
         {| connect_to_browser_and_page := None;
            download_page := Return Scenario.paper;
            browser_close := None |}) = Raise JSONDecodeError
  /\ ~ In StepBrowserClose
         (fst (main Scenario.world_malformed
                 {| connect_to_browser_and_page := None;
                    download_page := Return Scenario.paper;
                    browser_close := None |}))
  /\ snd (script Scenario.world_malformed
            {| connect_to_browser_and_page := None;
               download_page := Return Scenario.paper;
               browser_close := None |}) = Raise JSONDecodeError
  /\ forall result,
       ~ In (StepPrintResult result)
            (fst (script Scenario.world_malformed
                    {| connect_to_browser_and_page := None;
                       download_page := Return Scenario.paper;
                       browser_close := None |})).
Proof.
  apply (@pipeline_exception_leaves_the_browser_open Scenario.world_malformed
           {| connect_to_browser_and_page := None;
              download_page := Return Scenario.paper;
              browser_close := None |} Scenario.paper JSONDecodeError).
  - reflexivity.
  - reflexivity.
  - vm_compute. reflexivity.
Defined.
